(** * Forecasting example (Chapter01/forecasting/forecasting_example.py)

    A shallow embedding of the data-shaping and orchestration code of the
    script: [prep_store_data], [train_predict], [plot_forecast],
    [plot_store_data], [download_kaggle_dataset] and the script body.

    The script is glue over pandas, Prophet, mlflow and matplotlib.  Tables
    are modelled as the script uses them (labelled rows under named columns,
    mutated in place where the script does so); the library calls whose
    results the script only passes along (date parsing, the sorting
    algorithm, model fitting, cross-validation, the tracking backend, the
    drawing calls) are interfaces with the laws the script relies on, each
    with a computable instance used by the examples.  Python floats are IEEE 754 binary64
    values ([SpecFloat], precision 53, emax 1024). *)

From Stdlib Require Import ZArith Lia Sorting.Sorted Permutation.
From Stdlib Require Import Strings.Ascii Floats.SpecFloat.
From stdpp Require Import base option list gmap strings pretty sorting.

(** ** Python exceptions and the state-and-exception monad *)

Inductive exn :=
  | KeyError (key : string)
  | NameError (name : string)
  | ValueError (msg : string)
  | TypeError (msg : string)
  | OverflowError (msg : string)
  | MlflowException (msg : string)
  | LibraryError (msg : string)
  (** [Unsupported]: the script reaches pandas behaviour this model does not
      cover (a column label that names several columns, a dangling
      reference).  No theorem below is stated about such runs. *)
  | Unsupported (what : string).

Inductive result (A : Type) :=
  | Ok (a : A)
  | Raise (e : exn).
Arguments Ok {A} a.
Arguments Raise {A} e.

Definition is_ok {A} (r : result A) : bool :=
  match r with Ok _ => true | Raise _ => false end.

Definition result_bind {A B} (r : result A) (k : A → result B) : result B :=
  match r with
  | Ok a => k a
  | Raise e => Raise e
  end.

(** A computation over a state [S]: it returns a value or raises, and the
    state changes made before an exception stay (Python does not roll back). *)
Definition M (S A : Type) : Type := S → result A * S.

Global Instance M_ret {S} : MRet (M S) := λ A a s, (Ok a, s).
Global Instance M_bind {S} : MBind (M S) := λ A B k m s,
  match m s with
  | (Ok a, s') => k a s'
  | (Raise e, s') => (Raise e, s')
  end.

Definition get {S} : M S S := λ s, (Ok s, s).
Definition put {S} (s : S) : M S unit := λ _, (Ok tt, s).
Definition modify {S} (f : S → S) : M S unit := λ s, (Ok tt, f s).
Definition raise {S A} (e : exn) : M S A := λ s, (Raise e, s).
Definition lift {S A} (r : result A) : M S A := λ s, (r, s).

(** ** pandas tables *)

Local Open Scope string_scope.

(** A scalar held in a table cell. *)
Inductive cell :=
  | VInt (z : Z)
  | VFloat (x : spec_float)
  | VStr (s : string)
  | VTime (ns : Z)        (** a Timestamp, nanoseconds since the epoch *)
  | VNaT.                 (** a missing Timestamp *)

Global Instance spec_float_eq_dec : EqDecision spec_float.
Proof. solve_decision. Defined.

Global Instance cell_eq_dec : EqDecision cell.
Proof. solve_decision. Defined.

(** dtype datetime64: a Timestamp or NaT. *)
Definition is_datetime (c : cell) : bool :=
  match c with VTime _ | VNaT => true | _ => false end.

Record row := Row { label : Z; cells : list cell }.

Global Instance row_eq_dec : EqDecision row.
Proof. solve_decision. Defined.

Record DataFrame := Frame { columns : list string; rows : list row }.

Global Instance DataFrame_eq_dec : EqDecision DataFrame.
Proof. solve_decision. Defined.

(** A Series: the values of one column, each with its row label. *)
Definition Series := list (Z * cell).

(** The values of a Series, without the labels. *)
Definition values (s : Series) : list cell := map snd s.

(** [df.shape[0]] *)
Definition shape0 (df : DataFrame) : nat := length (rows df).

(** The positions at which a label occurs among the column names. *)
Fixpoint positions (name : string) (cols : list string) (i : nat) : list nat :=
  match cols with
  | [] => []
  | c :: cs =>
      if String.eqb c name then i :: positions name cs (S i)
      else positions name cs (S i)
  end.

(** Resolve a column label: [KeyError] when absent.  A label that names
    several columns makes [df[label]] a DataFrame; the script's next steps on
    it are not modelled. *)
Definition col_pos (name : string) (cols : list string) : result nat :=
  match positions name cols 0 with
  | [] => Raise (KeyError name)
  | [i] => Ok i
  | _ => Raise (Unsupported "label names several columns")
  end.

Definition cell_at (i : nat) (r : row) : cell := nth i (cells r) VNaT.

(** [df[name]] *)
Definition get_column (df : DataFrame) (name : string) : result Series :=
  result_bind (col_pos name (columns df)) (λ i,
    Ok (map (λ r, (label r, cell_at i r)) (rows df))).

Fixpoint set_nth (i : nat) (c : cell) (l : list cell) : list cell :=
  match l, i with
  | [], _ => []
  | _ :: l', O => c :: l'
  | x :: l', S i' => x :: set_nth i' c l'
  end.

(** [df[name] = s] for an existing column [name] and a Series [s] that
    carries the table's own index: the values are stored row by row. *)
Fixpoint store_values (i : nat) (rs : list row) (s : Series) : list row :=
  match rs, s with
  | r :: rs', (_, v) :: s' =>
      Row (label r) (set_nth i v (cells r)) :: store_values i rs' s'
  | _, _ => rs
  end.

Definition set_column (df : DataFrame) (name : string) (s : Series)
  : result DataFrame :=
  result_bind (col_pos name (columns df)) (λ i,
    Ok (Frame (columns df) (store_values i (rows df) s))).

(** [df.rename(columns=mapper)]: labels absent from the mapper, and mapper
    keys absent from the table, are left alone. *)
Fixpoint rename_label (mapper : list (string * string)) (c : string) : string :=
  match mapper with
  | [] => c
  | (old, new) :: rest => if String.eqb c old then new else rename_label rest c
  end.

Definition rename (mapper : list (string * string)) (df : DataFrame) : DataFrame :=
  Frame (map (rename_label mapper) (columns df)) (rows df).

(** [series == z], element by element: only an integer (or a float holding
    that integer) compares equal to a Python int. *)
Definition float_of_Z (z : Z) : spec_float := binary_normalize 53 1024 z 0 false.

Definition cell_eq_int (z : Z) (c : cell) : bool :=
  match c with
  | VInt a => Z.eqb a z
  | VFloat x => SFeqb x (float_of_Z z)
  | _ => false
  end.

Definition series_eq (s : Series) (z : Z) : list bool :=
  map (λ lv, cell_eq_int z (snd lv)) s.

(** [m1 & m2] *)
Fixpoint mask_and (m1 m2 : list bool) : list bool :=
  match m1, m2 with
  | b1 :: m1', b2 :: m2' => (b1 && b2) :: mask_and m1' m2'
  | _, _ => []
  end.

(** [df[mask]]: the rows whose mask entry is True, with their labels. *)
Fixpoint select_rows (rs : list row) (mask : list bool) : list row :=
  match rs, mask with
  | r :: rs', b :: mask' =>
      if b then r :: select_rows rs' mask' else select_rows rs' mask'
  | _, _ => []
  end.

Definition boolean_index (df : DataFrame) (mask : list bool) : DataFrame :=
  Frame (columns df) (select_rows (rows df) mask).

(** [df.reset_index(drop=True)]: the labels become 0, 1, 2, ... *)
Fixpoint relabel (from : Z) (rs : list row) : list row :=
  match rs with
  | [] => []
  | r :: rs' => Row from (cells r) :: relabel (from + 1) rs'
  end.

Definition reset_index (df : DataFrame) : DataFrame :=
  Frame (columns df) (relabel 0 (rows df)).

(** The sort key of a datetime cell; NaT has none. *)
Definition time_key (c : cell) : option Z :=
  match c with VTime t => Some t | _ => None end.

(** Ascending order with missing values last ([na_position='last']). *)
Definition key_le (a b : option Z) : Prop :=
  match a, b with
  | Some x, Some y => (x ≤ y)%Z
  | _, None => True
  | None, Some _ => False
  end.

Global Instance key_le_dec a b : Decision (key_le a b).
Proof. destruct a, b; simpl; apply _. Defined.

(** The pandas functions the script calls and whose code is pandas' own:
    the conversion [pd.to_datetime] applies to each value of the column at
    hand, and the indirect sort behind [sort_values].  The laws are what the
    script relies on: a converted value has dtype datetime64, and the sort
    returns a permutation of the positions that puts a datetime column in
    ascending order with NaT last (the default algorithm, quicksort, fixes no
    order among ties). *)
Class Pandas := {
  to_datetime_scalar : cell → result cell;
  argsort : list cell → result (list nat);
  to_datetime_dtype c c' :
    to_datetime_scalar c = Ok c' → is_datetime c' = true;
  argsort_perm ks p :
    argsort ks = Ok p → p ≡ₚ seq 0 (length ks);
  argsort_sorted ks p :
    argsort ks = Ok p → Forall (λ c, is_datetime c = true) ks →
    Sorted key_le (map (λ i, time_key (nth i ks VNaT)) p);
  argsort_datetime ks :
    Forall (λ c, is_datetime c = true) ks → is_ok (argsort ks) = true
}.

Section Prep.
Context {P : Pandas}.

(** [pd.to_datetime(series)]: the first value that fails to convert raises. *)
Fixpoint to_datetime (s : Series) : result Series :=
  match s with
  | [] => Ok []
  | (l, v) :: s' =>
      result_bind (to_datetime_scalar v) (λ v',
      result_bind (to_datetime s') (λ r, Ok ((l, v') :: r)))
  end.

(** [df.sort_values(by, ascending=True)]: [ValueError] when the label is not
    unique; the rows are taken in the order the indirect sort gives. *)
Definition sort_values (by_ : string) (df : DataFrame) : result DataFrame :=
  match positions by_ (columns df) 0 with
  | [] => Raise (KeyError by_)
  | [i] =>
      result_bind (argsort (map (cell_at i) (rows df))) (λ p,
        Ok (Frame (columns df)
                  (map (λ k, nth k (rows df) (Row 0 [])) p)))
  | _ => Raise (ValueError "The column label is not unique.")
  end.

(** *** The object store

    A DataFrame variable holds a reference; [prep_store_data] assigns into
    the table its caller passed and renames its columns in place. *)
Definition loc := positive.

Definition deref (l : loc) : M (gmap loc DataFrame) DataFrame := λ h,
  match h !! l with
  | Some df => (Ok df, h)
  | None => (Raise (Unsupported "dangling reference"), h)
  end.

Definition assign (l : loc) (df : DataFrame) : M (gmap loc DataFrame) unit :=
  modify (<[l := df]>).

Definition alloc (df : DataFrame) : M (gmap loc DataFrame) loc := λ h,
  let l := fresh (dom h) in (Ok l, <[l := df]> h).

Definition default_store_id : Z := 4.
Definition default_store_open : Z := 1.

(** [{"Date": "ds", "Sales": "y"}] *)
Definition column_mapper : list (string * string) :=
  [("Date", "ds"); ("Sales", "y")].

(** Lines 43-51. *)
Definition prep_store_data (df : loc) (store_id store_open : Z)
  : M (gmap loc DataFrame) loc :=
  (* df["Date"] = pd.to_datetime(df["Date"]) *)
  d ← deref df;
  dates ← lift (get_column d "Date");
  parsed ← lift (to_datetime dates);
  d' ← lift (set_column d "Date" parsed);
  _ ← assign df d';
  (* df.rename(columns={"Date": "ds", "Sales": "y"}, inplace=True) *)
  d ← deref df;
  _ ← assign df (rename column_mapper d);
  (* df_store = df[(df["Store"] == store_id) & (df["Open"] == store_open)]
                  .reset_index(drop=True) *)
  d ← deref df;
  store ← lift (get_column d "Store");
  open ← lift (get_column d "Open");
  let df_store :=
    reset_index
      (boolean_index d
         (mask_and (series_eq store store_id) (series_eq open store_open))) in
  (* return df_store.sort_values("ds", ascending=True) *)
  sorted ← lift (sort_values "ds" df_store);
  alloc sorted.

(** *** Predicates for the statements about [prep_store_data] *)

(** The table the call leaves behind in the caller's object: column [i]
    holds the converted values and the columns are renamed. *)
Definition staged (d : DataFrame) (i : nat) (parsed : Series) : DataFrame :=
  rename column_mapper (Frame (columns d) (store_values i (rows d) parsed)).

(** [r'] is the row [r] with the value at position [i] converted to a
    datetime. *)
Definition converted (i : nat) (r r' : row) : Prop :=
  label r' = label r ∧
  ∃ v, to_datetime_scalar (cell_at i r) = Ok v ∧
       cells r' = set_nth i v (cells r).

(** The table has the columns the function reads, each under one label, and
    no column already called [ds]. *)
Definition source_columns (d : DataFrame) : bool :=
  is_ok (col_pos "Date" (columns d))
  && is_ok (col_pos "Store" (columns d))
  && is_ok (col_pos "Open" (columns d))
  && bool_decide ("ds" ∉ columns d).

(** Every value of the [Date] column converts. *)
Definition dates_convert (d : DataFrame) : bool :=
  is_ok (result_bind (get_column d "Date") to_datetime).

End Prep.

(** The row passes the filter of line 48, the store and open flags being at
    positions [js] and [jo]. *)
Definition row_matches (js jo : nat) (sid so : Z) (r : row) : bool :=
  cell_eq_int sid (cell_at js r) && cell_eq_int so (cell_at jo r).

(** No row of the table belongs to the store. *)
Definition store_absent (d : DataFrame) (sid : Z) : bool :=
  match col_pos "Store" (columns d) with
  | Ok js => forallb (λ r, negb (cell_eq_int sid (cell_at js r))) (rows d)
  | Raise _ => false
  end.

(** ** Python floats and ints *)

(** [float * int] converts the int operand first; an int beyond the float
    range raises. *)
Definition int_to_float (z : Z) : result spec_float :=
  match float_of_Z z with
  | S754_infinity _ => Raise (OverflowError "int too large to convert to float")
  | x => Ok x
  end.

Definition float_mul (x y : spec_float) : spec_float := SFmul 53 1024 x y.

(** [int(x)]: truncation toward zero. *)
Definition float_to_int (x : spec_float) : result Z :=
  match x with
  | S754_nan => Raise (ValueError "cannot convert float NaN to integer")
  | S754_infinity _ =>
      Raise (OverflowError "cannot convert float infinity to integer")
  | S754_zero _ => Ok 0%Z
  | S754_finite s m e => Ok (cond_Zopp s (Z.shiftl (Z.pos m) e))
  end.

(** [math.floor(x)], for a finite [x]. *)
Definition float_floor (x : spec_float) : option Z :=
  match x with
  | S754_zero _ => Some 0%Z
  | S754_finite s m e => Some (Z.shiftl (cond_Zopp s (Z.pos m)) e)
  | _ => None
  end.

(** A float strictly between 0 and 1. *)
Definition in_unit_interval (x : spec_float) : bool :=
  valid_binary 53 1024 x
  && SFltb (S754_zero false) x
  && SFltb x (SFone 53 1024).

(** The literal [0.8]: the binary64 value nearest to 8/10. *)
Definition float_0_8 : spec_float :=
  SFdiv 53 1024 (float_of_Z 8) (float_of_Z 10).

(** The literal [0.95] *)
Definition float_0_95 : spec_float :=
  SFdiv 53 1024 (float_of_Z 95) (float_of_Z 100).

(** ** Positional slicing *)

(** A slice bound as Python clamps it for a sequence of [n] items. *)
Definition slice_bound (n : nat) (i : Z) : nat :=
  if (i <? 0)%Z then Z.to_nat (Z.max 0 (i + Z.of_nat n))
  else Z.to_nat (Z.min i (Z.of_nat n)).

(** [df.iloc[start:stop]]; [None] is an omitted bound. *)
Definition iloc (start stop : option Z) (df : DataFrame) : DataFrame :=
  let n := shape0 df in
  let a := from_option (slice_bound n) 0 start in
  let b := from_option (slice_bound n) n stop in
  Frame (columns df) (take (b - a) (drop a (rows df))).

(** [df.copy()]: a new object with the same contents. *)
Definition copy (df : DataFrame) : DataFrame := Frame (columns df) (rows df).

(** [df.loc[lbl, col]] as a scalar access. *)
Definition loc_scalar (df : DataFrame) (lbl : Z) (col : string) : result cell :=
  result_bind (col_pos col (columns df)) (λ i,
    match filter (λ r, label r = lbl) (rows df) with
    | [] => Raise (KeyError "row label")
    | [r] => Ok (cell_at i r)
    | _ => Raise (Unsupported "label names several rows")
    end).

(** ** The tracking runs of mlflow *)

Inductive run_status := FINISHED | FAILED.

Global Instance run_status_eq_dec : EqDecision run_status.
Proof. solve_decision. Defined.

Record Tracker := {
  active_run_stack : list nat;             (** the innermost run is first *)
  next_run_id : nat;
  terminated : list (nat * run_status)
}.

(** The libraries the fitting step calls: Prophet, its diagnostics and the
    tracking backend.  Each call acts on the libraries' own state [W] and may
    raise; the script passes their results along. *)
Class Libraries (W Model : Type) := {
  Prophet : bool → bool → bool → spec_float → Model;
  fit : Model → DataFrame → W → result Model * W;
  cross_validation :
    Model → string → string → string → W → result DataFrame * W;
  performance_metrics : DataFrame → W → result DataFrame * W;
  backend_log_metric : nat → string → cell → W → result unit * W;
  backend_log_model : nat → string → Model → W → result unit * W;
  predict : Model → DataFrame → W → result DataFrame * W
}.

Record Env (W : Type) := {
  tracker : Tracker;
  stdout : list string;
  world : W
}.
Arguments tracker {W} _.
Arguments stdout {W} _.
Arguments world {W} _.

Section Train.
Context {W Model : Type} {L : Libraries W Model}.

Definition ext {A} (f : W → result A * W) : M (Env W) A := λ s,
  let '(r, w) := f (world s) in
  (r, {| tracker := tracker s; stdout := stdout s; world := w |}).

Definition set_tracker (t : Tracker) : M (Env W) unit := λ s,
  (Ok tt, {| tracker := t; stdout := stdout s; world := world s |}).

Definition print (line : string) : M (Env W) unit := λ s,
  (Ok tt, {| tracker := tracker s; stdout := stdout s ++ [line];
             world := world s |}).

(** [mlflow.start_run()]: refuses to start while a run is active. *)
Definition start_run : M (Env W) nat :=
  s ← get;
  let t := tracker s in
  match active_run_stack t with
  | _ :: _ => raise (MlflowException "a run is already active")
  | [] =>
      let id := next_run_id t in
      _ ← set_tracker {| active_run_stack := [id];
                         next_run_id := S id;
                         terminated := terminated t |};
      mret id
  end.

(** [mlflow.end_run(status)]: closes the innermost active run, if any. *)
Definition end_run (status : run_status) : M (Env W) unit :=
  s ← get;
  let t := tracker s in
  match active_run_stack t with
  | [] => mret tt
  | id :: rest =>
      set_tracker {| active_run_stack := rest;
                     next_run_id := next_run_id t;
                     terminated := (id, status) :: terminated t |}
  end.

(** [ActiveRun.__exit__]: the status records whether the block raised; the
    exception, if any, is not swallowed. *)
Definition run_exit (raised : bool) : M (Env W) unit :=
  end_run (if raised then FAILED else FINISHED).

(** [with enter as x: body]: [exit] runs when the body returns and when it
    raises, and the body's exception then propagates. *)
Definition with_ {S A B} (enter : M S A) (exit : bool → M S unit)
    (body : A → M S B) : M S B := λ s,
  match enter s with
  | (Raise e, s1) => (Raise e, s1)
  | (Ok a, s1) =>
      match body a s1 with
      | (Ok b, s2) =>
          match exit false s2 with
          | (Ok _, s3) => (Ok b, s3)
          | (Raise e, s3) => (Raise e, s3)
          end
      | (Raise e, s2) =>
          match exit true s2 with
          | (Ok _, s3) => (Raise e, s3)
          | (Raise e', s3) => (Raise e', s3)
          end
      end
  end.

(** The run the fluent API logs to: the active one, started if absent. *)
Definition get_or_start_run : M (Env W) nat :=
  s ← get;
  match active_run_stack (tracker s) with
  | id :: _ => mret id
  | [] => start_run
  end.

Definition log_metric (key : string) (value : cell) : M (Env W) unit :=
  id ← get_or_start_run;
  ext (backend_log_metric id key value).

Definition log_model (path : string) (model : Model) : M (Env W) unit :=
  id ← get_or_start_run;
  ext (backend_log_model id path model).

(** [mlflow.active_run().info.run_id] *)
Definition active_run_id : M (Env W) nat :=
  s ← get;
  match active_run_stack (tracker s) with
  | id :: _ => mret id
  | [] => raise (TypeError "'NoneType' object has no attribute 'info'")
  end.

Definition dict_get (d : gmap string bool) (key : string) : M (Env W) bool :=
  match d !! key with
  | Some v => mret v
  | None => raise (KeyError key)
  end.

(** Lines 78-80: the split index and the two slices. *)
Definition split (df : DataFrame) (train_fraction : spec_float)
  : result (DataFrame * DataFrame * Z) :=
  result_bind (int_to_float (Z.of_nat (shape0 df))) (λ n,
  result_bind (float_to_int (float_mul train_fraction n)) (λ train_index,
    let df_train := iloc (Some 0%Z) (Some train_index) (copy df) in
    let df_test := iloc (Some train_index) None (copy df) in
    Ok (df_train, df_test, train_index))).

(** Lines 77-100: the block under [with mlflow.start_run()]. *)
Definition train_body (df : DataFrame) (train_fraction : spec_float)
    (seasonality : gmap string bool)
  : M (Env W) (DataFrame * DataFrame * DataFrame * Z) :=
  '(df_train, df_test, train_index) ← lift (split df train_fraction);
  yearly ← dict_get seasonality "yearly";
  weekly ← dict_get seasonality "weekly";
  daily ← dict_get seasonality "daily";
  let model := Prophet yearly weekly daily float_0_95 in
  model ← ext (fit model df_train);
  df_cv ← ext (cross_validation model "180 days" "180 days" "180 days");
  df_p ← ext (performance_metrics df_cv);
  rmse ← lift (loc_scalar df_p 0 "rmse");
  _ ← log_metric "rmse" rmse;
  _ ← log_model "model" model;
  id ← active_run_id;
  _ ← print ("logged model with URI: runs:/" ++ pretty id ++ "/model");
  predicted ← ext (predict model df_test);
  mret (predicted, df_train, df_test, train_index).

(** Lines 71-100. *)
Definition train_predict (df : DataFrame) (train_fraction : spec_float)
    (seasonality : gmap string bool)
  : M (Env W) (DataFrame * DataFrame * DataFrame * Z) :=
  with_ start_run run_exit (λ _, train_body df train_fraction seasonality).

(** A step that leaves the tracker alone while a run is active. *)
Definition keeps_run {A} (m : M (Env W) A) : Prop :=
  ∀ s, active_run_stack (tracker s) ≠ [] → tracker (m s).2 = tracker s.

(** A step that, while a run is active, leaves the tracker and the standard
    output alone. *)
Definition silent {A} (m : M (Env W) A) : Prop :=
  ∀ s, active_run_stack (tracker s) ≠ [] →
       tracker (m s).2 = tracker s ∧ stdout (m s).2 = stdout s.

End Train.

(** The line that line 98 prints for the run [id]. *)
Definition uri_line (id : nat) : string :=
  "logged model with URI: runs:/" ++ pretty id ++ "/model".

(** ** Plotting *)

(** What is drawn on the axes. *)
Inductive artist :=
  | Line (legend : string) (xs ys : list cell)
  | Band (xs upper lower : list cell)
  | TickLabels
  | AxisLabel (axis text : string).

Global Instance artist_eq_dec : EqDecision artist.
Proof. solve_decision. Defined.

(** A value a module-level name may be bound to. *)
Inductive pyval :=
  | PyInt (z : Z)
  | PyFloat (x : spec_float)
  | PyStr (s : string)
  | PyNone.

Record PlotEnv := {
  globals : gmap string pyval;          (** the module namespace *)
  axes : list artist;                   (** the current figure *)
  files : gmap string (list artist)     (** images written to disk *)
}.

(** The drawing calls of pandas and matplotlib that take data:
    [DataFrame.plot(x=, y=, ax=, label=, ...)] and [Axes.fill_between].  Each
    adds to the artists on the axes, or raises. *)
Class Plotting := {
  frame_plot :
    DataFrame → string → string → string → list artist → result (list artist);
  axes_fill_between :
    Series → Series → Series → list artist → result (list artist)
}.

Section Plot.
Context {G : Plotting}.

Definition set_axes (a : list artist) : M PlotEnv unit := λ s,
  (Ok tt, {| globals := globals s; axes := a; files := files s |}).

Definition draw (a : artist) : M PlotEnv unit :=
  s ← get; set_axes (axes s ++ [a]).

(** [plt.subplots(...)]: a new, empty figure. *)
Definition subplots : M PlotEnv unit := set_axes [].

(** [df.plot(x=x, y=y, ax=ax, label=legend, ...)] *)
Definition df_plot (df : DataFrame) (x y legend : string) : M PlotEnv unit :=
  s ← get;
  a ← lift (frame_plot df x y legend (axes s));
  set_axes a.

(** [ax.fill_between(x=..., y1=..., y2=...)] *)
Definition fill_between (xs y1 y2 : Series) : M PlotEnv unit :=
  s ← get;
  a ← lift (axes_fill_between xs y1 y2 (axes s));
  set_axes a.

(** A name that is not local to the function is read from the module
    namespace; an unbound name raises [NameError]. *)
Definition load_global (name : string) : M PlotEnv pyval :=
  s ← get;
  match globals s !! name with
  | Some v => mret v
  | None => raise (NameError name)
  end.

(** [v - 100] *)
Definition minus_100 (v : pyval) : M PlotEnv Z :=
  match v with
  | PyInt z => mret (z - 100)%Z
  | _ => raise (TypeError "unsupported operand type(s) for -")
  end.

(** [plt.savefig(path)] *)
Definition savefig (path : string) : M PlotEnv unit := λ s,
  (Ok tt, {| globals := globals s; axes := axes s;
             files := <[path := axes s]> (files s) |}).

(** Lines 106-133: the figure, the test series, the forecast and its
    confidence band. *)
Definition draw_forecast (df_test predicted : DataFrame) : M PlotEnv unit :=
  _ ← subplots;
  _ ← df_plot df_test "ds" "y" "Truth";
  _ ← df_plot predicted "ds" "yhat" "Prediction + 95% CI";
  x ← lift (get_column predicted "ds");
  y1 ← lift (get_column predicted "yhat_upper");
  y2 ← lift (get_column predicted "yhat_lower");
  fill_between x y1 y2.

(** Lines 134-148, once the slice of the training series is evaluated. *)
Definition draw_history (history : DataFrame) : M PlotEnv unit :=
  _ ← df_plot history "ds" "y" "_nolegend_";
  _ ← draw TickLabels;
  _ ← draw (AxisLabel "x" "Date");
  _ ← draw (AxisLabel "y" "Sales");
  savefig "store_data_forecast.png".

(** Lines 103-148.  [train_index] (line 134) is not a parameter and is not
    assigned in the body. *)
Definition plot_forecast (df_train df_test predicted : DataFrame)
  : M PlotEnv unit :=
  _ ← draw_forecast df_test predicted;
  train_index ← load_global "train_index";
  start ← minus_100 train_index;
  draw_history (iloc (Some start) None df_train).

(** A step that changes nothing but the axes. *)
Definition draws_only {A} (m : M PlotEnv A) : Prop :=
  ∀ s, globals (m s).2 = globals s ∧ files (m s).2 = files s.

End Plot.

(** ** [plot_store_data] *)

(** [Axes.legend(labels)] is matplotlib's own code: it changes the artists
    on the axes, or raises. *)
Class Legends := {
  axes_legend : list string → list artist → result (list artist)
}.

(** pyplot's settings, beside the figure. *)
Record Pyplot := {
  rc_params : gmap string Z;            (** [plt.rcParams] *)
  figure : PlotEnv
}.

Section StorePlot.
Context {G : Plotting} {GL : Legends}.

(** A step on the figure. *)
Definition on_figure {A} (m : M PlotEnv A) : M Pyplot A := λ s,
  let '(r, fig) := m (figure s) in
  (r, {| rc_params := rc_params s; figure := fig |}).

(** [plt.rcParams.update({key: value})] *)
Definition rc_update (key : string) (value : Z) : M Pyplot unit := λ s,
  (Ok tt, {| rc_params := <[key := value]> (rc_params s);
             figure := figure s |}).

(** [ax.legend(labels)] *)
Definition ax_legend (labels : list string) : M PlotEnv unit :=
  s ← get;
  a ← lift (axes_legend labels (axes s));
  set_axes a.

(** Lines 54-63.  [df.plot] without [label=] labels the line with the name
    of the [y] column. *)
Definition plot_store_data (df : DataFrame) : M Pyplot unit :=
  _ ← rc_update "font.size" 22;
  _ ← on_figure subplots;
  _ ← on_figure (df_plot df "ds" "y" "y");
  _ ← on_figure (draw (AxisLabel "x" "Date"));
  _ ← on_figure (draw (AxisLabel "y" "Sales"));
  _ ← on_figure (ax_legend ["Truth"]);
  _ ← on_figure (draw TickLabels);
  on_figure (savefig "store_data.png").

End StorePlot.

(** ** The script (lines 151-177) *)

(** The operating system and the Kaggle client, as the script calls them:
    [os.path.exists], [pd.read_csv], [kaggle.api.get_config_value] (the value,
    or [None]) and [kaggle.api.dataset_download_files]. *)
Class Platform (F : Type) := {
  path_exists : string → F → bool;
  read_csv : string → F → result DataFrame * F;
  get_config_value : string → F → result (option string) * F;
  dataset_download_files :
    string → string → bool → bool → F → result unit * F
}.

Record Script (F W : Type) := {
  platform : F;                         (** files and network *)
  heap : gmap loc DataFrame;            (** the DataFrame objects *)
  session : Env W;                      (** tracking, output, libraries *)
  pyplot : PlotEnv;                     (** module namespace and figure *)
  log_calls : list string               (** messages given to [logging.info] *)
}.
Arguments platform {F W} _.
Arguments heap {F W} _.
Arguments session {F W} _.
Arguments pyplot {F W} _.
Arguments log_calls {F W} _.

Section Main.
Context {P : Pandas} {G : Plotting}.
Context {W Model : Type} {L : Libraries W Model}.
Context {F : Type} {K : Platform F}.

Definition on_platform {A} (f : F → result A * F) : M (Script F W) A := λ s,
  let '(r, p) := f (platform s) in
  (r, {| platform := p; heap := heap s; session := session s;
         pyplot := pyplot s; log_calls := log_calls s |}).

Definition on_heap {A} (m : M (gmap loc DataFrame) A) : M (Script F W) A :=
  λ s,
  let '(r, h) := m (heap s) in
  (r, {| platform := platform s; heap := h; session := session s;
         pyplot := pyplot s; log_calls := log_calls s |}).

Definition on_session {A} (m : M (Env W) A) : M (Script F W) A := λ s,
  let '(r, e) := m (session s) in
  (r, {| platform := platform s; heap := heap s; session := e;
         pyplot := pyplot s; log_calls := log_calls s |}).

Definition on_pyplot {A} (m : M PlotEnv A) : M (Script F W) A := λ s,
  let '(r, g) := m (pyplot s) in
  (r, {| platform := platform s; heap := heap s; session := session s;
         pyplot := g; log_calls := log_calls s |}).

(** [logging.info(msg)] *)
Definition logging_info (msg : string) : M (Script F W) unit := λ s,
  (Ok tt, {| platform := platform s; heap := heap s; session := session s;
             pyplot := pyplot s; log_calls := log_calls s ++ [msg] |}).

(** An assignment to a name at module level. *)
Definition store_global (name : string) (v : pyval) : M PlotEnv unit := λ s,
  (Ok tt, {| globals := <[name := v]> (globals s); axes := axes s;
             files := files s |}).

(** [print(x)] for a string or [None]. *)
Definition str_of (x : option string) : string := from_option id "None" x.

Definition default_kaggle_dataset : string :=
  "pratyushakar/rossmann-store-sales".

(** Lines 33-40. *)
Definition download_kaggle_dataset (kaggle_dataset : string)
  : M (Script F W) unit :=
  username ← on_platform (get_config_value "username");
  _ ← on_session (print (str_of username));
  on_platform (dataset_download_files kaggle_dataset "./" true false).

(** Lines 154-163: the table read from [./train.csv], downloaded first when
    the file is not there. *)
Definition load_dataset : M (Script F W) loc :=
  let file_path := "./train.csv" in
  _ ← on_pyplot (store_global "file_path" (PyStr file_path));
  s ← get;
  raw ← (if path_exists file_path (platform s) then
           _ ← logging_info "Dataset found, reading into pandas dataframe.";
           on_platform (read_csv file_path)
         else
           _ ← logging_info "Dataset not found, downloading ...";
           _ ← download_kaggle_dataset default_kaggle_dataset;
           _ ← logging_info "Reading dataset into pandas dataframe.";
           on_platform (read_csv file_path));
  on_heap (alloc raw).

(** Lines 154-174: the script up to the assignment of line 172.  The names
    bound to tables and to the dictionary are variables here; [train_index],
    the one name a function of the file reads from the module namespace, is
    stored there. *)
Definition main_fit : M (Script F W) (DataFrame * DataFrame * DataFrame) :=
  df ← load_dataset;
  df ← on_heap (prep_store_data df default_store_id default_store_open);
  let seasonality : gmap string bool :=
    {[ "yearly" := true; "weekly" := true; "daily" := false ]} in
  series ← on_heap (deref df);
  '(predicted, df_train, df_test, train_index) ←
    on_session (train_predict series float_0_8 seasonality);
  _ ← on_pyplot (store_global "train_index" (PyInt train_index));
  mret (predicted, df_train, df_test).

(** Lines 151-177. *)
Definition main : M (Script F W) unit :=
  '(predicted, df_train, df_test) ← main_fit;
  on_pyplot (plot_forecast df_train df_test predicted).

End Main.

(** Where [df_train.iloc[n - 100:]] starts in a table of [n] rows: a
    negative start counts from the end of the table. *)
Definition history_start (n : nat) : nat :=
  if (n <? 100)%nat then (2 * n - 100)%nat else (n - 100)%nat.

(** ** Computable instances of the library interfaces *)

Local Open Scope Z_scope.

Definition digit_of (c : ascii) : option Z :=
  let n := Z.of_N (Ascii.N_of_ascii c) in
  if (48 <=? n) && (n <=? 57) then Some (n - 48) else None.

Fixpoint digits_value (acc : Z) (s : string) : option Z :=
  match s with
  | EmptyString => Some acc
  | String c s' =>
      match digit_of c with
      | Some d => digits_value (10 * acc + d) s'
      | None => None
      end
  end.

Definition is_leap (y : Z) : bool :=
  ((y mod 4 =? 0) && negb (y mod 100 =? 0)) || (y mod 400 =? 0).

Definition days_in_month (y m : Z) : Z :=
  if m =? 2 then (if is_leap y then 29 else 28)
  else if (m =? 4) || (m =? 6) || (m =? 9) || (m =? 11) then 30
  else 31.

(** Days from 1970-01-01 to the given civil date (proleptic Gregorian). *)
Definition days_from_civil (y m d : Z) : Z :=
  let y' := if m <=? 2 then y - 1 else y in
  let era := y' / 400 in
  let yoe := y' - era * 400 in
  let mp := (m + 9) mod 12 in
  let doy := (153 * mp + 2) / 5 + d - 1 in
  let doe := yoe * 365 + yoe / 4 - yoe / 100 + doy in
  era * 146097 + doe - 719468.

Definition ns_per_day : Z := 86400 * 1000000000.

(** A date written [YYYY-MM-DD], as in the Rossmann file. *)
Definition parse_iso_date (s : string) : option Z :=
  match s with
  | String y1 (String y2 (String y3 (String y4 (String "-"%char
      (String m1 (String m2 (String "-"%char (String d1 (String d2
      EmptyString))))))))) =>
      y ← digits_value 0 (String y1 (String y2 (String y3 (String y4 EmptyString))));
      m ← digits_value 0 (String m1 (String m2 EmptyString));
      d ← digits_value 0 (String d1 (String d2 EmptyString));
      if (1 <=? m) && (m <=? 12) && (1 <=? d) && (d <=? days_in_month y m)
      then Some (days_from_civil y m d * ns_per_day)
      else None
  | _ => None
  end.

Definition iso_to_datetime (c : cell) : result cell :=
  match c with
  | VStr s =>
      match parse_iso_date s with
      | Some t => Ok (VTime t)
      | None => Raise (ValueError "time data does not match format")
      end
  | VTime t => Ok (VTime t)
  | VNaT => Ok VNaT
  | VFloat S754_nan => Ok VNaT
  | VInt z => Ok (VTime z)
  | VFloat _ => Raise (Unsupported "to_datetime of a float")
  end.

Definition keyed_le (a b : nat * option Z) : Prop := key_le (snd a) (snd b).

Global Instance keyed_le_dec a b : Decision (keyed_le a b).
Proof. unfold keyed_le. apply _. Defined.

Fixpoint enumerate {A} (i : nat) (l : list A) : list (nat * A) :=
  match l with
  | [] => []
  | x :: l' => (i, x) :: enumerate (S i) l'
  end.

(** An indirect merge sort of a datetime column. *)
Definition merge_argsort (ks : list cell) : result (list nat) :=
  if forallb is_datetime ks
  then Ok (map fst (merge_sort keyed_le (enumerate 0 (map time_key ks))))
  else Raise (TypeError "not a datetime column").

(** The metrics table of the library stand-ins used by the examples. *)
Definition metrics_table : DataFrame :=
  Frame ["horizon"; "rmse"] [Row 0 [VInt 0; VFloat (float_of_Z 1)]].

(** [DataFrame.plot] looks up the [x] column, then the [y] column, and draws
    the line; [fill_between] draws the band. *)
Definition pandas_plotting : Plotting := {|
  frame_plot df x y legend a :=
    result_bind (get_column df x) (λ xs,
    result_bind (get_column df y) (λ ys,
      Ok (a ++ [Line legend (values xs) (values ys)])%list));
  axes_fill_between xs y1 y2 a :=
    Ok (a ++ [Band (values xs) (values y1) (values y2)])%list
|}.

(** Library stand-ins: Prophet as a forecaster that repeats the last column
    value, diagnostics that report one metrics row, a backend that accepts
    every write. *)
Definition naive_forecast (df : DataFrame) : DataFrame :=
  Frame ["ds"; "yhat"; "yhat_lower"; "yhat_upper"]
    (map (λ r, Row (label r)
                   [cell_at 0 r; VFloat (float_of_Z 0); VFloat (float_of_Z 0);
                    VFloat (float_of_Z 0)])
         (rows df)).

Definition naive_libraries : Libraries unit unit := {|
  Prophet _ _ _ _ := tt;
  fit m _ w := (Ok m, w);
  cross_validation _ _ _ _ w := (Ok metrics_table, w);
  performance_metrics _ w := (Ok metrics_table, w);
  backend_log_metric _ _ _ w := (Ok tt, w);
  backend_log_model _ _ _ w := (Ok tt, w);
  predict _ df w := (Ok (naive_forecast df), w)
|}.

(** The same, with a [fit] that raises. *)
Definition failing_fit_libraries : Libraries unit unit := {|
  Prophet _ _ _ _ := tt;
  fit _ _ w := (Raise (LibraryError "fit"), w);
  cross_validation _ _ _ _ w := (Ok metrics_table, w);
  performance_metrics _ w := (Ok metrics_table, w);
  backend_log_metric _ _ _ w := (Ok tt, w);
  backend_log_model _ _ _ w := (Ok tt, w);
  predict _ df w := (Ok (naive_forecast df), w)
|}.

(** A legend that gives the labels to the lines on the axes, in order. *)
Fixpoint relegend (labels : list string) (a : list artist) : list artist :=
  match a, labels with
  | Line _ xs ys :: a', l :: ls => Line l xs ys :: relegend ls a'
  | x :: a', _ => x :: relegend labels a'
  | [], _ => []
  end.

Definition line_legends : Legends := {|
  axes_legend labels a := Ok (relegend labels a)
|}.

(** A disk that holds parsed csv files, and a Kaggle account [reader] whose
    download brings the given file. *)
Definition disk_platform (remote : DataFrame)
  : Platform (gmap string DataFrame) := {|
  path_exists p fs := bool_decide (is_Some (fs !! p));
  read_csv p fs :=
    match fs !! p with
    | Some df => (Ok df, fs)
    | None => (Raise (LibraryError "FileNotFoundError"), fs)
    end;
  get_config_value key fs :=
    (Ok (if String.eqb key "username" then Some "reader" else None), fs);
  dataset_download_files _ path _ _ fs :=
    (Ok tt, <[path ++ "train.csv" := remote]> fs)
|}.

(** ** Sample inputs *)

(** Four rows in the layout of the Rossmann file. *)
Definition rossmann_sample : DataFrame :=
  Frame ["Store"; "DayOfWeek"; "Date"; "Sales"; "Open"]
    [ Row 0 [VInt 4; VInt 5; VStr "2015-07-31"; VInt 100; VInt 1];
      Row 1 [VInt 5; VInt 5; VStr "2015-07-31"; VInt 200; VInt 1];
      Row 2 [VInt 4; VInt 4; VStr "2015-07-30"; VInt 300; VInt 1];
      Row 3 [VInt 4; VInt 3; VStr "2015-07-29"; VInt 0; VInt 0] ].

(** Store 4 reported twice for the same day. *)
Definition duplicated_sample : DataFrame :=
  Frame ["Store"; "Date"; "Sales"; "Open"]
    [ Row 0 [VInt 4; VStr "2015-07-31"; VInt 100; VInt 1];
      Row 1 [VInt 4; VStr "2015-07-31"; VInt 100; VInt 1] ].

Definition store_of (df : DataFrame) : gmap loc DataFrame :=
  {[ 1%positive := df ]}.

(** 400 daily rows of one store. *)
Definition series_400 : DataFrame :=
  Frame ["ds"; "y"]
    (map (λ i, Row (Z.of_nat i) [VTime (Z.of_nat i * ns_per_day); VInt 100])
         (seq 0 400)).

(** [{"yearly": True, "weekly": True, "daily": False}] (line 169) *)
Definition seasonality_main : gmap string bool :=
  {[ "yearly" := true; "weekly" := true; "daily" := false ]}.

Definition fresh_tracker : Tracker :=
  {| active_run_stack := []; next_run_id := 0; terminated := [] |}.

Definition fresh_env : Env unit :=
  {| tracker := fresh_tracker; stdout := []; world := tt |}.

(** The fitting step on the 400-row series with the stand-in libraries,
    as line 172 calls it. *)
Definition sample_fit :=
  train_predict (L := naive_libraries) series_400 float_0_8 seasonality_main
    fresh_env.

(** The two slices of that series at index 320. *)
Definition sample_train : DataFrame := iloc (Some 0) (Some 320) series_400.
Definition sample_test : DataFrame := iloc (Some 320) None series_400.

(** A module namespace without [train_index], and one that binds it. *)
Definition bare_module : PlotEnv :=
  {| globals := ∅; axes := []; files := ∅ |}.

Definition module_with_index (v : Z) : PlotEnv :=
  {| globals := {[ "train_index" := PyInt v ]}; axes := []; files := ∅ |}.

(** A test slice that lacks the [ds] column. *)
Definition frame_without_ds : DataFrame := Frame ["y"] [Row 0 [VInt 1]].

(** The Rossmann layout without the [Sales] column. *)
Definition sample_without_sales : DataFrame :=
  Frame ["Store"; "Date"; "Open"]
    [ Row 0 [VInt 4; VStr "2015-07-31"; VInt 1];
      Row 1 [VInt 4; VStr "2015-07-30"; VInt 1] ].

(** A table without a [Date] column. *)
Definition sample_without_date : DataFrame :=
  Frame ["Store"; "Sales"; "Open"] [ Row 0 [VInt 4; VInt 100; VInt 1] ].

(** A table whose second date is not a date. *)
Definition sample_bad_date : DataFrame :=
  Frame ["Store"; "Date"; "Sales"; "Open"]
    [ Row 0 [VInt 4; VStr "2015-07-31"; VInt 100; VInt 1];
      Row 1 [VInt 4; VStr "yesterday"; VInt 100; VInt 1];
      Row 2 [VInt 4; VStr "2015-07-29"; VInt 100; VInt 1] ].

(** Tables without the [Store] column, and without the [Open] column. *)
Definition sample_without_store : DataFrame :=
  Frame ["Date"; "Sales"; "Open"] [ Row 0 [VStr "2015-07-31"; VInt 100; VInt 1] ].

Definition sample_without_open : DataFrame :=
  Frame ["Store"; "Date"; "Sales"] [ Row 0 [VInt 4; VStr "2015-07-31"; VInt 100] ].

(** A table that already has a [ds] column. *)
Definition sample_with_ds : DataFrame :=
  Frame ["Store"; "Date"; "Sales"; "Open"; "ds"]
    [ Row 0 [VInt 4; VStr "2015-07-31"; VInt 100; VInt 1; VInt 0] ].

(** An environment in which run 7 is active. *)
Definition env_inside_run : Env unit :=
  {| tracker := {| active_run_stack := [7%nat]; next_run_id := 8;
                   terminated := [] |};
     stdout := []; world := tt |}.

(** [{"yearly": True, "daily": False}]: no [weekly] entry. *)
Definition seasonality_without_weekly : gmap string bool :=
  {[ "yearly" := true; "daily" := false ]}.

(** pyplot before any figure is made. *)
Definition fresh_pyplot : Pyplot :=
  {| rc_params := ∅; figure := bare_module |}.

(** The script started in a directory without [train.csv]. *)
Definition fresh_script : Script (gmap string DataFrame) unit :=
  {| platform := ∅; heap := ∅; session := fresh_env; pyplot := bare_module;
     log_calls := [] |}.

(** Two prepared rows of one store. *)
Definition prepared_sample : DataFrame :=
  Frame ["ds"; "y"]
    [ Row 1 [VTime 1438214400000000000; VInt 300];
      Row 0 [VTime 1438300800000000000; VInt 100] ].

(** ** The invariant of the right shift in binary64 rounding

    The state of a right shift of [P] by [k] bits: the quotient, whether the
    bits shifted out are all zero, and that the round bit is set only when
    they amount to at least half a unit. *)
Definition shr_inv (P k : Z) (mrs : shr_record) : Prop :=
  (0 ≤ shr_m mrs)%Z ∧
  (0 ≤ P - shr_m mrs * 2 ^ k < 2 ^ k)%Z ∧
  ((P - shr_m mrs * 2 ^ k)%Z = 0%Z ↔ shr_r mrs || shr_s mrs = false) ∧
  (shr_r mrs = true → (2 ^ k ≤ 2 * (P - shr_m mrs * 2 ^ k))%Z).

(** * Properties *)

Local Close Scope Z_scope.

(** ** The computable pandas instance satisfies the interface *)

Lemma iso_to_datetime_dtype c c' :
  iso_to_datetime c = Ok c' → is_datetime c' = true.
Proof.
  destruct c as [z|x|s| |]; simpl; try (intros [= <-]; reflexivity).
  - destruct x; intros [= <-] || discriminate; reflexivity.
  - destruct (parse_iso_date s); intros [= <-] || discriminate; reflexivity.
Qed.

Lemma enumerate_fst {A} (l : list A) i :
  map fst (enumerate i l) = seq i (length l).
Proof.
  revert i; induction l as [|x l IH]; intros i; simpl; [reflexivity|].
  now rewrite IH.
Qed.

Lemma enumerate_lookup {A} (l : list A) i j x :
  (j, x) ∈ enumerate i l → (i ≤ j)%nat ∧ l !! (j - i)%nat = Some x.
Proof.
  revert i; induction l as [|y l IH]; intros i; simpl.
  - intros Hin; inversion Hin.
  - rewrite elem_of_cons. intros [[= -> ->]|Hin].
    + split; [lia|]. now rewrite Nat.sub_diag.
    + apply IH in Hin as [Hle Hl]. split; [lia|].
      replace (j - i) with (S (j - S i)) by lia. exact Hl.
Qed.

Global Instance keyed_le_total : Total keyed_le.
Proof.
  intros [i [a|]] [j [b|]]; unfold keyed_le; simpl; auto; lia.
Qed.

Lemma Sorted_keyed_snd (l : list (nat * option Z)) :
  Sorted keyed_le l → Sorted key_le (map snd l).
Proof.
  induction 1 as [|a l Hs IH Hhd]; simpl; constructor; [exact IH|].
  destruct Hhd; simpl; constructor; assumption.
Qed.

Lemma merge_argsort_perm ks p :
  merge_argsort ks = Ok p → p ≡ₚ seq 0 (length ks).
Proof.
  unfold merge_argsort. destruct (forallb is_datetime ks); [|discriminate].
  intros [= <-]. rewrite merge_sort_Permutation, enumerate_fst.
  now rewrite length_map.
Qed.

Lemma merge_argsort_sorted ks p :
  merge_argsort ks = Ok p → Forall (λ c, is_datetime c = true) ks →
  Sorted key_le (map (λ i, time_key (nth i ks VNaT)) p).
Proof.
  unfold merge_argsort. destruct (forallb is_datetime ks); [|discriminate].
  intros [= <-] _.
  set (sorted := merge_sort keyed_le (enumerate 0 (map time_key ks))).
  assert (Hkeys : map (λ i, time_key (nth i ks VNaT)) (map fst sorted)
                  = map snd sorted).
  { rewrite map_map. apply map_ext_in. intros [j k] Hin. simpl.
    apply list_elem_of_In in Hin.
    assert (Hin' : (j, k) ∈ enumerate 0 (map time_key ks)).
    { revert Hin. unfold sorted. now rewrite merge_sort_Permutation. }
    apply enumerate_lookup in Hin' as [_ Hl].
    rewrite Nat.sub_0_r, list_lookup_fmap in Hl.
    destruct (ks !! j) as [c|] eqn:Hj; simpl in Hl; [|discriminate].
    injection Hl as <-. f_equal.
    apply nth_lookup_Some with (d := VNaT) in Hj. exact Hj. }
  rewrite Hkeys. apply Sorted_keyed_snd, Sorted_merge_sort. apply _.
Qed.

Lemma merge_argsort_datetime ks :
  Forall (λ c, is_datetime c = true) ks → is_ok (merge_argsort ks) = true.
Proof.
  intros Hall. unfold merge_argsort.
  replace (forallb is_datetime ks) with true; [reflexivity|].
  symmetry. apply forallb_forall. intros c Hc.
  rewrite Forall_forall in Hall. apply Hall. now apply list_elem_of_In.
Qed.

Global Instance iso_pandas : Pandas := {|
  to_datetime_scalar := iso_to_datetime;
  argsort := merge_argsort;
  to_datetime_dtype := iso_to_datetime_dtype;
  argsort_perm := merge_argsort_perm;
  argsort_sorted := merge_argsort_sorted;
  argsort_datetime := merge_argsort_datetime
|}.

(** ** Column labels *)

Lemma positions_spec name cols k j :
  j ∈ positions name cols k ↔ (k ≤ j)%nat ∧ cols !! (j - k)%nat = Some name.
Proof.
  revert k; induction cols as [|c cs IH]; intros k; simpl.
  - split; [intros Hin; inversion Hin | intros [_ [=]]].
  - destruct (String.eqb_spec c name) as [->|Hne].
    + rewrite elem_of_cons, IH. split.
      * intros [->|[Hle Hl]].
        -- split; [lia|]. now rewrite Nat.sub_diag.
        -- split; [lia|]. now replace (j - k)%nat with (S (j - S k)) by lia.
      * intros [Hle Hl]. destruct (decide (j = k)) as [->|Hjk]; [now left|].
        right. split; [lia|].
        now replace (j - k)%nat with (S (j - S k)) in Hl by lia.
    + rewrite IH. split.
      * intros [Hle Hl]. split; [lia|].
        now replace (j - k)%nat with (S (j - S k)) by lia.
      * intros [Hle Hl]. destruct (decide (j = k)) as [->|Hjk].
        -- rewrite Nat.sub_diag in Hl. simpl in Hl. congruence.
        -- split; [lia|].
           now replace (j - k)%nat with (S (j - S k)) in Hl by lia.
Qed.

Lemma col_pos_lookup name cols i :
  col_pos name cols = Ok i → cols !! i = Some name.
Proof.
  unfold col_pos. destruct (positions name cols 0) as [|j [|]] eqn:Hp;
    try discriminate.
  intros [= <-].
  assert (Hin : j ∈ positions name cols 0) by (rewrite Hp; left).
  apply positions_spec in Hin as [_ Hl]. now rewrite Nat.sub_0_r in Hl.
Qed.

Lemma col_pos_positions name cols i :
  col_pos name cols = Ok i ↔ positions name cols 0 = [i].
Proof.
  unfold col_pos. destruct (positions name cols 0) as [|j [|]]; split;
    intros; simplify_eq; auto.
Qed.

Lemma positions_rename_other name cols k :
  name ≠ "Date" → name ≠ "Sales" → name ≠ "ds" → name ≠ "y" →
  positions name (map (rename_label column_mapper) cols) k = positions name cols k.
Proof.
  intros H1 H2 H3 H4. revert k; induction cols as [|c cs IH]; intros k;
    simpl; [reflexivity|].
  rewrite IH.
  destruct (String.eqb_spec c "Date") as [->|Hd].
  { destruct (String.eqb_spec "ds" name), (String.eqb_spec "Date" name);
      congruence. }
  destruct (String.eqb_spec c "Sales") as [->|Hs].
  { destruct (String.eqb_spec "y" name), (String.eqb_spec "Sales" name);
      congruence. }
  reflexivity.
Qed.

Lemma positions_rename_ds cols k i :
  cols !! i = Some "Date" →
  (k + i)%nat ∈ positions "ds" (map (rename_label column_mapper) cols) k.
Proof.
  intros Hl. apply positions_spec. split; [lia|].
  replace (k + i - k)%nat with i by lia.
  rewrite list_lookup_fmap, Hl. reflexivity.
Qed.

(** ** Rows *)

Lemma cell_at_set_nth_ne i j v cs :
  i ≠ j → nth j (set_nth i v cs) VNaT = nth j cs VNaT.
Proof.
  revert i j; induction cs as [|c cs IH]; intros [|i] [|j] Hne; simpl;
    try reflexivity; try congruence.
  apply IH. congruence.
Qed.

Lemma cell_at_set_nth_eq i v cs :
  nth i (set_nth i v cs) VNaT = v ∨ nth i (set_nth i v cs) VNaT = VNaT.
Proof.
  revert i; induction cs as [|c cs IH]; intros [|i]; simpl; auto.
Qed.

Lemma nth_map_seq {A} (l : list A) d :
  map (λ k, nth k l d) (seq 0 (length l)) = l.
Proof.
  induction l as [|x l IH]; simpl; [reflexivity|].
  f_equal. rewrite <- seq_shift, map_map. exact IH.
Qed.

Lemma take_by_permutation {A} (l : list A) d p :
  p ≡ₚ seq 0 (length l) → map (λ k, nth k l d) p ≡ₚ l.
Proof.
  intros Hp. pose proof (Permutation_map (λ k, nth k l d) Hp) as Hm.
  now rewrite nth_map_seq in Hm.
Qed.

Lemma select_rows_filter (f g : row → bool) rs :
  select_rows rs (mask_and (map f rs) (map g rs))
  = List.filter (λ r, f r && g r) rs.
Proof.
  induction rs as [|r rs IH]; simpl; [reflexivity|].
  rewrite IH. reflexivity.
Qed.

Lemma boolean_index_matches df js jo sid so :
  boolean_index df
    (mask_and (series_eq (map (λ r, (label r, cell_at js r)) (rows df)) sid)
              (series_eq (map (λ r, (label r, cell_at jo r)) (rows df)) so))
  = Frame (columns df) (List.filter (row_matches js jo sid so) (rows df)).
Proof.
  unfold boolean_index, series_eq. rewrite !map_map. simpl.
  now rewrite (select_rows_filter (λ r, cell_eq_int sid (cell_at js r))
                 (λ r, cell_eq_int so (cell_at jo r))).
Qed.

Lemma relabel_cell_at j k rs :
  map (cell_at j) (relabel k rs) = map (cell_at j) rs.
Proof.
  revert k; induction rs as [|r rs IH]; intros k; simpl; [reflexivity|].
  now rewrite IH.
Qed.

Lemma relabel_elem k rs r :
  r ∈ relabel k rs → ∃ r0, r0 ∈ rs ∧ cells r = cells r0.
Proof.
  revert k; induction rs as [|r0 rs IH]; intros k; simpl.
  - intros Hin; inversion Hin.
  - intros [->|Hin]%elem_of_cons.
    + exists r0. split; [left|reflexivity].
    + apply IH in Hin as (r1 & Hr1 & Hc). exists r1. split; [now right|auto].
Qed.

Lemma elem_relabel k rs r0 :
  r0 ∈ rs → ∃ r, r ∈ relabel k rs ∧ cells r = cells r0.
Proof.
  revert k; induction rs as [|r1 rs IH]; intros k; simpl.
  - intros Hin; inversion Hin.
  - intros [->|Hin]%elem_of_cons.
    + eexists. split; [left|reflexivity].
    + destruct (IH (k + 1)%Z Hin) as (r & Hr & Hc). exists r.
      split; [now right|auto].
Qed.

Lemma positions_rename_ds_eq cols k :
  "ds" ∉ cols →
  positions "ds" (map (rename_label column_mapper) cols) k = positions "Date" cols k.
Proof.
  revert k; induction cols as [|c cs IH]; intros k Hnin; simpl;
    [reflexivity|].
  apply not_elem_of_cons in Hnin as [Hc Hcs].
  rewrite (IH _ Hcs).
  destruct (String.eqb_spec c "Date") as [->|Hd]; [reflexivity|].
  destruct (String.eqb_spec c "Sales") as [->|Hs]; [reflexivity|].
  destruct (String.eqb_spec c "ds"); congruence.
Qed.

(** A datetime column in ascending order with NaT last: its timestamps,
    non-decreasing, then the missing ones. *)
Lemma sorted_datetime_split cs :
  Forall (λ c, is_datetime c = true) cs →
  Sorted key_le (map time_key cs) →
  ∃ ts k, cs = (map VTime ts ++ replicate k VNaT)%list ∧ Sorted Z.le ts.
Proof.
  induction cs as [|c cs IH]; intros Hall Hs.
  - exists [], 0%nat. split; [reflexivity|constructor].
  - apply Forall_cons in Hall as [Hc Hall]. simpl in Hs.
    apply Sorted_inv in Hs as [Hs Hhd].
    destruct (IH Hall Hs) as (ts & k & -> & Hts).
    destruct c as [| | |t|]; try discriminate.
    + exists (t :: ts), k. split; [reflexivity|].
      constructor; [exact Hts|].
      destruct ts as [|t1 ts]; constructor.
      simpl in Hhd. apply HdRel_inv in Hhd. exact Hhd.
    + destruct ts as [|t1 ts].
      * exists [], (S k). split; [reflexivity|constructor].
      * simpl in Hhd. apply HdRel_inv in Hhd. destruct Hhd.
Qed.

Section PrepProperties.
Context {P : Pandas}.




Lemma store_values_converted i rs parsed :
  to_datetime (map (λ r, (label r, cell_at i r)) rs) = Ok parsed →
  Forall2 (converted i) rs (store_values i rs parsed).
Proof.
  revert parsed; induction rs as [|r rs IH]; intros parsed; simpl.
  - intros _. constructor.
  - destruct (to_datetime_scalar (cell_at i r)) as [v|] eqn:Hv; simpl;
      [|discriminate].
    destruct (to_datetime _) as [rest|] eqn:Hrest; simpl; [|discriminate].
    intros [= <-]. constructor; [|now apply IH].
    split; [reflexivity|]. exists v. auto.
Qed.

Lemma converted_other i j r r' :
  converted i r r' → i ≠ j → cell_at j r' = cell_at j r.
Proof.
  intros [_ (v & _ & Hc)] Hne. unfold cell_at. rewrite Hc.
  now apply cell_at_set_nth_ne.
Qed.

Lemma converted_datetime i r r' :
  converted i r r' → is_datetime (cell_at i r') = true.
Proof.
  intros [_ (v & Hv & Hc)]. unfold cell_at. rewrite Hc.
  destruct (cell_at_set_nth_eq i v (cells r)) as [-> | ->]; [|reflexivity].
  eapply to_datetime_dtype, Hv.
Qed.

Lemma sort_values_inv by_ df sorted :
  sort_values by_ df = Ok sorted →
  ∃ i p, positions by_ (columns df) 0 = [i] ∧
         argsort (map (cell_at i) (rows df)) = Ok p ∧
         columns sorted = columns df ∧
         rows sorted = map (λ k, nth k (rows df) (Row 0 [])) p.
Proof.
  unfold sort_values.
  destruct (positions by_ (columns df) 0) as [|i [|]]; try discriminate.
  destruct (argsort _) as [p|] eqn:Hp; simpl; [|discriminate].
  intros [= <-]. exists i, p. auto.
Qed.

Lemma sort_values_perm by_ df sorted :
  sort_values by_ df = Ok sorted → rows sorted ≡ₚ rows df.
Proof.
  intros (i & p & _ & Hp & _ & ->)%sort_values_inv.
  apply take_by_permutation. apply argsort_perm in Hp.
  now rewrite length_map in Hp.
Qed.

Lemma sort_values_keys by_ df sorted i :
  sort_values by_ df = Ok sorted →
  positions by_ (columns df) 0 = [i] →
  Forall (λ r, is_datetime (cell_at i r) = true) (rows df) →
  Sorted key_le (map (λ r, time_key (cell_at i r)) (rows sorted)).
Proof.
  intros (i' & p & Hi & Hp & _ & ->)%sort_values_inv Hi' Hall.
  rewrite Hi in Hi'. injection Hi' as ->.
  apply argsort_sorted in Hp; [|now rewrite Forall_map].
  rewrite map_map. erewrite map_ext; [exact Hp|].
  intros k. simpl. f_equal.
  assert (Hd : VNaT = cell_at i (Row 0 [])) by (unfold cell_at; now destruct i).
  rewrite Hd at 1. now rewrite map_nth.
Qed.


Lemma prep_store_data_inv l sid so (h : gmap loc DataFrame) r h' :
  prep_store_data l sid so h = (Ok r, h') →
  ∃ d i parsed st op sorted,
    h !! l = Some d ∧
    col_pos "Date" (columns d) = Ok i ∧
    to_datetime (map (λ r, (label r, cell_at i r)) (rows d)) = Ok parsed ∧
    get_column (staged d i parsed) "Store" = Ok st ∧
    get_column (staged d i parsed) "Open" = Ok op ∧
    sort_values "ds"
      (reset_index (boolean_index (staged d i parsed)
         (mask_and (series_eq st sid) (series_eq op so)))) = Ok sorted ∧
    r = fresh (dom (<[l := staged d i parsed]> h)) ∧
    h' = <[r := sorted]> (<[l := staged d i parsed]> h).
Proof.
  unfold prep_store_data, mbind, M_bind, deref, lift, assign, modify, alloc.
  destruct (h !! l) as [d|] eqn:Hd; [|discriminate].
  unfold get_column at 1, set_column.
  destruct (col_pos "Date" (columns d)) as [i|] eqn:Hi; simpl; [|discriminate].
  destruct (to_datetime _) as [parsed|] eqn:Hp; simpl; [|discriminate].
  rewrite !lookup_insert_eq. rewrite insert_insert_eq.
  fold (staged d i parsed).
  destruct (get_column (staged d i parsed) "Store") as [st|] eqn:Hst;
    [|discriminate].
  destruct (get_column (staged d i parsed) "Open") as [op|] eqn:Hop;
    [|discriminate].
  destruct (sort_values _ _) as [sorted|] eqn:Hs; [|discriminate].
  intros [= <- <-]. exists d, i, parsed, st, op, sorted. repeat split; auto.
Qed.

Lemma get_column_inv df name s :
  get_column df name = Ok s →
  ∃ j, col_pos name (columns df) = Ok j ∧
       s = map (λ r, (label r, cell_at j r)) (rows df).
Proof.
  unfold get_column. destruct (col_pos name (columns df)) as [j|]; simpl;
    [|discriminate].
  intros [= <-]. eauto.
Qed.

Lemma col_pos_rename_other name cols :
  name ≠ "Date" → name ≠ "Sales" → name ≠ "ds" → name ≠ "y" →
  col_pos name (map (rename_label column_mapper) cols) = col_pos name cols.
Proof.
  intros. unfold col_pos. now rewrite positions_rename_other.
Qed.

Lemma col_pos_distinct n1 n2 cols i j :
  n1 ≠ n2 → col_pos n1 cols = Ok i → col_pos n2 cols = Ok j → i ≠ j.
Proof.
  intros Hne H1%col_pos_lookup H2%col_pos_lookup ->. congruence.
Qed.

(** What a successful call has done. *)
Lemma prep_store_data_facts l sid so (h : gmap loc DataFrame) l' h' :
  prep_store_data l sid so h = (Ok l', h') →
  ∃ d i js jo inp out,
    h !! l = Some d ∧
    col_pos "Date" (columns d) = Ok i ∧
    col_pos "Store" (columns d) = Ok js ∧
    col_pos "Open" (columns d) = Ok jo ∧
    i ≠ js ∧ i ≠ jo ∧
    columns inp = map (rename_label column_mapper) (columns d) ∧
    Forall2 (converted i) (rows d) (rows inp) ∧
    positions "ds" (columns inp) 0 = [i] ∧
    columns out = columns inp ∧
    rows out ≡ₚ relabel 0 (List.filter (row_matches js jo sid so) (rows inp)) ∧
    Sorted key_le (map (λ r, time_key (cell_at i r)) (rows out)) ∧
    l ≠ l' ∧ h !! l' = None ∧
    h' = <[l' := out]> (<[l := inp]> h).
Proof.
  intros (d & i & parsed & st & op & sorted & Hd & Hi & Hp & Hst & Hop & Hs
          & -> & ->)%prep_store_data_inv.
  apply get_column_inv in Hst as (js & Hjs & ->).
  apply get_column_inv in Hop as (jo & Hjo & ->).
  unfold staged in Hjs, Hjo. simpl in Hjs, Hjo.
  rewrite col_pos_rename_other in Hjs by discriminate.
  rewrite col_pos_rename_other in Hjo by discriminate.
  pose proof (store_values_converted _ _ _ Hp) as Hconv.
  set (inp := staged d i parsed) in *.
  rewrite boolean_index_matches in Hs.
  pose proof (sort_values_inv _ _ _ Hs) as (i' & p & Hds & _ & Hcols & _).
  unfold reset_index in Hds, Hcols. cbn [columns] in Hds, Hcols.
  assert (i' = i) as ->.
  { pose proof (positions_rename_ds (columns d) 0 i (col_pos_lookup _ _ _ Hi))
      as Hin.
    change (map (rename_label column_mapper) (columns d)) with (columns inp) in Hin.
    rewrite Hds in Hin. apply list_elem_of_singleton in Hin. simpl in Hin.
    congruence. }
  assert (Hfresh : fresh (dom (<[l := inp]> h)) ∉ dom (<[l := inp]> h))
    by apply is_fresh.
  set (l' := fresh (dom (<[l := inp]> h))) in *.
  rewrite dom_insert_L in Hfresh.
  exists d, i, js, jo, inp, sorted.
  split; [exact Hd|]. split; [exact Hi|]. split; [exact Hjs|].
  split; [exact Hjo|].
  split; [eapply (col_pos_distinct "Date" "Store"); eauto; discriminate|].
  split; [eapply (col_pos_distinct "Date" "Open"); eauto; discriminate|].
  split; [reflexivity|]. split; [exact Hconv|]. split; [exact Hds|].
  split; [exact Hcols|].
  split; [exact (sort_values_perm _ _ _ Hs)|].
  split.
  { eapply sort_values_keys; [exact Hs|exact Hds|]. simpl.
    apply (proj1 (Forall_map (cell_at i) (λ c, is_datetime c = true) _)).
    rewrite relabel_cell_at.
    apply (proj2 (Forall_map (cell_at i) (λ c, is_datetime c = true) _)).
    apply Forall_forall. intros r Hr%list_elem_of_In.
    apply filter_In in Hr as [Hr%list_elem_of_In _].
    revert Hr. clear -Hconv. simpl in Hconv.
    induction Hconv as [|r0 r1 rs0 rs1 Hc _ IH]; intros Hr.
    - inversion Hr.
    - apply elem_of_cons in Hr as [->|Hr]; [|now apply IH].
      eapply converted_datetime, Hc. }
  split; [set_solver|].
  split; [apply not_elem_of_dom; set_solver|reflexivity].
Qed.


Lemma converted_all_datetime i rs rs' :
  Forall2 (converted i) rs rs' →
  Forall (λ r, is_datetime (cell_at i r) = true) rs'.
Proof.
  induction 1 as [|r r' rs rs' Hc _ IH]; constructor; [|exact IH].
  eapply converted_datetime, Hc.
Qed.

Lemma filtered_datetime i f rs k :
  Forall (λ r, is_datetime (cell_at i r) = true) rs →
  Forall (λ c, is_datetime c = true)
         (map (cell_at i) (relabel k (List.filter f rs))).
Proof.
  intros Hall. rewrite relabel_cell_at.
  apply (proj2 (Forall_map (cell_at i) (λ c, is_datetime c = true) _)).
  apply Forall_forall. intros r Hr%list_elem_of_In.
  apply filter_In in Hr as [Hr%list_elem_of_In _].
  rewrite Forall_forall in Hall. now apply Hall.
Qed.


(** C3 (amended): when [prep_store_data] returns, the column names of the
    returned table are the column names of the input table, in the same
    order, with [Date] renamed to [ds] and [Sales] renamed to [y]; every
    other input column (Store and Open included) is kept, and [ds] is among
    them. *)
Theorem prep_store_data_columns l sid so (h : gmap loc DataFrame) l' h' :
  prep_store_data l sid so h = (Ok l', h') →
  ∃ d out,
    h !! l = Some d ∧ h' !! l' = Some out ∧
    columns out = map (rename_label column_mapper) (columns d) ∧
    "ds" ∈ columns out.
Proof.
  intros (d & i & js & jo & inp & out & Hd & Hi & _ & _ & _ & _ & Hcols & _
          & Hds & Hout & _ & _ & _ & _ & ->)%prep_store_data_facts.
  exists d, out. split; [exact Hd|]. split; [apply lookup_insert_eq|].
  split; [congruence|].
  rewrite Hout. apply list_elem_of_lookup. exists i.
  apply col_pos_lookup. now apply col_pos_positions.
Qed.

(** C4: when [prep_store_data] returns, every row of the returned table has
    its store identifier equal to [store_id] and its open flag equal to
    [store_open], and every input row that satisfies both conditions appears
    in the returned table, its date converted to a timestamp. *)
Theorem prep_store_data_selects l sid so (h : gmap loc DataFrame) l' h' :
  prep_store_data l sid so h = (Ok l', h') →
  ∃ d out i js jo,
    h !! l = Some d ∧ h' !! l' = Some out ∧
    col_pos "Date" (columns d) = Ok i ∧
    col_pos "Store" (columns d) = Ok js ∧
    col_pos "Store" (columns out) = Ok js ∧
    col_pos "Open" (columns d) = Ok jo ∧
    col_pos "Open" (columns out) = Ok jo ∧
    (∀ r, r ∈ rows out →
       cell_eq_int sid (cell_at js r) = true ∧
       cell_eq_int so (cell_at jo r) = true) ∧
    (∀ r, r ∈ rows d →
       cell_eq_int sid (cell_at js r) = true →
       cell_eq_int so (cell_at jo r) = true →
       ∃ r' v, r' ∈ rows out ∧
               to_datetime_scalar (cell_at i r) = Ok v ∧
               cells r' = set_nth i v (cells r)).
Proof.
  intros (d & i & js & jo & inp & out & Hd & Hi & Hjs & Hjo & Hijs & Hijo
          & Hcols & Hconv & Hds & Hout & Hperm & _ & _ & _ & ->)
         %prep_store_data_facts.
  exists d, out, i, js, jo.
  split; [exact Hd|]. split; [apply lookup_insert_eq|]. split; [exact Hi|].
  split; [exact Hjs|].
  split; [rewrite Hout, Hcols, col_pos_rename_other; [exact Hjs|..]; discriminate|].
  split; [exact Hjo|].
  split; [rewrite Hout, Hcols, col_pos_rename_other; [exact Hjo|..]; discriminate|].
  split.
  - intros r Hr. rewrite Hperm in Hr.
    apply relabel_elem in Hr as (r0 & Hr0%list_elem_of_In & Hc).
    apply filter_In in Hr0 as [_ Hm]. unfold row_matches in Hm.
    apply andb_true_iff in Hm. unfold cell_at in *. now rewrite Hc.
  - intros r Hr Hs Ho.
    apply list_elem_of_lookup in Hr as [k Hk].
    destruct (Forall2_lookup_l _ _ _ _ _ Hconv Hk) as (r1 & Hk1 & Hc).
    assert (Hin : r1 ∈ List.filter (row_matches js jo sid so) (rows inp)).
    { apply list_elem_of_In, filter_In. split.
      - apply list_elem_of_In, list_elem_of_lookup. eauto.
      - unfold row_matches.
        rewrite (converted_other _ _ _ _ Hc Hijs), Hs.
        now rewrite (converted_other _ _ _ _ Hc Hijo), Ho. }
    destruct (elem_relabel 0 _ _ Hin) as (r2 & Hr2 & Hc2).
    destruct Hc as [_ (v & Hv & Hcells)].
    exists r2, v. rewrite Hperm. split; [exact Hr2|]. split; [exact Hv|].
    congruence.
Qed.

(** C5: when [prep_store_data] returns, the [ds] column of the returned
    table is in non-decreasing order: it consists of timestamps [ts] sorted
    by [≤], followed by the missing timestamps, if any. *)
Theorem prep_store_data_sorted l sid so (h : gmap loc DataFrame) l' h' :
  prep_store_data l sid so h = (Ok l', h') →
  ∃ out i ts k,
    h' !! l' = Some out ∧
    col_pos "ds" (columns out) = Ok i ∧
    map (cell_at i) (rows out) = (map VTime ts ++ replicate k VNaT)%list ∧
    Sorted Z.le ts.
Proof.
  intros (d & i & js & jo & inp & out & Hd & Hi & _ & _ & _ & _
          & Hcols & Hconv & Hds & Hout & Hperm & Hsorted & _ & _ & ->)
         %prep_store_data_facts.
  destruct (sorted_datetime_split (map (cell_at i) (rows out)))
    as (ts & k & Hsplit & Hts).
  - rewrite Hperm. apply filtered_datetime.
    eapply converted_all_datetime, Hconv.
  - now rewrite map_map.
  - exists out, i, ts, k. split; [apply lookup_insert_eq|].
    split; [apply col_pos_positions; congruence|]. auto.
Qed.

(** C6 (amended): [prep_store_data] keeps every timestamp of the matching
    input rows with its multiplicity: the [ds] column of the returned table is
    a permutation of the [ds] values of the rows of the input table (as the
    call leaves it, dates converted) that pass the filter, so the returned
    timestamps are pairwise distinct exactly when those are. *)
Theorem prep_store_data_timestamps l sid so (h : gmap loc DataFrame) l' h' :
  prep_store_data l sid so h = (Ok l', h') →
  ∃ inp out i js jo,
    h' !! l = Some inp ∧ h' !! l' = Some out ∧
    col_pos "ds" (columns inp) = Ok i ∧
    col_pos "ds" (columns out) = Ok i ∧
    col_pos "Store" (columns inp) = Ok js ∧
    col_pos "Open" (columns inp) = Ok jo ∧
    map (cell_at i) (rows out)
      ≡ₚ map (cell_at i) (List.filter (row_matches js jo sid so) (rows inp)) ∧
    (NoDup (map (cell_at i) (rows out)) ↔
     NoDup (map (cell_at i)
                (List.filter (row_matches js jo sid so) (rows inp)))).
Proof.
  intros (d & i & js & jo & inp & out & Hd & Hi & Hjs & Hjo & _ & _
          & Hcols & _ & Hds & Hout & Hperm & _ & Hll' & _ & ->)
         %prep_store_data_facts.
  assert (Hp : map (cell_at i) (rows out)
      ≡ₚ map (cell_at i) (List.filter (row_matches js jo sid so) (rows inp))).
  { rewrite (Permutation_map (cell_at i) Hperm). now rewrite relabel_cell_at. }
  exists inp, out, i, js, jo.
  split; [rewrite lookup_insert_ne by congruence; apply lookup_insert_eq|].
  split; [apply lookup_insert_eq|].
  split; [now apply col_pos_positions|].
  split; [apply col_pos_positions; congruence|].
  split; [rewrite Hcols, col_pos_rename_other; [exact Hjs|..]; discriminate|].
  split; [rewrite Hcols, col_pos_rename_other; [exact Hjo|..]; discriminate|].
  split; [exact Hp|]. now rewrite Hp.
Qed.


Lemma prep_store_data_run l sid so (h : gmap loc DataFrame) d i parsed st op
    sorted :
  h !! l = Some d →
  col_pos "Date" (columns d) = Ok i →
  to_datetime (map (λ r, (label r, cell_at i r)) (rows d)) = Ok parsed →
  get_column (staged d i parsed) "Store" = Ok st →
  get_column (staged d i parsed) "Open" = Ok op →
  sort_values "ds"
    (reset_index (boolean_index (staged d i parsed)
       (mask_and (series_eq st sid) (series_eq op so)))) = Ok sorted →
  prep_store_data l sid so h
  = (Ok (fresh (dom (<[l := staged d i parsed]> h))),
     <[fresh (dom (<[l := staged d i parsed]> h)) := sorted]>
       (<[l := staged d i parsed]> h)).
Proof.
  intros Hd Hi Hp Hst Hop Hs.
  unfold prep_store_data, mbind, M_bind, deref, lift, assign, modify, alloc.
  rewrite Hd. unfold get_column at 1, set_column. rewrite Hi. simpl.
  rewrite Hp. simpl. rewrite !lookup_insert_eq, insert_insert_eq.
  fold (staged d i parsed). now rewrite Hst, Hop, Hs.
Qed.

(** C2 (amended): [prep_store_data] changes the table object passed in, in
    place: after a call that returns, that object has its columns renamed
    ([Date] to [ds], [Sales] to [y]) and its date values converted.  No other
    object of the store is changed, the returned table is a new object, and
    the two tables depend only on the table passed in, the store identifier
    and the open flag (not on where the table lives or what else the store
    holds). *)
Theorem prep_store_data_effects l sid so (h : gmap loc DataFrame) l' h' :
  prep_store_data l sid so h = (Ok l', h') →
  ∃ d i inp out,
    h !! l = Some d ∧
    col_pos "Date" (columns d) = Ok i ∧
    h' !! l = Some inp ∧
    columns inp = map (rename_label column_mapper) (columns d) ∧
    Forall2 (converted i) (rows d) (rows inp) ∧
    h !! l' = None ∧
    h' !! l' = Some out ∧
    (∀ l0, l0 ≠ l → l0 ≠ l' → h' !! l0 = h !! l0) ∧
    (∀ (h2 : gmap loc DataFrame) l2,
       h2 !! l2 = Some d →
       ∃ l2' h2', prep_store_data l2 sid so h2 = (Ok l2', h2') ∧
                  h2' !! l2 = Some inp ∧ h2' !! l2' = Some out).
Proof.
  intros Hrun.
  pose proof (prep_store_data_facts _ _ _ _ _ _ Hrun)
    as (_ & _ & _ & _ & _ & _ & _ & _ & _ & _ & _ & _ & _ & _ & _ & _ & _
        & _ & Hll' & Hnew & _).
  apply prep_store_data_inv in Hrun
    as (d & i & parsed & st & op & sorted & Hd & Hi & Hp & Hst & Hop & Hs
        & Hl' & ->).
  exists d, i, (staged d i parsed), sorted.
  split; [exact Hd|]. split; [exact Hi|].
  split; [rewrite lookup_insert_ne by congruence; apply lookup_insert_eq|].
  split; [reflexivity|].
  split; [exact (store_values_converted _ _ _ Hp)|].
  split; [exact Hnew|].
  split; [apply lookup_insert_eq|].
  split.
  - intros l0 H0 H0'. now rewrite !lookup_insert_ne by congruence.
  - intros h2 l2 Hd2.
    pose proof (prep_store_data_run l2 sid so h2 _ _ _ _ _ _ Hd2 Hi Hp Hst Hop Hs)
      as Hrun2.
    eexists _, _. split; [exact Hrun2|].
    assert (Hfresh : fresh (dom (<[l2 := staged d i parsed]> h2))
                     ∉ dom (<[l2 := staged d i parsed]> h2)) by apply is_fresh.
    set (l2' := fresh (dom (<[l2 := staged d i parsed]> h2))) in *.
    rewrite dom_insert_L in Hfresh.
    apply not_elem_of_union in Hfresh as [Hne%not_elem_of_singleton _].
    split; [|apply lookup_insert_eq].
    rewrite lookup_insert_ne by exact Hne. apply lookup_insert_eq.
Qed.

(** C8 (amended): for every input table that has the columns the function
    reads ([Date], [Store] and [Open], each under one label, and no column
    [ds] yet) and whose dates all convert, and in which no row belongs to the
    requested store, [prep_store_data] raises nothing and returns a table
    without rows. *)
Theorem prep_store_data_absent_store l sid so (h : gmap loc DataFrame) d :
  h !! l = Some d →
  source_columns d = true →
  dates_convert d = true →
  store_absent d sid = true →
  ∃ l' h' out,
    prep_store_data l sid so h = (Ok l', h') ∧
    h' !! l' = Some out ∧
    rows out = [].
Proof.
  intros Hd Hsrc Hconv Habs.
  unfold source_columns in Hsrc.
  rewrite !andb_true_iff, bool_decide_eq_true in Hsrc.
  destruct Hsrc as [[[HDate HStore] HOpen] Hds].
  destruct (col_pos "Date" (columns d)) as [i|] eqn:Hi; [|discriminate].
  destruct (col_pos "Store" (columns d)) as [js|] eqn:Hjs; [|discriminate].
  destruct (col_pos "Open" (columns d)) as [jo|] eqn:Hjo; [|discriminate].
  unfold dates_convert, get_column in Hconv. rewrite Hi in Hconv.
  simpl in Hconv.
  destruct (to_datetime _) as [parsed|] eqn:Hp; [|discriminate].
  unfold store_absent in Habs. rewrite Hjs in Habs.
  pose proof (store_values_converted _ _ _ Hp) as Hc.
  assert (Hst : get_column (staged d i parsed) "Store"
                = Ok (map (λ r, (label r, cell_at js r)) (rows (staged d i parsed)))).
  { unfold get_column, staged. simpl.
    rewrite col_pos_rename_other by discriminate. now rewrite Hjs. }
  assert (Hop : get_column (staged d i parsed) "Open"
                = Ok (map (λ r, (label r, cell_at jo r)) (rows (staged d i parsed)))).
  { unfold get_column, staged. simpl.
    rewrite col_pos_rename_other by discriminate. now rewrite Hjo. }
  assert (Hijs : i ≠ js)
    by (eapply (col_pos_distinct "Date" "Store"); eauto; discriminate).
  assert (Hnone :
    List.filter (row_matches js jo sid so) (rows (staged d i parsed)) = []).
  { simpl. revert Habs Hc. generalize (store_values i (rows d) parsed).
    generalize (rows d). clear -Hijs.
    intros rs rs' Habs Hc. induction Hc as [|r r' rs rs' Hr _ IH];
      [reflexivity|].
    simpl in Habs. apply andb_true_iff in Habs as [Hneg Habs]. simpl.
    unfold row_matches at 1. rewrite (converted_other _ _ _ _ Hr Hijs).
    apply negb_true_iff in Hneg. rewrite Hneg. simpl. now apply IH. }
  assert (Hs : sort_values "ds"
      (reset_index (boolean_index (staged d i parsed)
         (mask_and
            (series_eq (map (λ r, (label r, cell_at js r))
                            (rows (staged d i parsed))) sid)
            (series_eq (map (λ r, (label r, cell_at jo r))
                            (rows (staged d i parsed))) so))))
      = Ok (Frame (columns (staged d i parsed)) [])).
  { rewrite boolean_index_matches, Hnone.
    unfold sort_values, reset_index. simpl.
    rewrite positions_rename_ds_eq by exact Hds.
    rewrite (proj1 (col_pos_positions _ _ _) Hi).
    pose proof (argsort_datetime [] (List.Forall_nil _)) as Hok.
    destruct (argsort []) as [p|] eqn:Hp'; [|discriminate].
    apply argsort_perm in Hp'. simpl in Hp'.
    apply Permutation_nil_r in Hp'. subst p. reflexivity. }
  eexists _, _, _. split.
  - eapply prep_store_data_run; eauto.
  - split; [apply lookup_insert_eq|reflexivity].
Qed.

End PrepProperties.

(** ** [prep_store_data]: failures, repeated calls, the index *)

Lemma positions_absent name cols k : name ∉ cols → positions name cols k = [].
Proof.
  revert k; induction cols as [|c cs IH]; intros k Hnin; simpl; [reflexivity|].
  apply not_elem_of_cons in Hnin as [Hc Hcs].
  destruct (String.eqb_spec c name); [congruence|]. now apply IH.
Qed.

Lemma positions_unique name cols k :
  NoDup cols → name ∈ cols → ∃ i, positions name cols k = [i].
Proof.
  revert k; induction cols as [|c cs IH]; intros k Hnd Hin;
    [inversion Hin|].
  apply NoDup_cons in Hnd as [Hc Hnd]. simpl.
  destruct (String.eqb_spec c name) as [->|Hne].
  - exists k. now rewrite positions_absent.
  - apply elem_of_cons in Hin as [->|Hin]; [congruence|]. now apply IH.
Qed.

Lemma positions_rename_Date cols k :
  positions "Date" (map (rename_label column_mapper) cols) k = [].
Proof.
  revert k; induction cols as [|c cs IH]; intros k; simpl; [reflexivity|].
  rewrite IH.
  destruct (String.eqb_spec c "Date") as [->|Hd]; [reflexivity|].
  destruct (String.eqb_spec c "Sales") as [->|Hs]; [reflexivity|].
  destruct (String.eqb_spec c "Date"); congruence.
Qed.

Lemma positions_two name cols i j :
  cols !! i = Some name → cols !! j = Some name → i ≠ j →
  ∃ a b rest, positions name cols 0 = a :: b :: rest.
Proof.
  intros Hi Hj Hne.
  assert (Hin_i : i ∈ positions name cols 0).
  { apply positions_spec. split; [lia|]. now rewrite Nat.sub_0_r. }
  assert (Hin_j : j ∈ positions name cols 0).
  { apply positions_spec. split; [lia|]. now rewrite Nat.sub_0_r. }
  destruct (positions name cols 0) as [|a [|b rest]].
  - inversion Hin_i.
  - apply list_elem_of_singleton in Hin_i, Hin_j. congruence.
  - eauto.
Qed.

Lemma rename_label_y c :
  rename_label column_mapper c = "y" ↔ c = "Sales" ∨ c = "y".
Proof.
  simpl.
  destruct (String.eqb_spec c "Date") as [->|Hd].
  { split; [discriminate|intros [|]; discriminate]. }
  destruct (String.eqb_spec c "Sales") as [->|Hs]; [tauto|].
  tauto.
Qed.

Lemma relabel_lookup z rs k r :
  relabel z rs !! k = Some r →
  ∃ r0, rs !! k = Some r0 ∧ label r = (z + Z.of_nat k)%Z ∧ cells r = cells r0.
Proof.
  revert z k; induction rs as [|r1 rs IH]; intros z k; simpl; [discriminate|].
  destruct k as [|k]; simpl.
  - intros [= <-]. exists r1. simpl. split; [reflexivity|]. split; [lia|reflexivity].
  - intros Hk. apply IH in Hk as (r0 & Hr0 & Hl & Hc).
    exists r0. split; [exact Hr0|]. split; [lia|exact Hc].
Qed.

Lemma relabel_labels z rs :
  map label (relabel z rs)
  = map (λ k, (z + Z.of_nat k)%Z) (seq 0 (length rs)).
Proof.
  revert z; induction rs as [|r rs IH]; intros z; simpl; [reflexivity|].
  f_equal; [lia|]. rewrite IH, <- seq_shift, map_map.
  apply map_ext. intros k. lia.
Qed.

Section PrepEdgeCases.
Context {P : Pandas}.

Lemma to_datetime_first_error pre lbl v post e :
  Forall (λ lv, is_ok (to_datetime_scalar (snd lv)) = true) pre →
  to_datetime_scalar v = Raise e →
  to_datetime (pre ++ (lbl, v) :: post)%list = Raise e.
Proof.
  intros Hpre Hv. induction Hpre as [|[l0 v0] pre Hv0 _ IH]; simpl.
  - now rewrite Hv.
  - simpl in Hv0. destruct (to_datetime_scalar v0); [|discriminate].
    simpl. now rewrite IH.
Qed.

Lemma converted_matches i js jo sid so r r' :
  converted i r r' → i ≠ js → i ≠ jo →
  row_matches js jo sid so r' = row_matches js jo sid so r.
Proof.
  intros Hc Hjs Hjo. unfold row_matches.
  now rewrite (converted_other _ _ _ _ Hc Hjs), (converted_other _ _ _ _ Hc Hjo).
Qed.

Lemma converted_filter i js jo sid so rs rs' :
  i ≠ js → i ≠ jo → Forall2 (converted i) rs rs' →
  Forall2 (converted i)
    (List.filter (row_matches js jo sid so) rs)
    (List.filter (row_matches js jo sid so) rs').
Proof.
  intros Hjs Hjo. induction 1 as [|r r' rs rs' Hc _ IH]; simpl; [constructor|].
  rewrite (converted_matches _ _ _ _ _ _ _ Hc Hjs Hjo).
  destruct (row_matches js jo sid so r); [constructor|]; assumption.
Qed.

(** What the call leaves behind when it fails after line 47. *)
Lemma prep_store_data_late_failure l sid so (h : gmap loc DataFrame) d i parsed :
  h !! l = Some d →
  col_pos "Date" (columns d) = Ok i →
  to_datetime (map (λ r, (label r, cell_at i r)) (rows d)) = Ok parsed →
  prep_store_data l sid so h
  = match
      result_bind (get_column (staged d i parsed) "Store") (λ st,
      result_bind (get_column (staged d i parsed) "Open") (λ op,
        sort_values "ds"
          (reset_index (boolean_index (staged d i parsed)
             (mask_and (series_eq st sid) (series_eq op so))))))
    with
    | Ok sorted =>
        (Ok (fresh (dom (<[l := staged d i parsed]> h))),
         <[fresh (dom (<[l := staged d i parsed]> h)) := sorted]>
           (<[l := staged d i parsed]> h))
    | Raise e => (Raise e, <[l := staged d i parsed]> h)
    end.
Proof.
  intros Hd Hi Hp.
  unfold prep_store_data, mbind, M_bind, deref, lift, assign, modify, alloc.
  rewrite Hd. unfold get_column at 1, set_column. rewrite Hi. simpl.
  rewrite Hp. simpl. rewrite !lookup_insert_eq, insert_insert_eq.
  fold (staged d i parsed).
  destruct (get_column (staged d i parsed) "Store") as [st|]; simpl;
    [|reflexivity].
  destruct (get_column (staged d i parsed) "Open") as [op|]; simpl;
    [|reflexivity].
  destruct (sort_values _ _); reflexivity.
Qed.

Lemma dates_convert_inv d i :
  col_pos "Date" (columns d) = Ok i → dates_convert d = true →
  ∃ parsed,
    to_datetime (map (λ r, (label r, cell_at i r)) (rows d)) = Ok parsed.
Proof.
  intros Hi. unfold dates_convert, get_column. rewrite Hi. simpl.
  destruct (to_datetime _) as [parsed|]; [eauto|discriminate].
Qed.

(** The call returns exactly when the labels it reads resolve and the dates
    convert. *)
Lemma prep_store_data_ok_iff l sid so (h : gmap loc DataFrame) d :
  h !! l = Some d →
  (∃ l' h', prep_store_data l sid so h = (Ok l', h')) ↔
  source_columns d = true ∧ dates_convert d = true.
Proof.
  intros Hd. split.
  - intros (l' & h' & Hrun).
    pose proof (prep_store_data_inv _ _ _ _ _ _ Hrun)
      as (d0 & i0 & parsed & _ & _ & _ & Hd0 & Hi0 & Hp & _).
    apply prep_store_data_facts in Hrun
      as (d1 & i & js & jo & inp & out & Hd1 & Hi & Hjs & Hjo & _ & _
          & Hcols & _ & Hds & _).
    rewrite Hd in Hd0, Hd1. injection Hd0 as <-. injection Hd1 as <-.
    rewrite Hi in Hi0. injection Hi0 as <-.
    split.
    + unfold source_columns. rewrite Hi, Hjs, Hjo. simpl.
      apply bool_decide_eq_true. intros [j Hj]%list_elem_of_lookup.
      assert (Hin : j ∈ positions "ds" (columns inp) 0).
      { apply positions_spec. split; [lia|]. rewrite Nat.sub_0_r, Hcols.
        rewrite list_lookup_fmap, Hj. reflexivity. }
      rewrite Hds in Hin. apply list_elem_of_singleton in Hin. subst j.
      apply col_pos_lookup in Hi. congruence.
    + unfold dates_convert, get_column. rewrite Hi. simpl. now rewrite Hp.
  - intros [Hsrc Hconv].
    unfold source_columns in Hsrc.
    rewrite !andb_true_iff, bool_decide_eq_true in Hsrc.
    destruct Hsrc as [[[HDate HStore] HOpen] Hds].
    destruct (col_pos "Date" (columns d)) as [i|] eqn:Hi; [|discriminate].
    destruct (col_pos "Store" (columns d)) as [js|] eqn:Hjs; [|discriminate].
    destruct (col_pos "Open" (columns d)) as [jo|] eqn:Hjo; [|discriminate].
    destruct (dates_convert_inv d i Hi Hconv) as [parsed Hp].
    pose proof (store_values_converted _ _ _ Hp) as Hc.
    assert (Hst : get_column (staged d i parsed) "Store"
                  = Ok (map (λ r, (label r, cell_at js r))
                            (rows (staged d i parsed)))).
    { unfold get_column, staged. simpl.
      rewrite col_pos_rename_other by discriminate. now rewrite Hjs. }
    assert (Hop : get_column (staged d i parsed) "Open"
                  = Ok (map (λ r, (label r, cell_at jo r))
                            (rows (staged d i parsed)))).
    { unfold get_column, staged. simpl.
      rewrite col_pos_rename_other by discriminate. now rewrite Hjo. }
    destruct (sort_values "ds"
      (reset_index (boolean_index (staged d i parsed)
         (mask_and
            (series_eq (map (λ r, (label r, cell_at js r))
                            (rows (staged d i parsed))) sid)
            (series_eq (map (λ r, (label r, cell_at jo r))
                            (rows (staged d i parsed))) so)))))
      as [sorted|e] eqn:Hs.
    + eexists _, _. eapply prep_store_data_run; eauto.
    + exfalso. rewrite boolean_index_matches in Hs.
      unfold sort_values, reset_index in Hs. cbn [columns rows] in Hs.
      unfold staged, rename in Hs. cbn [columns rows] in Hs.
      rewrite positions_rename_ds_eq in Hs by exact Hds.
      rewrite (proj1 (col_pos_positions _ _ _) Hi) in Hs.
      pose proof (argsort_datetime
        (map (cell_at i)
           (relabel 0 (List.filter (row_matches js jo sid so)
                         (store_values i (rows d) parsed))))) as Hok.
      destruct (argsort _) as [p|]; [discriminate|].
      assert (is_ok (Raise (A := list nat) e0) = true); [|discriminate].
      apply Hok. apply filtered_datetime.
      eapply converted_all_datetime, Hc.
Qed.

(** X1: for a table whose column names are distinct, [prep_store_data]
    returns exactly when the table has the columns [Date], [Store] and
    [Open], has no column [ds], and every value of [Date] converts; in every
    other case it raises. *)
Theorem prep_store_data_returns_iff l sid so (h : gmap loc DataFrame) d :
  h !! l = Some d →
  NoDup (columns d) →
  (∃ l' h', prep_store_data l sid so h = (Ok l', h')) ↔
  ("Date" ∈ columns d ∧ "Store" ∈ columns d ∧ "Open" ∈ columns d ∧
   "ds" ∉ columns d) ∧
  dates_convert d = true.
Proof.
  intros Hd Hnd. rewrite (prep_store_data_ok_iff l sid so h d Hd).
  assert (Hcol : ∀ name, is_ok (col_pos name (columns d)) = true
                         ↔ name ∈ columns d).
  { intros name. split.
    - destruct (col_pos name (columns d)) as [i|] eqn:Hi; [|discriminate].
      intros _. eapply list_elem_of_lookup_2, col_pos_lookup, Hi.
    - intros Hin. destruct (positions_unique name (columns d) 0 Hnd Hin)
        as [i Hi].
      apply col_pos_positions in Hi. now rewrite Hi. }
  unfold source_columns.
  rewrite !andb_true_iff, bool_decide_eq_true, !Hcol. tauto.
Qed.

(** X6: [prep_store_data] cannot be applied twice to one table.  After a
    call that returns, a second call on the table passed in, or on the table
    returned, raises [KeyError] for [Date] (line 47 renamed that column) and
    changes nothing, whatever the store identifier and the open flag. *)
Theorem prep_store_data_second_call l sid so (h : gmap loc DataFrame) l' h' :
  prep_store_data l sid so h = (Ok l', h') →
  ∀ sid2 so2,
    prep_store_data l sid2 so2 h' = (Raise (KeyError "Date"), h') ∧
    prep_store_data l' sid2 so2 h' = (Raise (KeyError "Date"), h').
Proof.
  intros (d & i & js & jo & inp & out & _ & _ & _ & _ & _ & _ & Hcols & _ & _
          & Hout & _ & _ & Hll' & _ & ->)%prep_store_data_facts sid2 so2.
  assert (Hraise : ∀ l0 t,
    <[l' := out]> (<[l := inp]> h) !! l0 = Some t →
    columns t = map (rename_label column_mapper) (columns d) →
    prep_store_data l0 sid2 so2 (<[l' := out]> (<[l := inp]> h))
    = (Raise (KeyError "Date"), <[l' := out]> (<[l := inp]> h))).
  { intros l0 t Ht Hc.
    unfold prep_store_data, mbind, M_bind, deref, lift. rewrite Ht.
    unfold get_column, col_pos. rewrite Hc, positions_rename_Date.
    reflexivity. }
  split.
  - apply (Hraise l inp); [|exact Hcols].
    rewrite lookup_insert_ne by congruence. apply lookup_insert_eq.
  - apply (Hraise l' out); [apply lookup_insert_eq|congruence].
Qed.

(** X2: when the table has no column [Date], the call raises [KeyError]
    for [Date] at line 46 and leaves the table, and every other object, as it
    was. *)
Theorem prep_store_data_missing_date l sid so (h : gmap loc DataFrame) d :
  h !! l = Some d → "Date" ∉ columns d →
  prep_store_data l sid so h = (Raise (KeyError "Date"), h).
Proof.
  intros Hd Hnin.
  unfold prep_store_data, mbind, M_bind, deref, lift. rewrite Hd.
  unfold get_column, col_pos. now rewrite positions_absent.
Qed.

(** X3: when a value of the [Date] column does not convert, the call
    raises the error of the first such value in row order and leaves the
    table as it was: line 46 assigns only once the whole column is
    converted. *)
Theorem prep_store_data_bad_date l sid so (h : gmap loc DataFrame) d i pre v
    post e :
  h !! l = Some d →
  col_pos "Date" (columns d) = Ok i →
  map (cell_at i) (rows d) = (pre ++ v :: post)%list →
  Forall (λ c, is_ok (to_datetime_scalar c) = true) pre →
  to_datetime_scalar v = Raise e →
  prep_store_data l sid so h = (Raise e, h).
Proof.
  intros Hd Hi Hcells Hpre Hv.
  unfold prep_store_data, mbind, M_bind, deref, lift. rewrite Hd.
  unfold get_column. rewrite Hi. simpl.
  assert (Hsplit : ∃ pre' lbl post',
    map (λ r, (label r, cell_at i r)) (rows d)
    = (pre' ++ (lbl, v) :: post')%list ∧ map snd pre' = pre).
  { revert Hcells. generalize (rows d). clear.
    induction pre as [|c pre IH]; intros [|r rs]; simpl; try discriminate.
    - intros [= <- _]. exists [], (label r), (map (λ r, (label r, cell_at i r)) rs).
      split; reflexivity.
    - intros [= <- Hrest]. destruct (IH _ Hrest) as (pre' & lbl & post' & -> & <-).
      exists ((label r, cell_at i r) :: pre'), lbl, post'. split; reflexivity. }
  destruct Hsplit as (pre' & lbl & post' & -> & <-).
  rewrite (to_datetime_first_error pre' lbl v post' e); [reflexivity| |exact Hv].
  now apply Forall_map in Hpre.
Qed.

(** X4: a failure after line 47 is not undone.  When the dates convert
    but the table has no [Store] column (or has [Store] and no [Open]
    column), the call raises [KeyError] for that column and returns no table,
    and the table passed in is left with its dates converted and its columns
    renamed. *)
Theorem prep_store_data_missing_store l sid so (h : gmap loc DataFrame) d :
  h !! l = Some d →
  is_ok (col_pos "Date" (columns d)) = true →
  dates_convert d = true →
  ∃ i inp,
    col_pos "Date" (columns d) = Ok i ∧
    columns inp = map (rename_label column_mapper) (columns d) ∧
    Forall2 (converted i) (rows d) (rows inp) ∧
    ("Store" ∉ columns d →
     prep_store_data l sid so h = (Raise (KeyError "Store"), <[l := inp]> h)) ∧
    (is_ok (col_pos "Store" (columns d)) = true → "Open" ∉ columns d →
     prep_store_data l sid so h = (Raise (KeyError "Open"), <[l := inp]> h)).
Proof.
  intros Hd HDate Hconv.
  destruct (col_pos "Date" (columns d)) as [i|] eqn:Hi; [|discriminate].
  destruct (dates_convert_inv d i Hi Hconv) as [parsed Hp].
  exists i, (staged d i parsed).
  split; [reflexivity|]. split; [reflexivity|].
  split; [exact (store_values_converted _ _ _ Hp)|].
  rewrite (prep_store_data_late_failure l sid so h d i parsed Hd Hi Hp).
  unfold get_column, staged. cbn [columns rename].
  rewrite !col_pos_rename_other by discriminate.
  split.
  - intros Hnin. unfold col_pos at 1. now rewrite positions_absent.
  - intros HStore Hnin.
    destruct (col_pos "Store" (columns d)) as [js|]; [|discriminate]. simpl.
    unfold col_pos. now rewrite positions_absent.
Qed.

(** X7: the index of the returned table is the one [reset_index] gave,
    not renumbered after the sort.  The table has as many rows as the input
    has rows matching the store and the flag, its labels are 0 .. n-1 in some
    order, and the row labelled [k] is the [k]-th matching row of the input,
    in input order, with its date converted. *)
Theorem prep_store_data_index l sid so (h : gmap loc DataFrame) l' h' :
  prep_store_data l sid so h = (Ok l', h') →
  ∃ d out i js jo,
    h !! l = Some d ∧ h' !! l' = Some out ∧
    col_pos "Date" (columns d) = Ok i ∧
    col_pos "Store" (columns d) = Ok js ∧
    col_pos "Open" (columns d) = Ok jo ∧
    let matching := List.filter (row_matches js jo sid so) (rows d) in
    shape0 out = length matching ∧
    map label (rows out) ≡ₚ map Z.of_nat (seq 0 (length matching)) ∧
    ∀ r, r ∈ rows out →
      ∃ k r0 v,
        label r = Z.of_nat k ∧ matching !! k = Some r0 ∧
        to_datetime_scalar (cell_at i r0) = Ok v ∧
        cells r = set_nth i v (cells r0).
Proof.
  intros (d & i & js & jo & inp & out & Hd & Hi & Hjs & Hjo & Hijs & Hijo
          & Hcols & Hconv & Hds & Hout & Hperm & _ & _ & _ & ->)
         %prep_store_data_facts.
  exists d, out, i, js, jo.
  split; [exact Hd|]. split; [apply lookup_insert_eq|]. split; [exact Hi|].
  split; [exact Hjs|]. split; [exact Hjo|]. cbv zeta.
  pose proof (converted_filter i js jo sid so _ _ Hijs Hijo Hconv) as Hf.
  pose proof (Forall2_length _ _ _ Hf) as Hlen.
  assert (Hrl : ∀ z rs, length (relabel z rs) = length rs).
  { intros z rs. revert z. induction rs; intros z; simpl; auto. }
  split.
  { unfold shape0. rewrite Hperm, Hrl. now rewrite Hlen. }
  split.
  { rewrite (Permutation_map label Hperm), relabel_labels, Hlen.
    apply Permutation_refl. }
  intros r Hr. rewrite Hperm in Hr.
  apply list_elem_of_lookup in Hr as [k Hk].
  apply relabel_lookup in Hk as (r1 & Hr1 & Hl & Hc).
  destruct (Forall2_lookup_r _ _ _ _ _ Hf Hr1) as (r0 & Hr0 & _ & v & Hv & Hcells).
  exists k, r0, v. split; [lia|]. split; [exact Hr0|]. split; [exact Hv|].
  congruence.
Qed.

(** X5: a table that already has a column [ds] beside [Date].  After the
    renaming two columns are called [ds], [sort_values] raises [ValueError],
    and the table passed in stays converted and renamed. *)
Theorem prep_store_data_existing_ds l sid so (h : gmap loc DataFrame) d :
  h !! l = Some d →
  is_ok (col_pos "Date" (columns d)) = true →
  is_ok (col_pos "Store" (columns d)) = true →
  is_ok (col_pos "Open" (columns d)) = true →
  dates_convert d = true →
  "ds" ∈ columns d →
  ∃ i inp msg,
    col_pos "Date" (columns d) = Ok i ∧
    columns inp = map (rename_label column_mapper) (columns d) ∧
    Forall2 (converted i) (rows d) (rows inp) ∧
    prep_store_data l sid so h = (Raise (ValueError msg), <[l := inp]> h).
Proof.
  intros Hd HDate HStore HOpen Hconv Hds.
  destruct (col_pos "Date" (columns d)) as [i|] eqn:Hi; [|discriminate].
  destruct (col_pos "Store" (columns d)) as [js|] eqn:Hjs; [|discriminate].
  destruct (col_pos "Open" (columns d)) as [jo|] eqn:Hjo; [|discriminate].
  destruct (dates_convert_inv d i Hi Hconv) as [parsed Hp].
  exists i, (staged d i parsed), "The column label is not unique.".
  split; [reflexivity|]. split; [reflexivity|].
  split; [exact (store_values_converted _ _ _ Hp)|].
  rewrite (prep_store_data_late_failure l sid so h d i parsed Hd Hi Hp).
  unfold get_column, staged. cbn [columns rename].
  rewrite !col_pos_rename_other by discriminate. rewrite Hjs, Hjo. simpl.
  unfold sort_values, reset_index, boolean_index, rename. cbn [columns].
  apply list_elem_of_lookup in Hds as [j Hj].
  assert (Hne : i ≠ j).
  { intros ->. apply col_pos_lookup in Hi. congruence. }
  destruct (positions_two "ds" (map (rename_label column_mapper) (columns d)) i j)
    as (a & b & rest & ->); [| |exact Hne|reflexivity].
  - rewrite list_lookup_fmap, (col_pos_lookup _ _ _ Hi). reflexivity.
  - rewrite list_lookup_fmap, Hj. reflexivity.
Qed.

(** X8: [Sales] is not required.  When the call returns, the result has a
    column [y] exactly when the input had a column [Sales] or a column [y]:
    the renaming ignores a label that is not there. *)
Theorem prep_store_data_y_column l sid so (h : gmap loc DataFrame) l' h' :
  prep_store_data l sid so h = (Ok l', h') →
  ∃ d out,
    h !! l = Some d ∧ h' !! l' = Some out ∧
    ("y" ∈ columns out ↔ "Sales" ∈ columns d ∨ "y" ∈ columns d).
Proof.
  intros (d & i & js & jo & inp & out & Hd & _ & _ & _ & _ & _ & Hcols & _ & _
          & Hout & _ & _ & _ & _ & ->)%prep_store_data_facts.
  exists d, out. split; [exact Hd|]. split; [apply lookup_insert_eq|].
  rewrite Hout, Hcols. rewrite list_elem_of_fmap. split.
  - intros (c & Hc & Hin). symmetry in Hc. apply rename_label_y in Hc as [->| ->]; auto.
  - intros [Hin|Hin]; eexists; (split; [|exact Hin]); reflexivity.
Qed.

End PrepEdgeCases.

Local Open Scope Z_scope.

(** ** binary64 rounding *)


Lemma digits2_pos_bounds p :
  2 ^ (Z.pos (digits2_pos p) - 1) ≤ Z.pos p < 2 ^ Z.pos (digits2_pos p).
Proof.
  induction p as [p IH|p IH|]; simpl digits2_pos.
  - rewrite Pos2Z.inj_succ.
    replace (Z.succ (Z.pos (digits2_pos p)) - 1)
      with (Z.succ (Z.pos (digits2_pos p) - 1)) by lia.
    rewrite !Z.pow_succ_r by lia. lia.
  - rewrite Pos2Z.inj_succ.
    replace (Z.succ (Z.pos (digits2_pos p)) - 1)
      with (Z.succ (Z.pos (digits2_pos p) - 1)) by lia.
    rewrite !Z.pow_succ_r by lia. lia.
  - simpl. lia.
Qed.

Lemma digits2_pos_le p k :
  0 ≤ k → Z.pos p < 2 ^ k → Z.pos (digits2_pos p) ≤ k.
Proof.
  intros Hk Hlt. destruct (digits2_pos_bounds p) as [Hlo _].
  destruct (Z_le_gt_dec (Z.pos (digits2_pos p)) k) as [|Hgt]; [assumption|].
  assert (2 ^ k ≤ 2 ^ (Z.pos (digits2_pos p) - 1))
    by (apply Z.pow_le_mono_r; lia).
  lia.
Qed.


Lemma shr_1_inv P k mrs :
  0 ≤ k → shr_inv P k mrs → shr_inv P (k + 1) (shr_1 mrs).
Proof.
  intros Hk (Hm & Hrem & Hex & _). unfold shr_inv.
  rewrite Z.pow_add_r, Z.pow_1_r by lia.
  assert (0 < 2 ^ k) by (apply Z.pow_pos_nonneg; lia).
  destruct mrs as [m r s]. simpl in *.
  destruct m as [|[p|p|]|p]; simpl.
  - split; [lia|]. split; [lia|]. split; [rewrite <- Hex; lia|discriminate].
  - change (Z.pos p~1) with (2 * Z.pos p + 1) in Hrem.
    split; [lia|]. split; [lia|]. split; [split; [lia|discriminate]|lia].
  - change (Z.pos p~0) with (2 * Z.pos p) in Hrem, Hex.
    split; [lia|]. split; [lia|]. split; [rewrite <- Hex; lia|discriminate].
  - split; [lia|]. split; [lia|]. split; [split; [lia|discriminate]|lia].
  - lia.
Qed.

Lemma iter_shr_1_inv P n k mrs :
  0 ≤ k → shr_inv P k mrs →
  shr_inv P (k + Z.pos n) (SpecFloat.iter_pos shr_1 n mrs).
Proof.
  revert k mrs; induction n as [n IH|n IH|]; intros k mrs Hk Hinv; simpl.
  - replace (k + Z.pos n~1) with (k + 1 + Z.pos n + Z.pos n) by lia.
    apply IH; [lia|]. apply IH; [lia|]. now apply shr_1_inv.
  - replace (k + Z.pos n~0) with (k + Z.pos n + Z.pos n) by lia.
    apply IH; [lia|]. now apply IH.
  - now apply shr_1_inv.
Qed.

Lemma shr_fexp_spec m e :
  0 ≤ m →
  ∃ mrs e2, shr_fexp 53 1024 m e loc_Exact = (mrs, e2) ∧
            e2 = Z.max e (fexp 53 1024 (Zdigits2 m + e)) ∧
            shr_inv m (e2 - e) mrs.
Proof.
  intros Hm. unfold shr_fexp, shr. simpl shr_record_of_loc.
  assert (Hbase : shr_inv m 0 (Build_shr_record m false false)).
  { unfold shr_inv. simpl. rewrite Z.mul_1_r. split; [lia|].
    split; [lia|]. split; [split; [reflexivity|lia]|discriminate]. }
  destruct (fexp 53 1024 (Zdigits2 m + e) - e) as [|n|n] eqn:Hn.
  - eexists _, _. split; [reflexivity|]. split; [lia|].
    now rewrite Z.sub_diag.
  - eexists _, _. split; [reflexivity|]. split; [lia|].
    replace (e + Z.pos n - e) with (0 + Z.pos n) by lia.
    now apply iter_shr_1_inv.
  - eexists _, _. split; [reflexivity|]. split; [lia|].
    now rewrite Z.sub_diag.
Qed.

(** Rounding to nearest: the rounded mantissa is the quotient or its
    successor, the successor only when the remainder is at least half. *)
Lemma round_nearest_even_bound P k mrs :
  0 ≤ k → shr_inv P k mrs →
  let M := round_nearest_even (shr_m mrs) (loc_of_shr_record mrs) in
  shr_m mrs ≤ M ≤ shr_m mrs + 1 ∧
  M * 2 ^ k < P + 2 ^ k ∧
  2 * (M * 2 ^ k) ≤ 2 * P + 2 ^ k ∧
  (2 * (P - shr_m mrs * 2 ^ k) < 2 ^ k → M = shr_m mrs).
Proof.
  intros Hk (Hm & Hrem & Hex & Hr).
  assert (0 < 2 ^ k) by (apply Z.pow_pos_nonneg; lia).
  destruct mrs as [m [|] [|]]; simpl in *;
    try (destruct (Z.even m)); try specialize (Hr eq_refl); lia.
Qed.

(** Rounding a positive dyadic [P * 2^e] that lies below an integer [N]
    that fits the mantissa gives a float whose integer part is at most [N]. *)
Lemma binary_round_aux_below P e N :
  e ≤ 0 → 0 ≤ N < 2 ^ 53 → Z.pos P < N * 2 ^ (- e) →
  match binary_round_aux 53 1024 false (Z.pos P) e loc_Exact with
  | S754_zero s => s = false
  | S754_finite s m E => s = false ∧ 0 ≤ Z.shiftl (Z.pos m) E ≤ N
  | _ => False
  end.
Proof.
  intros He HN HP. unfold binary_round_aux.
  destruct (shr_fexp_spec (Z.pos P) e) as (mrs1 & E1 & -> & HE1 & Hinv1);
    [lia|].
  assert (HdP : Z.pos (digits2_pos P) ≤ 53 - e).
  { apply digits2_pos_le; [lia|].
    replace (53 - e) with (53 + - e) by lia. rewrite Z.pow_add_r by lia.
    assert (0 < 2 ^ (- e)) by (apply Z.pow_pos_nonneg; lia). nia. }
  assert (HE1' : e ≤ E1 ≤ 0).
  { subst E1. unfold fexp, emin. simpl Zdigits2. lia. }
  pose proof (round_nearest_even_bound (Z.pos P) (E1 - e) mrs1) as HM.
  simpl in HM. specialize (HM ltac:(lia) Hinv1).
  set (M := round_nearest_even (shr_m mrs1) (loc_of_shr_record mrs1)) in *.
  destruct HM as (HMm & HM & _ & _).
  assert (HM0 : 0 ≤ M) by (destruct Hinv1; lia).
  (* M * 2^(-E1) ... M ≤ N * 2^(-E1) *)
  assert (HMN : M ≤ N * 2 ^ (- E1)).
  { assert (Hpow : 2 ^ (- e) = 2 ^ (- E1) * 2 ^ (E1 - e)).
    { rewrite <- Z.pow_add_r by lia. f_equal. lia. }
    assert (0 < 2 ^ (E1 - e)) by (apply Z.pow_pos_nonneg; lia).
    assert (0 < 2 ^ (- E1)) by (apply Z.pow_pos_nonneg; lia).
    rewrite Hpow in HP.
    assert (M * 2 ^ (E1 - e) < (N * 2 ^ (- E1) + 1) * 2 ^ (E1 - e)) by nia.
    apply Z.mul_lt_mono_pos_r in H1; lia. }
  destruct (shr_fexp_spec M E1) as (mrs2 & E2 & -> & HE2 & Hinv2); [lia|].
  assert (HE2' : E1 ≤ E2 ≤ 0).
  { subst E2. split; [lia|]. apply Z.max_lub; [lia|].
    unfold fexp, emin.
    destruct M as [|pm|pm]; simpl Zdigits2; [lia| |lia].
    assert (Z.pos (digits2_pos pm) ≤ 53 - E1); [|lia].
    apply digits2_pos_le; [lia|].
    replace (53 - E1) with (53 + - E1) by lia. rewrite Z.pow_add_r by lia.
    assert (0 < 2 ^ (- E1)) by (apply Z.pow_pos_nonneg; lia). nia. }
  destruct Hinv2 as (Hm2 & Hrem2 & _ & _).
  destruct (shr_m mrs2) as [|m2|m2] eqn:Hm2eq; [reflexivity| |lia].
  replace (E2 <=? 1024 - 53) with true by (symmetry; apply Z.leb_le; lia).
  split; [reflexivity|].
  rewrite Z.shiftl_div_pow2 by lia.
  assert (0 < 2 ^ (- E2)) by (apply Z.pow_pos_nonneg; lia).
  split; [apply Z.div_pos; lia|].
  apply Z.div_le_upper_bound; [lia|].
  assert (Hpow : 2 ^ (- E1) = 2 ^ (- E2) * 2 ^ (E2 - E1)).
  { rewrite <- Z.pow_add_r by lia. f_equal. lia. }
  assert (0 < 2 ^ (E2 - E1)) by (apply Z.pow_pos_nonneg; lia).
  rewrite Hpow in HMN.
  assert (Z.pos m2 * 2 ^ (E2 - E1) ≤ (2 ^ (- E2) * N) * 2 ^ (E2 - E1)) by nia.
  apply Z.mul_le_mono_pos_r in H1; lia.
Qed.

Lemma binary_round_aux_exact m e :
  fexp 53 1024 (Z.pos (digits2_pos m) + e) ≤ e → e ≤ 1024 - 53 →
  binary_round_aux 53 1024 false (Z.pos m) e loc_Exact = S754_finite false m e.
Proof.
  intros Hf He. unfold binary_round_aux, shr_fexp, shr. simpl Zdigits2.
  simpl shr_record_of_loc.
  destruct (fexp 53 1024 (Z.pos (digits2_pos m) + e) - e) as [| |] eqn:Hd; try lia;
    simpl; rewrite Hd; simpl;
    now replace (e <=? 1024 - 53) with true by (symmetry; apply Z.leb_le; lia).
Qed.

Lemma iter_xO_pow p d : Z.pos (Pos.iter xO p d) = Z.pos p * 2 ^ Z.pos d.
Proof.
  change (Pos.iter xO p d) with (shift_pos d p).
  rewrite shift_pos_correct, Zpower_pos_nat, Zpower_nat_Z.
  rewrite positive_nat_Z. lia.
Qed.

(** An int below 2^53 converts to a float exactly. *)
Lemma float_of_Z_exact n :
  0 < n < 2 ^ 53 →
  ∃ m d, float_of_Z n = S754_finite false m (- d) ∧ 0 ≤ d ∧
         Z.pos m = n * 2 ^ d.
Proof.
  intros Hn. destruct n as [|p|p]; try lia.
  unfold float_of_Z, binary_normalize, binary_round, shl_align.
  assert (Hdp : 1 ≤ Z.pos (digits2_pos p) ≤ 53).
  { split; [lia|]. apply digits2_pos_le; lia. }
  assert (Hfexp : fexp 53 1024 (Z.pos (digits2_pos p) + 0)
                  = Z.pos (digits2_pos p) - 53).
  { unfold fexp, emin. lia. }
  rewrite Hfexp.
  destruct (Z.pos (digits2_pos p) - 53 - 0) as [| |d] eqn:Hd; try lia.
  - exists p, 0. replace (Z.pos (digits2_pos p) - 53) with 0 by lia.
    split; [|split; [lia|simpl; lia]].
    change (- 0) with 0. apply binary_round_aux_exact; [|lia].
    unfold fexp, emin. lia.
  - exists (Pos.iter xO p d), (Z.pos d).
    replace (Z.pos (digits2_pos p) - 53) with (- Z.pos d) by lia.
    split; [|split; [lia|apply iter_xO_pow]].
    apply binary_round_aux_exact; [|lia].
    assert (Z.pos (digits2_pos (Pos.iter xO p d)) ≤ 53).
    { apply digits2_pos_le; [lia|]. rewrite iter_xO_pow.
      destruct (digits2_pos_bounds p) as [_ Hhi].
      replace 53 with (Z.pos (digits2_pos p) + Z.pos d) by lia.
      rewrite Z.pow_add_r by lia.
      assert (0 < 2 ^ Z.pos d) by (apply Z.pow_pos_nonneg; lia). nia. }
    unfold fexp, emin. lia.
Qed.

Lemma digits2_pos_ge p k :
  2 ^ (k - 1) ≤ Z.pos p → k ≤ Z.pos (digits2_pos p).
Proof.
  intros Hle. destruct (digits2_pos_bounds p) as [_ Hhi].
  destruct (Z_le_gt_dec k (Z.pos (digits2_pos p))) as [|Hgt]; [assumption|].
  assert (2 ^ Z.pos (digits2_pos p) ≤ 2 ^ (k - 1))
    by (apply Z.pow_le_mono_r; lia).
  lia.
Qed.

Lemma pow2_52_value : 2 ^ 52 = 4503599627370496.
Proof. vm_compute. reflexivity. Qed.

Lemma pow2_53 : 2 ^ 53 = 9007199254740992.
Proof. vm_compute. reflexivity. Qed.

(** An int of 2^53 or more converts to the nearest float: a 53-bit mantissa
    at a positive exponent, at most half a unit in the last place above the
    int; or to infinity, when it is beyond the float range. *)
Lemma float_of_Z_large n :
  2 ^ 53 ≤ n →
  match float_of_Z n with
  | S754_infinity s => s = false
  | S754_finite s m e =>
      s = false ∧ 1 ≤ e ≤ 1024 - 53 ∧ 2 ^ 52 ≤ Z.pos m < 2 ^ 53 ∧
      Z.pos m * 2 ^ e ≤ n + 2 ^ (e - 1)
  | _ => False
  end.
Proof.
  intros Hn. destruct n as [|p|p]; try (rewrite pow2_53 in Hn; lia).
  unfold float_of_Z, binary_normalize, binary_round, shl_align.
  destruct (digits2_pos_bounds p) as [Hlo Hhi].
  set (D := Z.pos (digits2_pos p)) in *.
  assert (HD : 54 ≤ D) by (apply digits2_pos_ge; exact Hn).
  assert (Hfexp : fexp 53 1024 (D + 0) = D - 53)
    by (unfold fexp, emin; lia).
  rewrite Hfexp.
  destruct (D - 53 - 0) as [|d|d] eqn:Hd; try lia.
  unfold binary_round_aux.
  destruct (shr_fexp_spec (Z.pos p) 0) as (mrs1 & E1 & -> & HE1 & Hinv1);
    [lia|].
  simpl Zdigits2 in HE1. fold D in HE1. rewrite Hfexp in HE1.
  assert (HE1' : E1 = D - 53) by lia. clear HE1.
  rewrite Z.sub_0_r in Hinv1.
  pose proof (round_nearest_even_bound (Z.pos p) E1 mrs1 ltac:(lia) Hinv1)
    as HM. simpl in HM.
  set (M := round_nearest_even (shr_m mrs1) (loc_of_shr_record mrs1)) in *.
  destruct HM as (HMm & _ & HMnear & _).
  destruct Hinv1 as (Hm1 & Hrem1 & _ & _).
  assert (Hpow : 2 ^ (D - 1) = 2 ^ 52 * 2 ^ E1).
  { rewrite <- Z.pow_add_r by lia. f_equal. lia. }
  assert (HpowD : 2 ^ D = 2 ^ 53 * 2 ^ E1).
  { rewrite <- Z.pow_add_r by lia. f_equal. lia. }
  assert (HE1pos : 0 < 2 ^ E1) by (apply Z.pow_pos_nonneg; lia).
  assert (Hm1b : 2 ^ 52 ≤ shr_m mrs1 < 2 ^ 53).
  { rewrite Hpow in Hlo. rewrite HpowD in Hhi. split; nia. }
  assert (HMb : 2 ^ 52 ≤ M ≤ 2 ^ 53) by lia.
  assert (Hhalf : 2 ^ E1 = 2 * 2 ^ (E1 - 1)).
  { rewrite <- Z.pow_succ_r by lia. f_equal. lia. }
  destruct (shr_fexp_spec M E1) as (mrs2 & E2 & -> & HE2 & Hinv2); [lia|].
  destruct M as [|pm|pm] eqn:HMeq; try (rewrite pow2_52_value in HMb; lia).
  simpl Zdigits2 in HE2.
  destruct (Z.eq_dec (Z.pos pm) (2 ^ 53)) as [Htop|Htop].
  - (* the mantissa rounded up to 2^53: one more shift, exact *)
    assert (Hdm : Z.pos (digits2_pos pm) = 54).
    { apply Z.le_antisymm.
      - apply digits2_pos_le; [lia|]. rewrite Htop.
        apply Z.pow_lt_mono_r; lia.
      - apply digits2_pos_ge. rewrite Htop. simpl. lia. }
    rewrite Hdm in HE2. unfold fexp, emin in HE2.
    assert (HE2' : E2 = E1 + 1) by lia. clear HE2.
    replace (E2 - E1) with 1 in Hinv2 by lia.
    destruct Hinv2 as (Hm2 & Hrem2 & _ & _).
    rewrite Z.pow_1_r, Htop, pow2_53 in Hrem2.
    destruct (shr_m mrs2) as [|m2|m2]; try lia.
    destruct (E2 <=? 1024 - 53) eqn:Hfin; [|reflexivity].
    apply Z.leb_le in Hfin.
    split; [reflexivity|]. split; [lia|].
    assert (Hm2v : Z.pos m2 = 2 ^ 52) by (rewrite pow2_52_value; lia).
    split; [rewrite Hm2v; split; [lia|apply Z.pow_lt_mono_r; lia]|].
    rewrite Hm2v, HE2'. replace (E1 + 1 - 1) with E1 by lia.
    rewrite Z.pow_add_r, Z.pow_1_r by lia.
    rewrite Htop in HMnear.
    replace (2 ^ 53) with (2 ^ 52 * 2) in HMnear
      by (rewrite pow2_52_value, pow2_53; reflexivity).
    nia.
  - assert (Hdm : Z.pos (digits2_pos pm) = 53).
    { apply Z.le_antisymm.
      - apply digits2_pos_le; lia.
      - apply digits2_pos_ge. simpl. lia. }
    rewrite Hdm in HE2. unfold fexp, emin in HE2.
    assert (HE2' : E2 = E1) by lia. clear HE2.
    replace (E2 - E1) with 0 in Hinv2 by lia.
    destruct Hinv2 as (Hm2 & Hrem2 & _ & _).
    rewrite Z.pow_0_r, Z.mul_1_r in Hrem2.
    destruct (shr_m mrs2) as [|m2|m2]; try lia.
    destruct (E2 <=? 1024 - 53) eqn:Hfin; [|reflexivity].
    apply Z.leb_le in Hfin.
    split; [reflexivity|]. split; [lia|].
    assert (Hm2v : Z.pos m2 = Z.pos pm) by lia.
    split; [lia|]. rewrite Hm2v, HE2'. nia.
Qed.

Lemma pow2_pos k : 0 ≤ k → 0 < 2 ^ k.
Proof. intros. apply Z.pow_pos_nonneg; lia. Qed.

(** A positive divisor of a power of two is a power of two. *)
Lemma pow2_divisor j a q :
  0 ≤ j → 0 < a → a * q = 2 ^ j → ∃ i, 0 ≤ i ≤ j ∧ a = 2 ^ i.
Proof.
  intros Hj. revert a q. pattern j. apply natlike_ind; [| |exact Hj].
  - intros a q Ha Hq. rewrite Z.pow_0_r in Hq. exists 0.
    split; [lia|]. rewrite Z.pow_0_r.
    destruct (Z.eq_mul_1 _ _ Hq); lia.
  - intros x Hx IH a q Ha Hq. rewrite Z.pow_succ_r in Hq by lia.
    destruct (Z.Even_or_Odd a) as [[a' ->]|[a' ->]].
    + destruct (IH a' q) as (i & Hi & ->); [lia|nia|].
      exists (Z.succ i). split; [lia|]. now rewrite Z.pow_succ_r by lia.
    + destruct (Z.Even_or_Odd q) as [[q' ->]|[q' ->]].
      * destruct (IH (2 * a' + 1) q') as (i & Hi & Hai); [lia|nia|].
        exists i. split; [lia|exact Hai].
      * exfalso. clear IH. 
        assert (Hpar : 2 * (2 * (a' * q') + a' + q') + 1 = 2 * 2 ^ x) by nia.
        lia.
Qed.

Lemma no_pow2_between a :
  2 ^ 52 < a < 2 ^ 53 → ∀ i, 0 ≤ i → a ≠ 2 ^ i.
Proof.
  intros [Hlo Hhi] i Hi ->.
  apply Z.pow_lt_mono_r_iff in Hlo; [|lia|lia].
  apply Z.pow_lt_mono_r_iff in Hhi; lia.
Qed.

(** The product of a float below one (mantissa [mf], exponent [-k]) and a
    float of 2^53 or more (mantissa [M'], exponent [En]), after the first
    rounding step: the rounded mantissa [M] at exponent [E1] stays at or below
    the midpoint under [M' * 2^En]. *)
Lemma product_first_rounding (mf M' : positive) k En :
  53 ≤ k → Z.pos mf < 2 ^ 53 → Z.pos mf < 2 ^ k → 1 ≤ En →
  2 ^ 52 ≤ Z.pos M' < 2 ^ 53 →
  ∃ mrs1 E1,
    shr_fexp 53 1024 (Z.pos (mf * M')) (En - k) loc_Exact = (mrs1, E1) ∧
    let M := round_nearest_even (shr_m mrs1) (loc_of_shr_record mrs1) in
    0 ≤ M ∧ En - k ≤ E1 ∧
    ((E1 ≤ En - 1 ∧ M ≤ (2 * Z.pos M' - 1) * 2 ^ (En - 1 - E1)) ∨
     (E1 = En ∧ M ≤ Z.pos M' - 1)).
Proof.
  intros Hk Hmf53 Hmfk HEn HM'.
  set (P := Z.pos (mf * M')).
  assert (HP : P = Z.pos mf * Z.pos M') by apply Pos2Z.inj_mul.
  destruct (shr_fexp_spec P (En - k)) as (mrs1 & E1 & Heq & HE1 & Hinv1);
    [lia|].
  exists mrs1, E1. split; [exact Heq|].
  pose proof (pow2_pos k ltac:(lia)) as Hkpos.
  pose proof (pow2_pos (k - 1) ltac:(lia)) as Hk1pos.
  assert (Hk2 : 2 ^ k = 2 * 2 ^ (k - 1)).
  { rewrite <- Z.pow_succ_r by lia. f_equal. lia. }
  assert (Hh : 2 ^ 52 ≤ 2 ^ (k - 1)) by (apply Z.pow_le_mono_r; lia).
  assert (H53 : 2 ^ 53 = 2 * 2 ^ 52) by (rewrite pow2_53, pow2_52_value; lia).
  (* the product is at most the midpoint below M' * 2^k *)
  assert (HPY : P ≤ (2 * Z.pos M' - 1) * 2 ^ (k - 1)).
  { rewrite HP. destruct (Z.eq_dec k 53) as [->|Hne].
    - change (53 - 1) with 52. nia.
    - assert (2 ^ 53 ≤ 2 ^ (k - 1)) by (apply Z.pow_le_mono_r; lia). nia. }
  destruct (digits2_pos_bounds (mf * M')) as [HDlo HDhi].
  fold P in HDlo, HDhi. simpl Zdigits2 in HE1.
  set (D := Z.pos (digits2_pos (mf * M'))) in *.
  assert (HD : D ≤ 53 + k).
  { apply digits2_pos_le; [lia|]. fold P. rewrite HP, Z.pow_add_r by lia.
    nia. }
  assert (HE1lo : En - k ≤ E1) by lia.
  pose proof (round_nearest_even_bound P (E1 - (En - k)) mrs1 ltac:(lia)
                Hinv1) as HMb. simpl in HMb.
  set (M := round_nearest_even (shr_m mrs1) (loc_of_shr_record mrs1)) in *.
  destruct HMb as (HMm & HMceil & _ & HMdown).
  destruct Hinv1 as (Hm1 & Hrem1 & _ & _).
  split; [lia|]. split; [exact HE1lo|].
  unfold fexp, emin in HE1.
  destruct (Z_le_gt_dec D (52 + k)) as [HDs|HDs].
  - left. assert (HE1hi : E1 ≤ En - 1) by lia. split; [exact HE1hi|].
    set (a := E1 - (En - k)) in *.
    assert (Ha : 0 ≤ a ≤ k - 1) by (unfold a; lia).
    replace (En - 1 - E1) with (k - 1 - a) by (unfold a; lia).
    pose proof (pow2_pos a ltac:(lia)) as Hapos.
    assert (Hsplit : 2 ^ (k - 1) = 2 ^ (k - 1 - a) * 2 ^ a).
    { rewrite <- Z.pow_add_r by lia. f_equal. lia. }
    rewrite Hsplit in HPY.
    assert (HMlt : M * 2 ^ a
                   < ((2 * Z.pos M' - 1) * 2 ^ (k - 1 - a) + 1) * 2 ^ a).
    { clear -HMceil HPY. rewrite Z.mul_add_distr_r, Z.mul_1_l, <- Z.mul_assoc.
      lia. }
    apply Z.mul_lt_mono_pos_r in HMlt; lia.
  - right. assert (HDeq : D = 53 + k) by lia.
    assert (HE1eq : E1 = En) by lia. split; [exact HE1eq|].
    replace (E1 - (En - k)) with k in * by lia.
    assert (HPlo : 2 ^ 52 * 2 ^ k ≤ P).
    { rewrite <- Z.pow_add_r by lia.
      replace (52 + k) with (D - 1) by lia. exact HDlo. }
    assert (HM'gt : 2 ^ 52 < Z.pos M').
    { destruct (Z_lt_ge_dec (2 ^ 52) (Z.pos M')) as [|Hge]; [assumption|].
      exfalso. rewrite HP in HPlo.
      assert (Z.pos mf * Z.pos M' ≤ Z.pos mf * 2 ^ 52)
        by (apply Z.mul_le_mono_nonneg_l; lia).
      assert (Z.pos mf * 2 ^ 52 < 2 ^ k * 2 ^ 52)
        by (apply Z.mul_lt_mono_pos_r; lia).
      lia. }
    set (m1 := shr_m mrs1) in *.
    assert (Hm1le : m1 ≤ Z.pos M' - 1).
    { assert (Hlt : m1 * 2 ^ k < Z.pos M' * 2 ^ k).
      { clear -Hrem1 HPY Hk2 Hk1pos. rewrite Hk2 in Hrem1 |- *. lia. }
      apply Z.mul_lt_mono_pos_r in Hlt; lia. }
    destruct (Z_le_gt_dec m1 (Z.pos M' - 2)) as [Hfar|Hnear]; [lia|].
    assert (Hm1eq : m1 = Z.pos M' - 1) by lia.
    destruct (Z_lt_ge_dec (2 * (P - m1 * 2 ^ k)) (2 ^ k)) as [Hlow|Htie].
    + rewrite (HMdown Hlow). lia.
    + exfalso.
      assert (HPeq : P = (2 * Z.pos M' - 1) * 2 ^ (k - 1)).
      { clear -Htie Hm1eq HPY Hk2. rewrite Hm1eq, Hk2 in Htie. lia. }
      assert (Hdiv : Z.pos M' * (2 ^ k - Z.pos mf) = 2 ^ (k - 1)).
      { clear -HPeq HP Hk2. rewrite Hk2. rewrite HP in HPeq.
        rewrite Z.mul_sub_distr_l, (Z.mul_comm (Z.pos M') (Z.pos mf)), HPeq.
        ring. }
      destruct (pow2_divisor (k - 1) (Z.pos M') (2 ^ k - Z.pos mf)
                  ltac:(lia) ltac:(lia) Hdiv) as (i & Hi & HM'i).
      apply (no_pow2_between (Z.pos M') ltac:(lia) i ltac:(lia) HM'i).
Qed.

Lemma binary_round_aux_below_large (mf M' : positive) k En n :
  53 ≤ k → Z.pos mf < 2 ^ 53 → Z.pos mf < 2 ^ k → 1 ≤ En ≤ 1024 - 53 →
  2 ^ 52 ≤ Z.pos M' < 2 ^ 53 → Z.pos M' * 2 ^ En ≤ n + 2 ^ (En - 1) →
  match binary_round_aux 53 1024 false (Z.pos (mf * M')) (En - k) loc_Exact
  with
  | S754_zero s => s = false
  | S754_finite s m E => s = false ∧ 0 ≤ Z.shiftl (Z.pos m) E ≤ n
  | _ => False
  end.
Proof.
  intros Hk Hmf53 Hmfk HEn HM' Hn.
  destruct (product_first_rounding mf M' k En Hk Hmf53 Hmfk ltac:(lia) HM')
    as (mrs1 & E1 & Heq & HM0 & HE1lo & Hcases).
  unfold binary_round_aux. rewrite Heq.
  set (M := round_nearest_even (shr_m mrs1) (loc_of_shr_record mrs1)) in *.
  set (c := 2 * Z.pos M' - 1) in *.
  pose proof (pow2_pos (En - 1) ltac:(lia)) as HEn1pos.
  assert (HEn2 : 2 ^ En = 2 * 2 ^ (En - 1)).
  { rewrite <- Z.pow_succ_r by lia. f_equal. lia. }
  assert (Hy : c * 2 ^ (En - 1) ≤ n).
  { unfold c. rewrite HEn2 in Hn. lia. }
  assert (H53 : 2 ^ 53 = 2 * 2 ^ 52) by (rewrite pow2_53, pow2_52_value; lia).
  assert (Hc : 0 < c < 2 * 2 ^ 53) by (unfold c; lia).
  destruct (shr_fexp_spec M E1) as (mrs2 & E2 & -> & HE2 & Hinv2); [lia|].
  destruct Hinv2 as (Hm2 & Hrem2 & _ & _).
  set (b := E2 - E1) in *.
  assert (HE1En : E1 ≤ En) by (destruct Hcases as [[? _]|[? _]]; lia).
  assert (HE2hi : E1 ≤ E2 ≤ En).
  { split; [lia|]. rewrite HE2. apply Z.max_lub; [exact HE1En|].
    unfold fexp, emin. apply Z.max_lub; [|lia].
    destruct M as [|pm|pm] eqn:HMeq; simpl Zdigits2; [lia| |lia].
    assert (Z.pos (digits2_pos pm) ≤ 53 + En - E1); [|lia].
    apply digits2_pos_le; [lia|].
    destruct Hcases as [[HE1 HMle]|[HE1 HMle]].
    - replace (53 + En - E1) with (1 + 53 + (En - 1 - E1)) by lia.
      rewrite !Z.pow_add_r, Z.pow_1_r by lia.
      pose proof (pow2_pos (En - 1 - E1) ltac:(lia)). nia.
    - replace (53 + En - E1) with 53 by lia. lia. }
  assert (Hb : 0 ≤ b) by (unfold b; lia).
  pose proof (pow2_pos b Hb) as Hbpos.
  destruct (shr_m mrs2) as [|m2|m2] eqn:Hm2eq; [reflexivity| |lia].
  replace (E2 <=? 1024 - 53) with true by (symmetry; apply Z.leb_le; lia).
  split; [reflexivity|].
  assert (Hm2M : Z.pos m2 * 2 ^ b ≤ M) by lia.
  split.
  { apply Z.shiftl_nonneg. lia. }
  apply Z.le_trans with (c * 2 ^ (En - 1)); [|exact Hy].
  destruct Hcases as [[HE1 HMle]|[HE1 HMle]].
  - (* M ≤ c * 2^(En-1-E1) *)
    destruct (Z_le_gt_dec E2 (En - 1)) as [HE2s|HE2s].
    + assert (Hsplit : 2 ^ (En - 1 - E1) = 2 ^ (En - 1 - E2) * 2 ^ b).
      { rewrite <- Z.pow_add_r by (unfold b; lia). f_equal. unfold b. lia. }
      rewrite Hsplit in HMle.
      assert (Hm2le : Z.pos m2 ≤ c * 2 ^ (En - 1 - E2)).
      { assert (Hlt : Z.pos m2 * 2 ^ b ≤ (c * 2 ^ (En - 1 - E2)) * 2 ^ b)
          by lia.
        apply Z.mul_le_mono_pos_r in Hlt; lia. }
      destruct (Z_le_gt_dec 0 E2) as [HE2p|HE2n].
      * rewrite Z.shiftl_mul_pow2 by lia.
        pose proof (pow2_pos E2 HE2p).
        replace (En - 1) with (En - 1 - E2 + E2) at 1 by lia.
        rewrite Z.pow_add_r, Z.mul_assoc by lia.
        apply Z.mul_le_mono_nonneg_r; lia.
      * rewrite Z.shiftl_div_pow2 by lia.
        pose proof (pow2_pos (- E2) ltac:(lia)).
        apply Z.div_le_upper_bound; [lia|].
        replace (En - 1 - E2) with (- E2 + (En - 1)) in Hm2le by lia.
        rewrite Z.pow_add_r in Hm2le by lia. lia.
    + assert (HE2eq : E2 = En) by lia.
      rewrite Z.shiftl_mul_pow2 by lia. rewrite HE2eq, HEn2.
      assert (Hb1 : 2 ^ b = 2 * 2 ^ (En - 1 - E1)).
      { rewrite <- Z.pow_succ_r by lia. f_equal. unfold b. lia. }
      pose proof (pow2_pos (En - 1 - E1) ltac:(lia)) as Hq.
      rewrite Hb1 in Hm2M.
      assert (H2m : (2 * Z.pos m2) * 2 ^ (En - 1 - E1)
                    ≤ c * 2 ^ (En - 1 - E1)) by lia.
      apply Z.mul_le_mono_pos_r in H2m; [|lia]. nia.
  - (* E1 = En, M ≤ M' - 1 *)
    assert (HE2eq : E2 = En) by lia.
    assert (Hb0 : b = 0) by (unfold b; lia).
    rewrite Hb0, Z.pow_0_r, Z.mul_1_r in Hm2M.
    rewrite Z.shiftl_mul_pow2 by lia. rewrite HE2eq, HEn2.
    unfold c. nia.
Qed.

Lemma SFone_binary64 :
  SFone 53 1024 = S754_finite false 4503599627370496 (-52).
Proof. vm_compute. reflexivity. Qed.

Lemma compare_cont_lt m q : Pos.compare_cont Eq m q = Lt → Z.pos m < Z.pos q.
Proof. intros Hc. exact Hc. Qed.

Lemma pow2_52 : 2 ^ (53 - 1) = 4503599627370496.
Proof. vm_compute. reflexivity. Qed.

(** A float in (0,1) is a positive finite float below one. *)
Lemma in_unit_interval_inv f :
  in_unit_interval f = true →
  ∃ m e, f = S754_finite false m e ∧ e ≤ -53 ∧ Z.pos m < 2 ^ (- e) ∧
         Z.pos m < 2 ^ 53.
Proof.
  unfold in_unit_interval. rewrite !andb_true_iff.
  intros [[Hvalid Hpos] Hlt].
  destruct f as [s|s| |s m e]; try discriminate.
  - destruct s; discriminate.
  - destruct s; try discriminate. clear Hpos.
    exists m, e. split; [reflexivity|].
    simpl in Hvalid. unfold bounded, canonical_mantissa in Hvalid.
    apply andb_true_iff in Hvalid as [Hcan _]. apply Z.eqb_eq in Hcan.
    unfold fexp, emin in Hcan.
    rewrite SFone_binary64 in Hlt.
    unfold SFltb, SFcompare in Hlt.
    destruct (digits2_pos_bounds m) as [Hlo Hhi].
    destruct (Z.compare_spec e (-52)) as [->|He|He]; try discriminate.
    + exfalso.
      assert (Hd : Z.pos (digits2_pos m) = 53) by lia. rewrite Hd in Hlo.
      rewrite pow2_52 in Hlo.
      destruct (Pos.compare_cont Eq m 4503599627370496) eqn:Hc;
        try discriminate.
      apply compare_cont_lt in Hc. clear -Hc Hlo. lia.
    + assert (Z.pos (digits2_pos m) ≤ 53) by lia.
      split; [lia|].
      assert (2 ^ Z.pos (digits2_pos m) ≤ 2 ^ (- e))
        by (apply Z.pow_le_mono_r; lia).
      assert (2 ^ Z.pos (digits2_pos m) ≤ 2 ^ 53)
        by (apply Z.pow_le_mono_r; lia).
      lia.
Qed.

Lemma train_index_bounds_small f n :
  in_unit_interval f = true → 0 ≤ n < 2 ^ 53 →
  ∃ k, int_to_float n = Ok (float_of_Z n) ∧
       float_to_int (float_mul f (float_of_Z n)) = Ok k ∧
       float_floor (float_mul f (float_of_Z n)) = Some k ∧
       0 ≤ k ≤ n.
Proof.
  intros (m & e & -> & He & Hm & _)%in_unit_interval_inv Hn.
  destruct (Z.eq_dec n 0) as [->|Hn0].
  - exists 0. repeat split; reflexivity || lia.
  - destruct (float_of_Z_exact n) as (mn & d & Hfn & Hd & Hmn); [lia|].
    unfold int_to_float. rewrite Hfn. unfold float_mul, SFmul. simpl xorb.
    pose proof (binary_round_aux_below (m * mn) (e + - d) n) as Hb.
    destruct (binary_round_aux 53 1024 false (Z.pos (m * mn)) (e + - d)
                loc_Exact) as [s|s| |s m' e'].
    + exists 0. repeat split; reflexivity || lia.
    + exfalso. apply Hb; [lia|lia|].
      rewrite Pos2Z.inj_mul, Hmn.
      replace (- (e + - d)) with (- e + d) by lia. rewrite Z.pow_add_r by lia.
      assert (0 < 2 ^ d) by (apply Z.pow_pos_nonneg; lia). nia.
    + exfalso. apply Hb; [lia|lia|].
      rewrite Pos2Z.inj_mul, Hmn.
      replace (- (e + - d)) with (- e + d) by lia. rewrite Z.pow_add_r by lia.
      assert (0 < 2 ^ d) by (apply Z.pow_pos_nonneg; lia). nia.
    + destruct Hb as [-> Hb]; [lia|lia| |].
      { rewrite Pos2Z.inj_mul, Hmn.
        replace (- (e + - d)) with (- e + d) by lia.
        rewrite Z.pow_add_r by lia.
        assert (0 < 2 ^ d) by (apply Z.pow_pos_nonneg; lia). nia. }
      exists (Z.shiftl (Z.pos m') e'). repeat split; reflexivity || lia.
Qed.

(** The split index, for a fraction in (0,1): when the number of rows
    converts to a float, the product is finite, its integer part lies between
    0 and the number of rows, and truncation agrees with the floor. *)
Lemma train_index_bounds f n x :
  in_unit_interval f = true → 0 ≤ n → int_to_float n = Ok x →
  ∃ k, x = float_of_Z n ∧
       float_to_int (float_mul f x) = Ok k ∧
       float_floor (float_mul f x) = Some k ∧
       0 ≤ k ≤ n.
Proof.
  intros Hf Hn Hx.
  destruct (Z_lt_ge_dec n (2 ^ 53)) as [Hsmall|Hlarge].
  - destruct (train_index_bounds_small f n Hf ltac:(lia)) as (k & Hx' & Hk).
    rewrite Hx in Hx'. injection Hx' as ->. exists k. auto.
  - apply in_unit_interval_inv in Hf as (m & e & -> & He & Hm & Hm53).
    pose proof (float_of_Z_large n ltac:(lia)) as Hconv.
    unfold int_to_float in Hx.
    destruct (float_of_Z n) as [s|s| |s M' En] eqn:Hfn; try contradiction;
      try discriminate.
    injection Hx as <-. destruct Hconv as (-> & HEn & HM' & Hnear).
    unfold float_mul, SFmul. simpl xorb.
    pose proof (binary_round_aux_below_large m M' (- e) En n ltac:(lia) Hm53
                  Hm HEn HM' Hnear) as Hb.
    replace (En - - e) with (e + En) in Hb by lia.
    destruct (binary_round_aux 53 1024 false (Z.pos (m * M')) (e + En)
                loc_Exact) as [s|s| |s m' e']; try contradiction.
    + exists 0. repeat split; reflexivity || lia.
    + destruct Hb as [-> Hb].
      exists (Z.shiftl (Z.pos m') e'). repeat split; reflexivity || lia.
Qed.

(** ** Positional slices *)

Lemma iloc_head df k :
  rows (iloc (Some 0) (Some k) (copy df))
  = take (slice_bound (shape0 df) k) (rows df).
Proof.
  unfold iloc, copy, shape0. simpl.
  replace (slice_bound (length (rows df)) 0) with 0%nat.
  - now rewrite Nat.sub_0_r.
  - unfold slice_bound. simpl. lia.
Qed.

Lemma iloc_tail df k :
  rows (iloc (Some k) None (copy df))
  = drop (slice_bound (shape0 df) k) (rows df).
Proof.
  unfold iloc, copy, shape0. simpl.
  apply take_ge. rewrite length_drop. lia.
Qed.

Lemma slice_bound_nonneg n k :
  0 ≤ k → slice_bound n k = Nat.min (Z.to_nat k) n.
Proof.
  intros Hk. unfold slice_bound.
  destruct (Z.ltb_spec k 0); lia.
Qed.

Lemma take_min {A} (l : list A) k :
  take (Nat.min k (length l)) l = take k l.
Proof.
  destruct (Nat.le_gt_cases k (length l)).
  - now rewrite Nat.min_l.
  - rewrite Nat.min_r by lia. now rewrite !take_ge by lia.
Qed.

Lemma drop_min {A} (l : list A) k :
  drop (Nat.min k (length l)) l = drop k l.
Proof.
  destruct (Nat.le_gt_cases k (length l)).
  - now rewrite Nat.min_l.
  - rewrite Nat.min_r by lia. now rewrite !drop_ge by lia.
Qed.

Lemma split_inv df f tr te k :
  split df f = Ok (tr, te, k) →
  int_to_float (Z.of_nat (shape0 df))
    = Ok (float_of_Z (Z.of_nat (shape0 df))) ∧
  float_to_int (float_mul f (float_of_Z (Z.of_nat (shape0 df)))) = Ok k ∧
  columns tr = columns df ∧ columns te = columns df ∧
  rows tr = take (slice_bound (shape0 df) k) (rows df) ∧
  rows te = drop (slice_bound (shape0 df) k) (rows df).
Proof.
  unfold split, int_to_float.
  destruct (float_of_Z (Z.of_nat (shape0 df))) as [s|s| |s m e] eqn:Hn;
    simpl; try discriminate.
  all: destruct (float_to_int _) as [k'|] eqn:Hk; simpl; try discriminate.
  all: intros [= <- <- <-].
  all: split; [reflexivity|].
  all: split; [reflexivity|]; split; [reflexivity|]; split; [reflexivity|].
  all: split; [apply iloc_head|apply iloc_tail].
Qed.

Local Close Scope Z_scope.
Local Open Scope string_scope.

(** ** The monad *)

Lemma bind_ok_inv {S A B} (m : M S A) (k : A → M S B) s b s' :
  (m ≫= k) s = (Ok b, s') →
  ∃ a s1, m s = (Ok a, s1) ∧ k a s1 = (Ok b, s').
Proof.
  unfold mbind, M_bind. destruct (m s) as [[a|e] s1]; [|discriminate].
  eauto.
Qed.

Create HintDb keeps_run.

Section TrainProperties.
Context {W Model : Type} {L : Libraries W Model}.


Lemma keeps_run_bind {A B} (m : M (Env W) A) (k : A → M (Env W) B) :
  keeps_run m → (∀ a, keeps_run (k a)) → keeps_run (m ≫= k).
Proof.
  intros Hm Hk s Hs. specialize (Hm s Hs). unfold mbind, M_bind.
  destruct (m s) as [[a|e] s1]; simpl in *; [|exact Hm].
  rewrite Hk; [exact Hm|]. now rewrite Hm.
Qed.

Lemma keeps_run_ret {A} (a : A) : keeps_run (mret a : M (Env W) A).
Proof. intros s _. reflexivity. Qed.

Lemma keeps_run_lift {A} (r : result A) : keeps_run (lift r : M (Env W) A).
Proof. intros s _. reflexivity. Qed.

Lemma keeps_run_raise {A} e : keeps_run (raise e : M (Env W) A).
Proof. intros s _. reflexivity. Qed.

Lemma keeps_run_ext {A} (f : W → result A * W) : keeps_run (ext f).
Proof. intros s _. unfold ext. now destruct (f (world s)). Qed.

Lemma keeps_run_print line : keeps_run (print (W:=W) line).
Proof. intros s _. reflexivity. Qed.

Lemma keeps_run_dict_get d key : keeps_run (dict_get (W:=W) d key).
Proof. intros s _. unfold dict_get. now destruct (d !! key). Qed.

Lemma keeps_run_get_or_start_run : keeps_run (get_or_start_run (W:=W)).
Proof.
  intros s Hs. unfold get_or_start_run, mbind, M_bind, get.
  destruct (active_run_stack (tracker s)); [congruence|reflexivity].
Qed.

Lemma keeps_run_active_run_id : keeps_run (active_run_id (W:=W)).
Proof.
  intros s Hs. unfold active_run_id, mbind, M_bind, get.
  destruct (active_run_stack (tracker s)); reflexivity.
Qed.

Lemma keeps_run_log_metric key v : keeps_run (log_metric key v).
Proof.
  apply keeps_run_bind; [apply keeps_run_get_or_start_run|].
  intros id. apply keeps_run_ext.
Qed.

Lemma keeps_run_log_model path m : keeps_run (log_model path m).
Proof.
  apply keeps_run_bind; [apply keeps_run_get_or_start_run|].
  intros id. apply keeps_run_ext.
Qed.

#[local] Hint Resolve keeps_run_ret keeps_run_lift keeps_run_raise keeps_run_ext
  keeps_run_print keeps_run_dict_get keeps_run_active_run_id
  keeps_run_log_metric keeps_run_log_model : keeps_run.


Lemma keeps_run_train_body df f seas : keeps_run (train_body df f seas).
Proof.
  unfold train_body.
  apply keeps_run_bind; [auto with keeps_run|]. intros [[tr te] k].
  repeat (apply keeps_run_bind; [auto with keeps_run|]; intros ?).
  auto with keeps_run.
Qed.

Lemma train_body_split df f seas s p tr te k s' :
  train_body df f seas s = (Ok (p, tr, te, k), s') →
  split df f = Ok (tr, te, k).
Proof.
  unfold train_body. intros Hrun.
  apply bind_ok_inv in Hrun as ([[tr0 te0] k0] & s1 & Hsplit & Hrun).
  unfold lift in Hsplit. injection Hsplit as Hsplit _.
  repeat (apply bind_ok_inv in Hrun as (? & ? & _ & Hrun)).
  unfold mret, M_ret in Hrun. now simplify_eq.
Qed.

Lemma train_predict_split df f seas s p tr te k s' :
  train_predict df f seas s = (Ok (p, tr, te, k), s') →
  split df f = Ok (tr, te, k).
Proof.
  unfold train_predict, with_.
  destruct (start_run s) as [[id|e] s1]; [|discriminate].
  destruct (train_body df f seas s1) as [[[[[p0 tr0] te0] k0]|e] s2] eqn:Hb.
  - destruct (run_exit false s2) as [[[]|e] s3]; [|discriminate].
    intros [= <- <- <- <- <-]. eapply train_body_split, Hb.
  - destruct (run_exit true s2) as [[[]|e'] s3]; discriminate.
Qed.

(** C9: on every exit path of [train_predict], by return or by exception,
    the stack of active runs is what it was before the call; when the call
    started a run, that run is recorded as terminated, FINISHED on return and
    FAILED on an exception. *)
Theorem train_predict_closes_run df f seas (s : Env W) :
  let '(r, s') := train_predict df f seas s in
  active_run_stack (tracker s') = active_run_stack (tracker s) ∧
  (active_run_stack (tracker s) = [] →
   terminated (tracker s')
   = (next_run_id (tracker s), if is_ok r then FINISHED else FAILED)
       :: terminated (tracker s)).
Proof.
  unfold train_predict, with_, start_run.
  unfold mbind at 1, M_bind at 1, get at 1.
  destruct (active_run_stack (tracker s)) as [|id0 rest] eqn:Hstack.
  - unfold mbind, M_bind, set_tracker, mret, M_ret.
    set (s1 := {| tracker := _; stdout := stdout s; world := world s |}).
    pose proof (keeps_run_train_body df f seas s1) as Hkeep.
    specialize (Hkeep ltac:(discriminate)).
    destruct (train_body df f seas s1) as [[v|e] s2]; simpl in Hkeep;
      unfold run_exit, end_run, mbind, M_bind, get, set_tracker;
      rewrite Hkeep; simpl; auto.
  - unfold raise. simpl. rewrite Hstack. split; [reflexivity|discriminate].
Qed.

End TrainProperties.


Section SplitProperties.
Context {W Model : Type} {L : Libraries W Model}.

(** C1: for every series and every split fraction [f] in (0,1), when
    [train_predict] returns, the two slices have
    [len(df_train) + len(df_test) = len(df)] and
    [len(df_train) = floor(f * len(df))], the product being the binary64
    product the code computes; the returned split index is that length; for
    400 rows and the fraction 0.8 the slices have 320 and 80 rows. *)
Theorem train_predict_split_sizes df f seas (s : Env W) p tr te k s' :
  in_unit_interval f = true →
  train_predict df f seas s = (Ok (p, tr, te, k), s') →
  (shape0 tr + shape0 te = shape0 df)%nat ∧
  float_floor (float_mul f (float_of_Z (Z.of_nat (shape0 df))))
    = Some (Z.of_nat (shape0 tr)) ∧
  k = Z.of_nat (shape0 tr) ∧
  (shape0 df = 400%nat → f = float_0_8 →
   shape0 tr = 320%nat ∧ shape0 te = 80%nat).
Proof.
  intros Hf Hrun. apply train_predict_split in Hrun.
  apply split_inv in Hrun as (Hconv & Hk & _ & _ & Htr & Hte).
  destruct (train_index_bounds f (Z.of_nat (shape0 df)) _ Hf ltac:(lia) Hconv)
    as (k' & _ & Hk' & Hfloor & Hbounds).
  rewrite Hk in Hk'. injection Hk' as <-.
  rewrite slice_bound_nonneg in Htr, Hte by lia.
  assert (Hmin : Nat.min (Z.to_nat k) (shape0 df) = Z.to_nat k) by lia.
  rewrite Hmin in Htr, Hte.
  assert (Hlen_tr : shape0 tr = Z.to_nat k).
  { unfold shape0 at 1. rewrite Htr, length_take. unfold shape0 in *. lia. }
  assert (Hlen_te : shape0 te = (shape0 df - Z.to_nat k)%nat).
  { unfold shape0 at 1. rewrite Hte, length_drop. reflexivity. }
  split; [lia|]. split; [rewrite Hfloor; f_equal; lia|]. split; [lia|].
  intros H400 ->. rewrite H400 in Hk, Hlen_te.
  assert (Hk320 : k = 320%Z).
  { vm_compute in Hk. congruence. }
  subst k. split; [exact Hlen_tr|exact Hlen_te].
Qed.

(** C7: when [train_predict] returns, [df_train] followed by [df_test] is
    the input series and both keep its columns; for a non-negative split
    index, [df_train] is the first [train_index] rows in their order and
    [df_test] the remaining rows in their order; the slices and the index
    are the same in every run on the same series and fraction. *)
Theorem train_predict_prefix_suffix df f seas (s : Env W) p tr te k s' :
  train_predict df f seas s = (Ok (p, tr, te, k), s') →
  (rows tr ++ rows te)%list = rows df ∧
  columns tr = columns df ∧ columns te = columns df ∧
  ((0 ≤ k)%Z →
   rows tr = take (Z.to_nat k) (rows df) ∧
   rows te = drop (Z.to_nat k) (rows df)) ∧
  (∀ (s2 : Env W) p2 tr2 te2 k2 s2',
     train_predict df f seas s2 = (Ok (p2, tr2, te2, k2), s2') →
     tr2 = tr ∧ te2 = te ∧ k2 = k).
Proof.
  intros Hrun. apply train_predict_split in Hrun.
  pose proof (split_inv _ _ _ _ _ Hrun) as (_ & _ & Hctr & Hcte & Htr & Hte).
  split; [rewrite Htr, Hte; apply take_drop|].
  split; [exact Hctr|]. split; [exact Hcte|]. split.
  - intros Hk. rewrite slice_bound_nonneg in Htr, Hte by exact Hk.
    unfold shape0 in Htr, Hte. now rewrite take_min in Htr; rewrite drop_min in Hte.
  - intros s2 p2 tr2 te2 k2 s2' Hrun2. apply train_predict_split in Hrun2.
    rewrite Hrun in Hrun2. now injection Hrun2 as <- <- <-.
Qed.

End SplitProperties.

(** ** [train_predict]: the run, the output, the split at its limits *)

Section TrainEdgeCases.
Context {W Model : Type} {L : Libraries W Model}.

Lemma silent_bind {A B} (m : M (Env W) A) (k : A → M (Env W) B) :
  silent m → (∀ a, silent (k a)) → silent (m ≫= k).
Proof.
  intros Hm Hk s Hs. destruct (Hm s Hs) as [Ht Ho]. unfold mbind, M_bind.
  destruct (m s) as [[a|e] s1]; simpl in *; [|auto].
  destruct (Hk a s1) as [Ht' Ho']; [now rewrite Ht|]. split; congruence.
Qed.

Lemma silent_ret {A} (a : A) : silent (mret a : M (Env W) A).
Proof. intros s _. split; reflexivity. Qed.

Lemma silent_lift {A} (r : result A) : silent (lift r : M (Env W) A).
Proof. intros s _. split; reflexivity. Qed.

Lemma silent_ext {A} (f : W → result A * W) : silent (ext f).
Proof. intros s _. unfold ext. destruct (f (world s)). split; reflexivity. Qed.

Lemma silent_dict_get d key : silent (dict_get (W:=W) d key).
Proof. intros s _. unfold dict_get. destruct (d !! key); split; reflexivity. Qed.

Lemma silent_get_or_start_run : silent (get_or_start_run (W:=W)).
Proof.
  intros s Hs. unfold get_or_start_run, mbind, M_bind, get.
  destruct (active_run_stack (tracker s)); [congruence|split; reflexivity].
Qed.

Lemma silent_active_run_id : silent (active_run_id (W:=W)).
Proof.
  intros s Hs. unfold active_run_id, mbind, M_bind, get.
  destruct (active_run_stack (tracker s)); split; reflexivity.
Qed.

Lemma silent_log_metric key v : silent (log_metric key v).
Proof.
  apply silent_bind; [apply silent_get_or_start_run|].
  intros id. apply silent_ext.
Qed.

Lemma silent_log_model path m : silent (log_model path m).
Proof.
  apply silent_bind; [apply silent_get_or_start_run|].
  intros id. apply silent_ext.
Qed.

(** A silent step in front of a computation that returns. *)
Lemma silent_bind_inv {A B} (m : M (Env W) A) (k : A → M (Env W) B) s b s' :
  silent m → active_run_stack (tracker s) ≠ [] →
  (m ≫= k) s = (Ok b, s') →
  ∃ a s1, k a s1 = (Ok b, s') ∧
          tracker s1 = tracker s ∧ stdout s1 = stdout s.
Proof.
  intros Hm Hs Hrun. destruct (Hm s Hs) as [Ht Ho].
  apply bind_ok_inv in Hrun as (a & s1 & Hstep & Hrun).
  rewrite Hstep in Ht, Ho. eauto.
Qed.

(** The body of the [with] block, when it returns: it has printed one line,
    naming the active run, and has left the tracker alone. *)
Lemma train_body_output df f seas (s : Env W) v s' id rest :
  active_run_stack (tracker s) = id :: rest →
  train_body df f seas s = (Ok v, s') →
  tracker s' = tracker s ∧ stdout s' = (stdout s ++ [uri_line id])%list.
Proof.
  intros Hstack Hrun. unfold train_body in Hrun.
  assert (Hact : ∀ s1 : Env W, tracker s1 = tracker s →
                 active_run_stack (tracker s1) ≠ []).
  { intros s1 ->. rewrite Hstack. discriminate. }
  apply silent_bind_inv in Hrun as ([[tr te] k] & s1 & Hrun & Ht1 & Ho1);
    [|apply silent_lift|now apply Hact].
  apply silent_bind_inv in Hrun as (yearly & s2 & Hrun & Ht2 & Ho2);
    [|apply silent_dict_get|apply Hact; congruence].
  apply silent_bind_inv in Hrun as (weekly & s3 & Hrun & Ht3 & Ho3);
    [|apply silent_dict_get|apply Hact; congruence].
  apply silent_bind_inv in Hrun as (daily & s4 & Hrun & Ht4 & Ho4);
    [|apply silent_dict_get|apply Hact; congruence].
  apply silent_bind_inv in Hrun as (model & s5 & Hrun & Ht5 & Ho5);
    [|apply silent_ext|apply Hact; congruence].
  apply silent_bind_inv in Hrun as (df_cv & s6 & Hrun & Ht6 & Ho6);
    [|apply silent_ext|apply Hact; congruence].
  apply silent_bind_inv in Hrun as (df_p & s7 & Hrun & Ht7 & Ho7);
    [|apply silent_ext|apply Hact; congruence].
  apply silent_bind_inv in Hrun as (rmse & s8 & Hrun & Ht8 & Ho8);
    [|apply silent_lift|apply Hact; congruence].
  apply silent_bind_inv in Hrun as (u1 & s9 & Hrun & Ht9 & Ho9);
    [|apply silent_log_metric|apply Hact; congruence].
  apply silent_bind_inv in Hrun as (u2 & s10 & Hrun & Ht10 & Ho10);
    [|apply silent_log_model|apply Hact; congruence].
  assert (Ht : tracker s10 = tracker s) by congruence.
  assert (Ho : stdout s10 = stdout s) by congruence.
  clear - Hrun Ht Ho Hstack.
  unfold mbind at 1, M_bind at 1, active_run_id in Hrun.
  unfold mbind at 1, M_bind at 1, get at 1 in Hrun.
  rewrite Ht, Hstack in Hrun. unfold mret at 1, M_ret at 1 in Hrun.
  unfold mbind at 1, M_bind at 1, print at 1 in Hrun.
  apply bind_ok_inv in Hrun as (predicted & s11 & Hstep & Hrun).
  unfold mret, M_ret in Hrun. injection Hrun as _ <-.
  unfold ext in Hstep. simpl in Hstep.
  destruct (predict model te (world s10)) as [r w]. injection Hstep as _ <-.
  simpl. rewrite Ht, Ho. split; reflexivity.
Qed.

(** X11: called while a run is active, [train_predict] raises at line 76
    and does nothing else: no split, no library call, no output, the tracker
    as it was. *)
Theorem train_predict_inside_run df f seas (s : Env W) :
  active_run_stack (tracker s) ≠ [] →
  train_predict df f seas s
  = (Raise (MlflowException "a run is already active"), s).
Proof.
  intros Hs. unfold train_predict, with_, start_run.
  unfold mbind, M_bind, get.
  destruct (active_run_stack (tracker s)); [congruence|reflexivity].
Qed.

(** X12: when the dictionary lacks one of the keys [yearly], [weekly],
    [daily], [train_predict] raises [KeyError] for the first one missing, in
    that order; no library has been called and nothing printed, and the run
    the call started is closed as FAILED. *)
Theorem train_predict_missing_key df f seas key j (s : Env W) :
  active_run_stack (tracker s) = [] →
  is_ok (split df f) = true →
  list_find (λ k, seas !! k = None) ["yearly"; "weekly"; "daily"]
    = Some (j, key) →
  ∃ s',
    train_predict df f seas s = (Raise (KeyError key), s') ∧
    world s' = world s ∧ stdout s' = stdout s ∧
    active_run_stack (tracker s') = [] ∧
    terminated (tracker s')
    = (next_run_id (tracker s), FAILED) :: terminated (tracker s).
Proof.
  intros Hs Hsplit Hfind.
  unfold train_predict, with_, start_run.
  unfold mbind at 1, M_bind at 1, get at 1. rewrite Hs.
  unfold mbind at 1, M_bind at 1, set_tracker at 1, mret at 1, M_ret at 1.
  unfold train_body.
  destruct (split df f) as [[[tr te] k]|] eqn:Hsp; [|discriminate].
  unfold mbind at 1, M_bind at 1, lift at 1.
  unfold run_exit, end_run, dict_get.
  simpl in Hfind. unfold mbind, M_bind, get, set_tracker, raise, mret, M_ret.
  destruct (seas !! "yearly") as [yearly|] eqn:Hy.
  2:{ rewrite decide_True in Hfind by reflexivity. simpl in Hfind.
      injection Hfind as <- <-. simpl. eexists. split; [reflexivity|].
      simpl. auto. }
  rewrite decide_False in Hfind by discriminate.
  destruct (seas !! "weekly") as [weekly|] eqn:Hw.
  2:{ rewrite decide_True in Hfind by reflexivity. simpl in Hfind.
      injection Hfind as <- <-. simpl. eexists. split; [reflexivity|].
      simpl. auto. }
  rewrite decide_False in Hfind by discriminate.
  destruct (seas !! "daily") as [daily|] eqn:Hdl.
  2:{ rewrite decide_True in Hfind by reflexivity. simpl in Hfind.
      injection Hfind as <- <-. simpl. eexists. split; [reflexivity|].
      simpl. auto. }
  rewrite decide_False in Hfind by discriminate. discriminate.
Qed.

(** X13: a call that returns was made with no run active, has printed
    exactly one line, the URI of the run it started, and has left that run,
    and no other, recorded as FINISHED with no run active. *)
Theorem train_predict_output df f seas (s : Env W) p tr te k s' :
  train_predict df f seas s = (Ok (p, tr, te, k), s') →
  active_run_stack (tracker s) = [] ∧
  stdout s' = (stdout s ++ [uri_line (next_run_id (tracker s))])%list ∧
  active_run_stack (tracker s') = [] ∧
  next_run_id (tracker s') = S (next_run_id (tracker s)) ∧
  terminated (tracker s')
  = (next_run_id (tracker s), FINISHED) :: terminated (tracker s).
Proof.
  unfold train_predict, with_, start_run.
  unfold mbind at 1, M_bind at 1, get at 1.
  destruct (active_run_stack (tracker s)) as [|id0 rest] eqn:Hstack;
    [|discriminate].
  unfold mbind at 1, M_bind at 1, set_tracker at 1, mret at 1, M_ret at 1.
  set (s1 := {| tracker := _; stdout := stdout s; world := world s |}).
  destruct (train_body df f seas s1) as [[v|e] s2] eqn:Hbody.
  - destruct (train_body_output df f seas s1 v s2 (next_run_id (tracker s)) []
                eq_refl Hbody) as [Ht Ho].
    unfold run_exit, end_run, mbind, M_bind, get, set_tracker.
    rewrite Ht. simpl. intros [= _ <-]. simpl. rewrite Ho. auto.
  - destruct (run_exit true s2) as [[[]|e'] s3]; discriminate.
Qed.

End TrainEdgeCases.

Local Open Scope Z_scope.

(** The number of rows, as a float, is zero or a positive finite number. *)
Lemma int_to_float_nonneg n x :
  0 ≤ n → int_to_float n = Ok x →
  x = S754_zero false ∨ ∃ m e, x = S754_finite false m e.
Proof.
  intros Hn. unfold int_to_float.
  destruct (Z.eq_dec n 0) as [->|Hn0].
  - vm_compute. intros [= <-]. now left.
  - destruct (Z_lt_ge_dec n (2 ^ 53)) as [Hsmall|Hlarge].
    + destruct (float_of_Z_exact n) as (m & d & -> & _); [lia|].
      intros [= <-]. right. eauto.
    + pose proof (float_of_Z_large n ltac:(lia)) as Hl.
      destruct (float_of_Z n) as [s|s| |s m e]; try contradiction;
        try discriminate.
      destruct Hl as (-> & _). intros [= <-]. right. eauto.
Qed.

(** X9: for a fraction in (0,1) the split never raises (the number of
    rows being within the float range): it returns an index [k] between 0
    and [len(df)], [df_train] has [k] rows and [df_test] the other
    [len(df) - k]. *)
Theorem split_succeeds df f :
  in_unit_interval f = true →
  is_ok (int_to_float (Z.of_nat (shape0 df))) = true →
  ∃ tr te k,
    split df f = Ok (tr, te, k) ∧ 0 ≤ k ≤ Z.of_nat (shape0 df) ∧
    shape0 tr = Z.to_nat k ∧ shape0 te = (shape0 df - Z.to_nat k)%nat.
Proof.
  intros Hf Hconv.
  destruct (int_to_float (Z.of_nat (shape0 df))) as [x|] eqn:Hx;
    [|discriminate].
  destruct (train_index_bounds f _ _ Hf (Nat2Z.is_nonneg _) Hx)
    as (k & -> & Hk & _ & Hbounds).
  assert (Hsplit : split df f
    = Ok (iloc (Some 0) (Some k) (copy df), iloc (Some k) None (copy df), k)).
  { unfold split. rewrite Hx. cbn [result_bind]. rewrite Hk. reflexivity. }
  eexists _, _, k. split; [exact Hsplit|]. split; [exact Hbounds|].
  split.
  - unfold shape0 at 1. rewrite iloc_head, slice_bound_nonneg by lia.
    rewrite length_take. unfold shape0 in *. lia.
  - unfold shape0 at 1. rewrite iloc_tail, slice_bound_nonneg by lia.
    rewrite length_drop. unfold shape0 in *. lia.
Qed.

(** X10: the split at the ends of the range of fractions.  For a fraction
    of zero (of either sign) the split index is 0, [df_train] has no rows and
    [df_test] is the whole series; for NaN, [int] raises [ValueError]. *)
Theorem split_degenerate_fraction df x :
  int_to_float (Z.of_nat (shape0 df)) = Ok x →
  (∀ sgn, split df (S754_zero sgn)
          = Ok (Frame (columns df) [], Frame (columns df) (rows df), 0)) ∧
  split df S754_nan
  = Raise (ValueError "cannot convert float NaN to integer").
Proof.
  intros Hx. unfold split. rewrite Hx. cbn [result_bind].
  assert (Hzero : ∀ sgn, float_to_int (float_mul (S754_zero sgn) x) = Ok 0).
  { intros sgn.
    destruct (int_to_float_nonneg _ _ (Nat2Z.is_nonneg (shape0 df)) Hx) as [->|(m & e & ->)];
      reflexivity. }
  assert (Hnan : float_to_int (float_mul S754_nan x)
                 = Raise (ValueError "cannot convert float NaN to integer")).
  { destruct (int_to_float_nonneg _ _ (Nat2Z.is_nonneg (shape0 df)) Hx) as [->|(m & e & ->)];
      reflexivity. }
  split; [intros sgn; rewrite Hzero|now rewrite Hnan]. cbn [result_bind].
  change (iloc (Some 0) (Some 0) (copy df))
    with (Frame (columns df) (rows (iloc (Some 0) (Some 0) (copy df)))).
  change (iloc (Some 0) None (copy df))
    with (Frame (columns df) (rows (iloc (Some 0) None (copy df)))).
  rewrite iloc_head, iloc_tail.
  replace (slice_bound (shape0 df) 0) with 0%nat
    by (unfold slice_bound; simpl; lia).
  reflexivity.
Qed.

Local Close Scope Z_scope.

Global Instance key_le_transitive : Transitive key_le.
Proof.
  intros [x|] [y|] [z|]; simpl; try tauto. lia.
Qed.

Section Chronological.
Context {P : Pandas} {W Model : Type} {L : Libraries W Model}.

(** X14: the split of a table that [prep_store_data] returned is
    chronological, for every fraction: both slices have the [ds] column, and
    no row of [df_train] is later than a row of [df_test] (missing
    timestamps last). *)
Theorem split_of_prepared_is_chronological l sid so (h : gmap loc DataFrame)
    l' h' out f seas (s : Env W) p tr te k s' :
  prep_store_data l sid so h = (Ok l', h') →
  h' !! l' = Some out →
  train_predict out f seas s = (Ok (p, tr, te, k), s') →
  ∃ i,
    col_pos "ds" (columns tr) = Ok i ∧ col_pos "ds" (columns te) = Ok i ∧
    ∀ r1 r2, r1 ∈ rows tr → r2 ∈ rows te →
      key_le (time_key (cell_at i r1)) (time_key (cell_at i r2)).
Proof.
  intros (d & i & js & jo & inp & out0 & _ & _ & _ & _ & _ & _ & _ & _ & Hds
          & Hout & _ & Hsorted & _ & _ & ->)%prep_store_data_facts Hlook Hrun.
  rewrite lookup_insert_eq in Hlook. injection Hlook as ->.
  apply train_predict_split, split_inv in Hrun
    as (_ & _ & Hctr & Hcte & Htr & Hte).
  exists i.
  split; [apply col_pos_positions; congruence|].
  split; [apply col_pos_positions; congruence|].
  intros r1 r2 Hr1 Hr2.
  apply Sorted_StronglySorted in Hsorted; [|apply _].
  rewrite <- (take_drop (slice_bound (shape0 out) k) (rows out)) in Hsorted.
  rewrite <- Htr, <- Hte, map_app in Hsorted.
  eapply (StronglySorted_app_1_elem_of key_le); [exact Hsorted| |].
  - apply list_elem_of_fmap. exists r1. auto.
  - apply list_elem_of_fmap. exists r2. auto.
Qed.

End Chronological.

(** ** [plot_forecast] *)

Section PlotProperties.
Context {G : Plotting}.

Lemma draws_only_bind {A B} (m : M PlotEnv A) (k : A → M PlotEnv B) :
  draws_only m → (∀ a, draws_only (k a)) → draws_only (m ≫= k).
Proof.
  intros Hm Hk s. specialize (Hm s). unfold mbind, M_bind.
  destruct (m s) as [[a|e] s1]; simpl in *; [|exact Hm].
  destruct (Hk a s1) as [Hg Hf]. destruct Hm as [Hg1 Hf1].
  split; congruence.
Qed.

Lemma draws_only_lift {A} (r : result A) : draws_only (lift r).
Proof. intros s. split; reflexivity. Qed.

Lemma draws_only_get : draws_only get.
Proof. intros s. split; reflexivity. Qed.

Lemma draws_only_set_axes a : draws_only (set_axes a).
Proof. intros s. split; reflexivity. Qed.

Lemma draws_only_df_plot df x y legend : draws_only (df_plot df x y legend).
Proof.
  unfold df_plot. apply draws_only_bind; [apply draws_only_get|]. intros s.
  apply draws_only_bind; [apply draws_only_lift|]. intros a.
  apply draws_only_set_axes.
Qed.

Lemma draws_only_fill_between xs y1 y2 : draws_only (fill_between xs y1 y2).
Proof.
  unfold fill_between. apply draws_only_bind; [apply draws_only_get|].
  intros s. apply draws_only_bind; [apply draws_only_lift|]. intros a.
  apply draws_only_set_axes.
Qed.

Lemma draws_only_draw_forecast df_test predicted :
  draws_only (draw_forecast df_test predicted).
Proof.
  unfold draw_forecast, subplots.
  apply draws_only_bind; [apply draws_only_set_axes|]. intros _.
  apply draws_only_bind; [apply draws_only_df_plot|]. intros _.
  apply draws_only_bind; [apply draws_only_df_plot|]. intros _.
  repeat (apply draws_only_bind; [apply draws_only_lift|]; intros ?).
  apply draws_only_fill_between.
Qed.

(** C10 (amended): [plot_forecast] reads [train_index] from the module
    namespace, after the drawing calls of lines 106-133.  When the name is
    unbound, no call returns normally and no image file is written: the call
    fails with [NameError] when those drawing calls return, and with their
    error when one of them raises.  When the name is bound to an int [v], the
    call draws lines 134-148 from [df_train.iloc[v - 100:]]. *)
Theorem plot_forecast_reads_global df_train df_test predicted env :
  (globals env !! "train_index" = None →
   let '(r, env') := plot_forecast df_train df_test predicted env in
   is_ok r = false ∧ files env' = files env ∧
   r = match (draw_forecast df_test predicted env).1 with
       | Ok _ => Raise (NameError "train_index")
       | Raise e => Raise e
       end) ∧
  (∀ v, globals env !! "train_index" = Some (PyInt v) →
   plot_forecast df_train df_test predicted env
   = (draw_forecast df_test predicted ≫= λ _,
      draw_history (iloc (Some (v - 100)%Z) None df_train)) env).
Proof.
  pose proof (draws_only_draw_forecast df_test predicted env) as [Hg Hf].
  split.
  - intros Hnone.
    cbv beta iota delta [plot_forecast mbind M_bind load_global get raise].
    destruct (draw_forecast df_test predicted env) as [[[]|e] env1];
      simpl in Hg, Hf |- *; [|auto].
    rewrite Hg, Hnone. auto.
  - intros v Hv.
    cbv beta iota delta
      [plot_forecast mbind M_bind load_global get raise mret M_ret minus_100].
    destruct (draw_forecast df_test predicted env) as [[[]|e] env1];
      simpl in Hg, Hf |- *; [|reflexivity].
    rewrite Hg, Hv. reflexivity.
Qed.

End PlotProperties.

(** ** [plot_forecast]: the history window and the image file *)

Section PlotEdgeCases.
Context {G : Plotting}.

Lemma plot_forecast_bound df_train df_test predicted env v :
  globals env !! "train_index" = Some (PyInt v) →
  plot_forecast df_train df_test predicted env
  = (draw_forecast df_test predicted ≫= λ _,
     draw_history (iloc (Some (v - 100)%Z) None df_train)) env.
Proof.
  intros Hv.
  pose proof (draws_only_draw_forecast df_test predicted env) as [Hg _].
  cbv beta iota delta
    [plot_forecast mbind M_bind load_global get raise mret M_ret minus_100].
  destruct (draw_forecast df_test predicted env) as [[[]|e] env1];
    simpl in Hg |- *; [|reflexivity].
  rewrite Hg, Hv. reflexivity.
Qed.

Lemma iloc_history df :
  iloc (Some (Z.of_nat (shape0 df) - 100)%Z) None df
  = Frame (columns df) (drop (history_start (shape0 df)) (rows df)).
Proof.
  unfold iloc, history_start, shape0. simpl. f_equal.
  rewrite take_ge by (rewrite length_drop; lia). f_equal.
  unfold slice_bound.
  destruct (Nat.ltb_spec (length (rows df)) 100);
    destruct (Z.ltb_spec (Z.of_nat (length (rows df)) - 100) 0); lia.
Qed.

(** X15: the history that [plot_forecast] draws when [train_index] is the
    length of [df_train], as in the script.  With [n] training rows it is
    the last 100 rows for [n >= 100]; for [n < 100] the start [n - 100] is
    negative and counts from the end, so the rows from [2n - 100] on are
    drawn: all of them up to [n = 50], and only [100 - n] beyond. *)
Theorem plot_forecast_history_window df_train df_test predicted env :
  globals env !! "train_index" = Some (PyInt (Z.of_nat (shape0 df_train))) →
  let n := shape0 df_train in
  let history :=
    Frame (columns df_train) (drop (history_start n) (rows df_train)) in
  plot_forecast df_train df_test predicted env
  = (draw_forecast df_test predicted ≫= λ _, draw_history history) env ∧
  shape0 history = (if (n <? 100)%nat then Nat.min n (100 - n) else 100)%nat.
Proof.
  intros Hv n history. split.
  - rewrite (plot_forecast_bound _ _ _ _ _ Hv). unfold history, n.
    now rewrite iloc_history.
  - unfold history, shape0 at 1. cbn [rows]. rewrite length_drop.
    unfold history_start. fold n.
    destruct (Nat.ltb_spec n 100); unfold n, shape0 in *; lia.
Qed.

Lemma draw_history_files history env :
  let '(r, env') := draw_history history env in
  globals env' = globals env ∧
  match r with
  | Ok _ => files env' = <["store_data_forecast.png" := axes env']> (files env)
  | Raise _ => files env' = files env
  end.
Proof.
  unfold draw_history.
  pose proof (draws_only_df_plot history "ds" "y" "_nolegend_" env) as [Hg Hf].
  unfold mbind at 1, M_bind at 1.
  destruct (df_plot history "ds" "y" "_nolegend_" env) as [[[]|e] env1];
    simpl in Hg, Hf |- *; [|auto].
  unfold mbind, M_bind, draw, get, set_axes, savefig. simpl.
  rewrite Hg, Hf. auto.
Qed.

(** X16: [plot_forecast] never rebinds a module-level name, and writes
    to disk only as its last step: when it returns, the one file changed is
    [store_data_forecast.png], holding the figure; when it raises, whatever
    the step, no file has been written. *)
Theorem plot_forecast_writes_on_success df_train df_test predicted env :
  let '(r, env') := plot_forecast df_train df_test predicted env in
  globals env' = globals env ∧
  match r with
  | Ok _ => files env' = <["store_data_forecast.png" := axes env']> (files env)
  | Raise _ => files env' = files env
  end.
Proof.
  pose proof (draws_only_draw_forecast df_test predicted env) as [Hg Hf].
  unfold plot_forecast. unfold mbind at 1, M_bind at 1.
  destruct (draw_forecast df_test predicted env) as [[[]|e] env1];
    simpl in Hg, Hf |- *; [|auto].
  unfold mbind at 1, M_bind at 1, load_global.
  unfold mbind at 1, M_bind at 1, get at 1.
  destruct (globals env1 !! "train_index") as [v|]; [|simpl; auto].
  unfold mret at 1, M_ret at 1.
  unfold mbind at 1, M_bind at 1, minus_100.
  destruct v as [z| | |]; try (simpl; auto; fail).
  unfold mret at 1, M_ret at 1.
  pose proof (draw_history_files (iloc (Some (z - 100)%Z) None df_train) env1)
    as Hh.
  destruct (draw_history _ env1) as [r env2].
  destruct Hh as [Hg2 Hf2]. split; [congruence|].
  destruct r; congruence.
Qed.

End PlotEdgeCases.

(** ** [plot_store_data] *)

Section StorePlotProperties.
Context {G : Plotting} {GL : Legends}.

Lemma draws_only_draw a : draws_only (draw a).
Proof.
  unfold draw. apply draws_only_bind; [apply draws_only_get|].
  intros s. apply draws_only_set_axes.
Qed.

Lemma draws_only_legend labels : draws_only (ax_legend labels).
Proof.
  unfold ax_legend. apply draws_only_bind; [apply draws_only_get|]. intros s.
  apply draws_only_bind; [apply draws_only_lift|]. intros a.
  apply draws_only_set_axes.
Qed.

(** The drawing steps of [plot_store_data], lines 56-62. *)
Lemma on_figure_draws {A} (m : M PlotEnv A) (s : Pyplot) :
  draws_only m →
  rc_params (on_figure m s).2 = rc_params s ∧
  globals (figure (on_figure m s).2) = globals (figure s) ∧
  files (figure (on_figure m s).2) = files (figure s).
Proof.
  intros Hm. destruct (Hm (figure s)) as [Hg Hf]. unfold on_figure.
  destruct (m (figure s)) as [r fig]. simpl in *. auto.
Qed.

Ltac figure_step Hd :=
  unfold mbind at 1, M_bind at 1;
  match goal with
  | |- context [on_figure ?m ?s] =>
      let H := fresh "Hstep" in
      pose proof (on_figure_draws m s Hd) as H;
      destruct (on_figure m s) as [[[]|?] ?]; simpl in H;
      [|intuition congruence]
  end.

(** X17: [plot_store_data] sets the font size on every path, also when
    it raises; it rebinds no module-level name; when it returns the one file
    changed is [store_data.png], holding the figure, and when a drawing call
    raises no file has been written. *)
Theorem plot_store_data_effects df (env : Pyplot) :
  let '(r, env') := plot_store_data df env in
  rc_params env' = <["font.size" := 22%Z]> (rc_params env) ∧
  globals (figure env') = globals (figure env) ∧
  match r with
  | Ok _ =>
      files (figure env')
      = <["store_data.png" := axes (figure env')]> (files (figure env))
  | Raise _ => files (figure env') = files (figure env)
  end.
Proof.
  unfold plot_store_data.
  unfold mbind at 1, M_bind at 1, rc_update at 1.
  set (env0 := {| rc_params := _; figure := figure env |}).
  assert (H0 : rc_params env0 = <["font.size" := 22%Z]> (rc_params env)
               ∧ figure env0 = figure env) by (split; reflexivity).
  destruct H0 as [Hrc Hfig]. clearbody env0.
  figure_step (draws_only_set_axes []).
  figure_step (draws_only_df_plot df "ds" "y" "y").
  figure_step (draws_only_draw (AxisLabel "x" "Date")).
  figure_step (draws_only_draw (AxisLabel "y" "Sales")).
  figure_step (draws_only_legend ["Truth"]).
  figure_step (draws_only_draw TickLabels).
  unfold on_figure, savefig. simpl. intuition congruence.
Qed.

End StorePlotProperties.

(** ** The script *)

Local Open Scope Z_scope.

(** For a fraction in (0,1) the split index is the length of [df_train]. *)
Lemma split_index_length df f tr te k :
  in_unit_interval f = true → split df f = Ok (tr, te, k) →
  k = Z.of_nat (shape0 tr).
Proof.
  intros Hf (Hconv & Hk & _ & _ & Htr & _)%split_inv.
  destruct (train_index_bounds f (Z.of_nat (shape0 df)) _ Hf
              (Nat2Z.is_nonneg _) Hconv) as (k' & _ & Hk' & _ & Hbounds).
  rewrite Hk in Hk'. injection Hk' as <-.
  rewrite slice_bound_nonneg in Htr by lia.
  unfold shape0 at 1. rewrite Htr, length_take. unfold shape0 in *. lia.
Qed.

Lemma float_0_8_in_unit_interval : in_unit_interval float_0_8 = true.
Proof. vm_compute. reflexivity. Qed.

Local Close Scope Z_scope.

Section MainProperties.
Context {P : Pandas} {G : Plotting}.
Context {W Model : Type} {L : Libraries W Model}.
Context {F : Type} {K : Platform F}.

(** When the script reaches line 177, [train_index] is bound in the module
    namespace to the length of [df_train]. *)
Lemma main_fit_binds_train_index (s : Script F W) p tr te s1 :
  main_fit s = (Ok (p, tr, te), s1) →
  globals (pyplot s1) !! "train_index"
  = Some (PyInt (Z.of_nat (shape0 tr))).
Proof.
  unfold main_fit. intros Hrun.
  apply bind_ok_inv in Hrun as (l & sa & _ & Hrun).
  apply bind_ok_inv in Hrun as (l' & sb & _ & Hrun).
  apply bind_ok_inv in Hrun as (series & sc & _ & Hrun).
  apply bind_ok_inv in Hrun as ([[[p0 tr0] te0] k] & sd & Htrain & Hrun).
  apply bind_ok_inv in Hrun as ([] & se & Hstore & Hrun).
  unfold mret, M_ret in Hrun. injection Hrun as <- <- <- <-.
  unfold on_session in Htrain.
  destruct (train_predict series float_0_8 _ (session sc))
    as [r e1] eqn:Htp.
  injection Htrain as -> _.
  apply train_predict_split in Htp.
  apply (split_index_length _ _ _ _ _ float_0_8_in_unit_interval) in Htp.
  subst k.
  unfold on_pyplot, store_global in Hstore. injection Hstore as <-.
  simpl. apply lookup_insert_eq.
Qed.

(** X18: in the script, [plot_forecast] finds [train_index].  When the
    script reaches line 177, the name is bound at module level to the length
    of [df_train] (the fraction 0.8 lies in (0,1)), so the read of line 134
    succeeds and the script draws the forecast and then the tail of the
    training series that starts at [history_start]. *)
Theorem main_plots_training_tail (s : Script F W) p tr te s1 :
  main_fit s = (Ok (p, tr, te), s1) →
  globals (pyplot s1) !! "train_index" = Some (PyInt (Z.of_nat (shape0 tr))) ∧
  main s
  = on_pyplot
      (draw_forecast te p ≫= λ _,
       draw_history
         (Frame (columns tr) (drop (history_start (shape0 tr)) (rows tr))))
      s1.
Proof.
  intros Hfit. pose proof (main_fit_binds_train_index _ _ _ _ _ Hfit) as Hv.
  split; [exact Hv|].
  unfold main. unfold mbind at 1, M_bind at 1. rewrite Hfit.
  unfold on_pyplot. rewrite (plot_forecast_bound _ _ _ _ _ Hv).
  now rewrite iloc_history.
Qed.

End MainProperties.

(** ** The claims on the sample inputs *)

(** C2 (amended) on the sample table. *)
Lemma prep_store_data_effects_witness :
  ∃ l' h',
    prep_store_data (P := iso_pandas) 1%positive 4 1 (store_of rossmann_sample)
    = (Ok l', h') ∧
    ∃ d i inp out,
      store_of rossmann_sample !! 1%positive = Some d ∧
      col_pos "Date" (columns d) = Ok i ∧
      h' !! 1%positive = Some inp ∧
      columns inp = map (rename_label column_mapper) (columns d) ∧
      Forall2 (converted (P := iso_pandas) i) (rows d) (rows inp) ∧
      store_of rossmann_sample !! l' = None ∧
      h' !! l' = Some out ∧
      (∀ l0, l0 ≠ 1%positive → l0 ≠ l' →
             h' !! l0 = store_of rossmann_sample !! l0) ∧
      (∀ (h2 : gmap loc DataFrame) l2,
         h2 !! l2 = Some d →
         ∃ l2' h2', prep_store_data (P := iso_pandas) l2 4 1 h2 = (Ok l2', h2') ∧
                    h2' !! l2 = Some inp ∧ h2' !! l2' = Some out).
Proof.
  destruct (prep_store_data (P := iso_pandas) 1%positive 4 1
              (store_of rossmann_sample)) as [[l'|e] h'] eqn:Hrun;
    [|vm_compute in Hrun; discriminate].
  exists l', h'. split; [reflexivity|].
  exact (prep_store_data_effects _ _ _ _ _ _ Hrun).
Defined.

(** C2, as stated, fails on the sample table: after the call the table
    passed in has other column names, no [Date] column, and timestamps where
    it had strings. *)
Lemma prep_store_data_mutates_input :
  ∃ l' h' after,
    prep_store_data (P := iso_pandas) 1%positive 4 1 (store_of rossmann_sample)
    = (Ok l', h') ∧
    store_of rossmann_sample !! 1%positive = Some rossmann_sample ∧
    h' !! 1%positive = Some after ∧
    columns rossmann_sample = ["Store"; "DayOfWeek"; "Date"; "Sales"; "Open"] ∧
    columns after = ["Store"; "DayOfWeek"; "ds"; "y"; "Open"] ∧
    result_bind (get_column rossmann_sample "Date") (λ s, Ok (values s))
    = Ok [VStr "2015-07-31"; VStr "2015-07-31"; VStr "2015-07-30";
          VStr "2015-07-29"] ∧
    get_column after "Date" = Raise (KeyError "Date") ∧
    result_bind (get_column after "ds") (λ s, Ok (values s))
    = Ok [VTime 1438300800000000000; VTime 1438300800000000000;
          VTime 1438214400000000000; VTime 1438128000000000000].
Proof.
  eexists _, _, _. split; [vm_compute; reflexivity|].
  repeat split; vm_compute; reflexivity.
Qed.

(** C3 (amended) on the sample table. *)
Lemma prep_store_data_columns_witness :
  ∃ l' h',
    prep_store_data (P := iso_pandas) 1%positive 4 1 (store_of rossmann_sample)
    = (Ok l', h') ∧
    ∃ d out,
      store_of rossmann_sample !! 1%positive = Some d ∧ h' !! l' = Some out ∧
      columns out = map (rename_label column_mapper) (columns d) ∧
      "ds" ∈ columns out.
Proof.
  destruct (prep_store_data (P := iso_pandas) 1%positive 4 1
              (store_of rossmann_sample)) as [[l'|e] h'] eqn:Hrun;
    [|vm_compute in Hrun; discriminate].
  exists l', h'. split; [reflexivity|].
  exact (prep_store_data_columns _ _ _ _ _ _ Hrun).
Defined.

(** C3, as stated, fails on the sample table: the returned table keeps
    [Store], [DayOfWeek] and [Open] beside [ds] and [y]. *)
Lemma prep_store_data_keeps_other_columns :
  ∃ l' h' out,
    prep_store_data (P := iso_pandas) 1%positive 4 1 (store_of rossmann_sample)
    = (Ok l', h') ∧
    h' !! l' = Some out ∧
    is_ok (col_pos "Date" (columns rossmann_sample)) = true ∧
    is_ok (col_pos "Sales" (columns rossmann_sample)) = true ∧
    is_ok (col_pos "Store" (columns rossmann_sample)) = true ∧
    is_ok (col_pos "Open" (columns rossmann_sample)) = true ∧
    columns out = ["Store"; "DayOfWeek"; "ds"; "y"; "Open"] ∧
    columns out ≠ ["ds"; "y"].
Proof.
  eexists _, _, _. split; [vm_compute; reflexivity|].
  split; [vm_compute; reflexivity|].
  repeat split; try reflexivity. discriminate.
Qed.

(** C4 on the sample table. *)
Lemma prep_store_data_selects_witness :
  ∃ l' h',
    prep_store_data (P := iso_pandas) 1%positive 4 1 (store_of rossmann_sample)
    = (Ok l', h') ∧
    ∃ d out i js jo,
      store_of rossmann_sample !! 1%positive = Some d ∧ h' !! l' = Some out ∧
      col_pos "Date" (columns d) = Ok i ∧
      col_pos "Store" (columns d) = Ok js ∧
      col_pos "Store" (columns out) = Ok js ∧
      col_pos "Open" (columns d) = Ok jo ∧
      col_pos "Open" (columns out) = Ok jo ∧
      (∀ r, r ∈ rows out →
         cell_eq_int 4 (cell_at js r) = true ∧
         cell_eq_int 1 (cell_at jo r) = true) ∧
      (∀ r, r ∈ rows d →
         cell_eq_int 4 (cell_at js r) = true →
         cell_eq_int 1 (cell_at jo r) = true →
         ∃ r' v, r' ∈ rows out ∧
                 to_datetime_scalar (Pandas := iso_pandas) (cell_at i r) = Ok v ∧
                 cells r' = set_nth i v (cells r)).
Proof.
  destruct (prep_store_data (P := iso_pandas) 1%positive 4 1
              (store_of rossmann_sample)) as [[l'|e] h'] eqn:Hrun;
    [|vm_compute in Hrun; discriminate].
  exists l', h'. split; [reflexivity|].
  exact (prep_store_data_selects _ _ _ _ _ _ Hrun).
Defined.

(** C5 on the sample table. *)
Lemma prep_store_data_sorted_witness :
  ∃ l' h',
    prep_store_data (P := iso_pandas) 1%positive 4 1 (store_of rossmann_sample)
    = (Ok l', h') ∧
    ∃ out i ts k,
      h' !! l' = Some out ∧
      col_pos "ds" (columns out) = Ok i ∧
      map (cell_at i) (rows out) = (map VTime ts ++ replicate k VNaT)%list ∧
      Sorted Z.le ts.
Proof.
  destruct (prep_store_data (P := iso_pandas) 1%positive 4 1
              (store_of rossmann_sample)) as [[l'|e] h'] eqn:Hrun;
    [|vm_compute in Hrun; discriminate].
  exists l', h'. split; [reflexivity|].
  exact (prep_store_data_sorted _ _ _ _ _ _ Hrun).
Defined.

(** C6 (amended) on the sample table. *)
Lemma prep_store_data_timestamps_witness :
  ∃ l' h',
    prep_store_data (P := iso_pandas) 1%positive 4 1 (store_of rossmann_sample)
    = (Ok l', h') ∧
    ∃ inp out i js jo,
      h' !! 1%positive = Some inp ∧ h' !! l' = Some out ∧
      col_pos "ds" (columns inp) = Ok i ∧
      col_pos "ds" (columns out) = Ok i ∧
      col_pos "Store" (columns inp) = Ok js ∧
      col_pos "Open" (columns inp) = Ok jo ∧
      map (cell_at i) (rows out)
        ≡ₚ map (cell_at i) (List.filter (row_matches js jo 4 1) (rows inp)) ∧
      (NoDup (map (cell_at i) (rows out)) ↔
       NoDup (map (cell_at i)
                  (List.filter (row_matches js jo 4 1) (rows inp)))).
Proof.
  destruct (prep_store_data (P := iso_pandas) 1%positive 4 1
              (store_of rossmann_sample)) as [[l'|e] h'] eqn:Hrun;
    [|vm_compute in Hrun; discriminate].
  exists l', h'. split; [reflexivity|].
  exact (prep_store_data_timestamps _ _ _ _ _ _ Hrun).
Defined.

(** C6, as stated, fails on a table that reports one store twice for the
    same day: the returned timestamps are not pairwise distinct. *)
Lemma prep_store_data_duplicate_timestamps :
  ∃ l' h' out ds,
    prep_store_data (P := iso_pandas) 1%positive 4 1 (store_of duplicated_sample)
    = (Ok l', h') ∧
    h' !! l' = Some out ∧
    get_column out "ds" = Ok ds ∧
    values ds = [VTime 1438300800000000000; VTime 1438300800000000000] ∧
    ¬ NoDup (values ds).
Proof.
  eexists _, _, _, _. split; [vm_compute; reflexivity|].
  split; [vm_compute; reflexivity|].
  split; [vm_compute; reflexivity|].
  split; [reflexivity|].
  intros Hnd. apply NoDup_cons in Hnd as [Hnin _]. apply Hnin. left.
Qed.

(** C8 on the sample table, for a store it does not contain. *)
Lemma prep_store_data_absent_store_witness :
  store_of rossmann_sample !! 1%positive = Some rossmann_sample ∧
  source_columns rossmann_sample = true ∧
  dates_convert (P := iso_pandas) rossmann_sample = true ∧
  store_absent rossmann_sample 7 = true ∧
  ∃ l' h' out,
    prep_store_data (P := iso_pandas) 1%positive 7 1 (store_of rossmann_sample)
    = (Ok l', h') ∧
    h' !! l' = Some out ∧
    rows out = [].
Proof.
  assert (H1 : store_of rossmann_sample !! 1%positive = Some rossmann_sample)
    by reflexivity.
  assert (H2 : source_columns rossmann_sample = true)
    by (vm_compute; reflexivity).
  assert (H3 : dates_convert (P := iso_pandas) rossmann_sample = true)
    by (vm_compute; reflexivity).
  assert (H4 : store_absent rossmann_sample 7 = true)
    by (vm_compute; reflexivity).
  repeat (split; [assumption|]).
  exact (prep_store_data_absent_store 1%positive 7 1 _ _ H1 H2 H3 H4).
Defined.

(** C8, as stated, fails on tables in which no row belongs to store 7: a
    table whose second date is not a date makes the call raise [ValueError]
    at line 46, and a table without the [Open] column makes it raise
    [KeyError] at line 48.  Neither call returns a table. *)
Lemma prep_store_data_unmatched_store_raises :
  store_absent sample_bad_date 7 = true ∧
  prep_store_data (P := iso_pandas) 1%positive 7 1 (store_of sample_bad_date)
  = (Raise (ValueError "time data does not match format"),
     store_of sample_bad_date) ∧
  store_absent sample_without_open 7 = true ∧
  (prep_store_data (P := iso_pandas) 1%positive 7 1
     (store_of sample_without_open)).1
  = Raise (KeyError "Open").
Proof.
  repeat split; vm_compute; reflexivity.
Qed.

(** C1 on the 400-row series with the fraction 0.8. *)
Lemma train_predict_split_sizes_witness :
  in_unit_interval float_0_8 = true ∧
  ∃ p tr te k s',
    sample_fit = (Ok (p, tr, te, k), s') ∧
    (shape0 tr + shape0 te = shape0 series_400)%nat ∧
    float_floor (float_mul float_0_8 (float_of_Z (Z.of_nat (shape0 series_400))))
      = Some (Z.of_nat (shape0 tr)) ∧
    k = Z.of_nat (shape0 tr) ∧
    shape0 tr = 320%nat ∧ shape0 te = 80%nat.
Proof.
  assert (Hf : in_unit_interval float_0_8 = true) by (vm_compute; reflexivity).
  split; [exact Hf|].
  destruct sample_fit as [[[[[p tr] te] k]|e] s'] eqn:Hrun;
    [|vm_compute in Hrun; discriminate].
  exists p, tr, te, k, s'. split; [reflexivity|].
  destruct (train_predict_split_sizes _ _ _ _ _ _ _ _ _ Hf Hrun)
    as (Hsum & Hfloor & Hk & H400).
  split; [exact Hsum|]. split; [exact Hfloor|]. split; [exact Hk|].
  apply H400; reflexivity.
Defined.

(** C7 on the 400-row series with the fraction 0.8. *)
Lemma train_predict_prefix_suffix_witness :
  ∃ p tr te s',
    sample_fit = (Ok (p, tr, te, 320%Z), s') ∧
    (rows tr ++ rows te)%list = rows series_400 ∧
    rows tr = take 320 (rows series_400) ∧
    rows te = drop 320 (rows series_400).
Proof.
  destruct sample_fit as [[[[[p tr] te] k]|e] s'] eqn:Hrun;
    [|vm_compute in Hrun; discriminate].
  assert (Hk : k = 320%Z).
  { apply train_predict_split in Hrun. vm_compute in Hrun. congruence. }
  subst k. exists p, tr, te, s'. split; [reflexivity|].
  destruct (train_predict_prefix_suffix _ _ _ _ _ _ _ _ _ Hrun)
    as (Happ & _ & _ & Hsplit & _).
  split; [exact Happ|]. apply Hsplit. discriminate.
Defined.

(** C9 when [fit] raises: the run is closed as FAILED. *)
Lemma train_predict_closes_run_witness :
  let '(r, s') :=
    train_predict (L := failing_fit_libraries) series_400 float_0_8
      seasonality_main fresh_env in
  r = Raise (LibraryError "fit") ∧
  active_run_stack (tracker s') = [] ∧
  terminated (tracker s') = [(0%nat, FAILED)].
Proof.
  pose proof (train_predict_closes_run (L := failing_fit_libraries) series_400
                float_0_8 seasonality_main fresh_env) as Hclose.
  destruct (train_predict (L := failing_fit_libraries) series_400 float_0_8
              seasonality_main fresh_env) as [r s'] eqn:Hrun.
  destruct Hclose as [Hstack Hterm]. specialize (Hterm eq_refl).
  assert (Hr : r = Raise (LibraryError "fit"))
    by (vm_compute in Hrun; congruence).
  subst r. split; [reflexivity|]. split; [exact Hstack|exact Hterm].
Defined.

(** C10, as stated, fails for a test slice without a [ds] column: with
    [train_index] unbound the call fails with [KeyError], raised at line 107
    before the name is read. *)
Lemma plot_forecast_key_error_first :
  globals bare_module !! "train_index" = None ∧
  (plot_forecast (G := pandas_plotting) sample_train frame_without_ds
     (naive_forecast sample_test) bare_module).1
  = Raise (KeyError "ds") ∧
  (plot_forecast (G := pandas_plotting) sample_train frame_without_ds
     (naive_forecast sample_test) bare_module).1
  ≠ Raise (NameError "train_index").
Proof.
  split; [reflexivity|].
  assert (Hrun : (plot_forecast (G := pandas_plotting) sample_train
                    frame_without_ds (naive_forecast sample_test)
                    bare_module).1
                 = Raise (KeyError "ds")) by (vm_compute; reflexivity).
  split; [exact Hrun|]. rewrite Hrun. discriminate.
Qed.

(** C10 (amended) on the slices of the 400-row series. *)
Lemma plot_forecast_reads_global_witness :
  (plot_forecast (G := pandas_plotting) sample_train sample_test
     (naive_forecast sample_test) bare_module).1
  = Raise (NameError "train_index") ∧
  (plot_forecast (G := pandas_plotting) sample_train sample_test
     (naive_forecast sample_test) (module_with_index 320)).1
  = Ok tt.
Proof.
  split.
  - destruct (plot_forecast_reads_global (G := pandas_plotting) sample_train
                sample_test (naive_forecast sample_test) bare_module)
      as [Hnone _].
    specialize (Hnone eq_refl).
    destruct (plot_forecast _ _ _ bare_module) as [r env'].
    destruct Hnone as (_ & _ & ->). vm_compute. reflexivity.
  - destruct (plot_forecast_reads_global (G := pandas_plotting) sample_train
                sample_test (naive_forecast sample_test)
                (module_with_index 320)) as [_ Hsome].
    rewrite (Hsome 320%Z eq_refl). vm_compute. reflexivity.
Defined.

(** ** The further properties on the sample inputs *)

(** A decidable statement about concrete tables, by evaluation. *)
Ltac decide_by_evaluation :=
  apply (bool_decide_unpack _); vm_compute; exact I.

(** X6 on the sample table. *)
Lemma prep_store_data_second_call_witness :
  ∃ l' h',
    prep_store_data (P := iso_pandas) 1%positive 4 1 (store_of rossmann_sample)
    = (Ok l', h') ∧
    prep_store_data (P := iso_pandas) 1%positive 4 1 h'
    = (Raise (KeyError "Date"), h') ∧
    prep_store_data (P := iso_pandas) l' 4 1 h'
    = (Raise (KeyError "Date"), h').
Proof.
  destruct (prep_store_data (P := iso_pandas) 1%positive 4 1
              (store_of rossmann_sample)) as [[l'|e] h'] eqn:Hrun;
    [|vm_compute in Hrun; discriminate].
  exists l', h'. split; [reflexivity|].
  exact (prep_store_data_second_call _ _ _ _ _ _ Hrun 4%Z 1%Z).
Defined.

(** X2 on a table without dates. *)
Lemma prep_store_data_missing_date_witness :
  store_of sample_without_date !! 1%positive = Some sample_without_date ∧
  ("Date" ∉ columns sample_without_date) ∧
  prep_store_data (P := iso_pandas) 1%positive 4 1 (store_of sample_without_date)
  = (Raise (KeyError "Date"), store_of sample_without_date).
Proof.
  assert (H1 : store_of sample_without_date !! 1%positive
               = Some sample_without_date) by reflexivity.
  assert (H2 : "Date" ∉ columns sample_without_date)
    by (decide_by_evaluation).
  split; [exact H1|]. split; [exact H2|].
  exact (prep_store_data_missing_date (P := iso_pandas) 1%positive 4 1 _ _ H1 H2).
Defined.

(** X3 on a table whose second date does not parse. *)
Lemma prep_store_data_bad_date_witness :
  to_datetime_scalar (Pandas := iso_pandas) (VStr "yesterday")
  = Raise (ValueError "time data does not match format") ∧
  prep_store_data (P := iso_pandas) 1%positive 4 1 (store_of sample_bad_date)
  = (Raise (ValueError "time data does not match format"),
     store_of sample_bad_date).
Proof.
  assert (Hv : to_datetime_scalar (Pandas := iso_pandas) (VStr "yesterday")
               = Raise (ValueError "time data does not match format"))
    by (vm_compute; reflexivity).
  split; [exact Hv|].
  apply (prep_store_data_bad_date (P := iso_pandas) 1%positive 4 1 _
           sample_bad_date 1 [VStr "2015-07-31"] (VStr "yesterday")
           [VStr "2015-07-29"]).
  - reflexivity.
  - vm_compute. reflexivity.
  - reflexivity.
  - constructor; [vm_compute; reflexivity|constructor].
  - exact Hv.
Defined.

(** X4 on tables without the [Store] column and without the [Open] column. *)
Lemma prep_store_data_missing_store_witness :
  (∃ inp,
     prep_store_data (P := iso_pandas) 1%positive 4 1
       (store_of sample_without_store)
     = (Raise (KeyError "Store"),
        <[1%positive := inp]> (store_of sample_without_store)) ∧
     columns inp = ["ds"; "y"; "Open"]) ∧
  (∃ inp,
     prep_store_data (P := iso_pandas) 1%positive 4 1
       (store_of sample_without_open)
     = (Raise (KeyError "Open"),
        <[1%positive := inp]> (store_of sample_without_open)) ∧
     columns inp = ["Store"; "ds"; "y"]).
Proof.
  split.
  - destruct (prep_store_data_missing_store (P := iso_pandas) 1%positive 4 1
                (store_of sample_without_store) sample_without_store)
      as (i & inp & _ & Hcols & _ & HStore & _);
      [reflexivity|vm_compute; reflexivity|vm_compute; reflexivity|].
    exists inp. split; [|rewrite Hcols; reflexivity].
    apply HStore. decide_by_evaluation.
  - destruct (prep_store_data_missing_store (P := iso_pandas) 1%positive 4 1
                (store_of sample_without_open) sample_without_open)
      as (i & inp & _ & Hcols & _ & _ & HOpen);
      [reflexivity|vm_compute; reflexivity|vm_compute; reflexivity|].
    exists inp. split; [|rewrite Hcols; reflexivity].
    apply HOpen; [vm_compute; reflexivity|].
    decide_by_evaluation.
Defined.

(** X7 on the sample table. *)
Lemma prep_store_data_index_witness :
  ∃ l' h',
    prep_store_data (P := iso_pandas) 1%positive 4 1 (store_of rossmann_sample)
    = (Ok l', h') ∧
    ∃ d out i js jo,
      store_of rossmann_sample !! 1%positive = Some d ∧ h' !! l' = Some out ∧
      col_pos "Date" (columns d) = Ok i ∧
      col_pos "Store" (columns d) = Ok js ∧
      col_pos "Open" (columns d) = Ok jo ∧
      let matching := List.filter (row_matches js jo 4 1) (rows d) in
      shape0 out = length matching ∧
      map label (rows out) ≡ₚ map Z.of_nat (seq 0 (length matching)) ∧
      ∀ r, r ∈ rows out →
        ∃ k r0 v,
          label r = Z.of_nat k ∧ matching !! k = Some r0 ∧
          to_datetime_scalar (Pandas := iso_pandas) (cell_at i r0) = Ok v ∧
          cells r = set_nth i v (cells r0).
Proof.
  destruct (prep_store_data (P := iso_pandas) 1%positive 4 1
              (store_of rossmann_sample)) as [[l'|e] h'] eqn:Hrun;
    [|vm_compute in Hrun; discriminate].
  exists l', h'. split; [reflexivity|].
  exact (prep_store_data_index _ _ _ _ _ _ Hrun).
Defined.

(** X5 on a table that has a [ds] column beside [Date]. *)
Lemma prep_store_data_existing_ds_witness :
  ∃ inp msg,
    prep_store_data (P := iso_pandas) 1%positive 4 1 (store_of sample_with_ds)
    = (Raise (ValueError msg), <[1%positive := inp]> (store_of sample_with_ds)) ∧
    columns inp = ["Store"; "ds"; "y"; "Open"; "ds"].
Proof.
  destruct (prep_store_data_existing_ds (P := iso_pandas) 1%positive 4 1
              (store_of sample_with_ds) sample_with_ds)
    as (i & inp & msg & _ & Hcols & _ & Hrun);
    [reflexivity|vm_compute; reflexivity|vm_compute; reflexivity
    |vm_compute; reflexivity|vm_compute; reflexivity
    |decide_by_evaluation|].
  exists inp, msg. split; [exact Hrun|]. rewrite Hcols. reflexivity.
Defined.

(** X8 on a table without the [Sales] column: the call returns a table
    without [y]. *)
Lemma prep_store_data_y_column_witness :
  ∃ l' h' out,
    prep_store_data (P := iso_pandas) 1%positive 4 1
      (store_of sample_without_sales) = (Ok l', h') ∧
    h' !! l' = Some out ∧ ("y" ∉ columns out).
Proof.
  destruct (prep_store_data (P := iso_pandas) 1%positive 4 1
              (store_of sample_without_sales)) as [[l'|e] h'] eqn:Hrun;
    [|vm_compute in Hrun; discriminate].
  destruct (prep_store_data_y_column _ _ _ _ _ _ Hrun)
    as (d & out & Hd & Hout & Hy).
  exists l', h', out. split; [reflexivity|]. split; [exact Hout|].
  injection Hd as <-. intros Hin. apply Hy in Hin.
  assert (Hno : ¬ ("Sales" ∈ columns sample_without_sales
                   ∨ "y" ∈ columns sample_without_sales))
    by (decide_by_evaluation).
  exact (Hno Hin).
Defined.

(** X11 with run 7 active. *)
Lemma train_predict_inside_run_witness :
  active_run_stack (tracker env_inside_run) ≠ [] ∧
  train_predict (L := naive_libraries) series_400 float_0_8 seasonality_main
    env_inside_run
  = (Raise (MlflowException "a run is already active"), env_inside_run).
Proof.
  assert (H : active_run_stack (tracker env_inside_run) ≠ []) by discriminate.
  split; [exact H|].
  exact (train_predict_inside_run (L := naive_libraries) series_400 float_0_8
           seasonality_main env_inside_run H).
Defined.

(** X12 for a dictionary without [weekly]. *)
Lemma train_predict_missing_key_witness :
  ∃ s',
    train_predict (L := naive_libraries) series_400 float_0_8
      seasonality_without_weekly fresh_env
    = (Raise (KeyError "weekly"), s') ∧
    world s' = world fresh_env ∧ stdout s' = stdout fresh_env ∧
    active_run_stack (tracker s') = [] ∧
    terminated (tracker s')
    = (next_run_id (tracker fresh_env), FAILED) :: terminated (tracker fresh_env).
Proof.
  apply (train_predict_missing_key (L := naive_libraries) series_400 float_0_8
           seasonality_without_weekly "weekly" 1 fresh_env).
  - reflexivity.
  - vm_compute. reflexivity.
  - vm_compute. reflexivity.
Defined.

(** X13 on the 400-row series. *)
Lemma train_predict_output_witness :
  ∃ p tr te k s',
    sample_fit = (Ok (p, tr, te, k), s') ∧
    stdout s' = ["logged model with URI: runs:/0/model"] ∧
    terminated (tracker s') = [(0%nat, FINISHED)].
Proof.
  destruct sample_fit as [[[[[p tr] te] k]|e] s'] eqn:Hrun;
    [|vm_compute in Hrun; discriminate].
  exists p, tr, te, k, s'. split; [reflexivity|].
  destruct (train_predict_output _ _ _ _ _ _ _ _ _ Hrun)
    as (_ & Hout & _ & _ & Hterm).
  split; [exact Hout|exact Hterm].
Defined.

(** X10 on the 400-row series. *)
Lemma split_degenerate_fraction_witness :
  int_to_float (Z.of_nat (shape0 series_400)) = Ok (float_of_Z 400) ∧
  split series_400 (S754_zero false)
  = Ok (Frame (columns series_400) [],
        Frame (columns series_400) (rows series_400), 0%Z) ∧
  split series_400 S754_nan
  = Raise (ValueError "cannot convert float NaN to integer").
Proof.
  assert (Hx : int_to_float (Z.of_nat (shape0 series_400))
               = Ok (float_of_Z 400)) by (vm_compute; reflexivity).
  split; [exact Hx|].
  destruct (split_degenerate_fraction series_400 _ Hx) as [Hzero Hnan].
  split; [exact (Hzero false)|exact Hnan].
Defined.

(** X14 on the sample table, split at the fraction 0.8. *)
Lemma split_of_prepared_is_chronological_witness :
  ∃ l' h' out p tr te k s' i,
    prep_store_data (P := iso_pandas) 1%positive 4 1 (store_of rossmann_sample)
    = (Ok l', h') ∧
    h' !! l' = Some out ∧
    train_predict (L := naive_libraries) out float_0_8 seasonality_main fresh_env
    = (Ok (p, tr, te, k), s') ∧
    col_pos "ds" (columns tr) = Ok i ∧ col_pos "ds" (columns te) = Ok i ∧
    ∀ r1 r2, r1 ∈ rows tr → r2 ∈ rows te →
      key_le (time_key (cell_at i r1)) (time_key (cell_at i r2)).
Proof.
  destruct (prep_store_data (P := iso_pandas) 1%positive 4 1
              (store_of rossmann_sample)) as [[l'|e] h'] eqn:Hrun;
    [|vm_compute in Hrun; discriminate].
  assert (Hout : ∃ out, h' !! l' = Some out).
  { pose proof Hrun as Hc. vm_compute in Hc. injection Hc as <- <-.
    eexists. vm_compute. reflexivity. }
  destruct Hout as [out Hout].
  destruct (train_predict (L := naive_libraries) out float_0_8 seasonality_main
              fresh_env) as [[[[[p tr] te] k]|e] s'] eqn:Htrain.
  - destruct (split_of_prepared_is_chronological _ _ _ _ _ _ _ _ _ _ _ _ _ _ _
                Hrun Hout Htrain) as (i & Htr & Hte & Hle).
    exists l', h', out, p, tr, te, k, s', i.
    split; [reflexivity|]. split; [exact Hout|]. split; [exact Htrain|].
    split; [exact Htr|]. split; [exact Hte|exact Hle].
  - exfalso. pose proof Hrun as Hc. vm_compute in Hc. injection Hc as <- <-.
    vm_compute in Hout. injection Hout as <-. vm_compute in Htrain.
    discriminate.
Defined.

(** X15 on the slices of the 400-row series: the last 100 of the 320
    training rows are drawn. *)
Lemma plot_forecast_history_window_witness :
  globals (module_with_index 320) !! "train_index"
  = Some (PyInt (Z.of_nat (shape0 sample_train))) ∧
  plot_forecast (G := pandas_plotting) sample_train sample_test
    (naive_forecast sample_test) (module_with_index 320)
  = (draw_forecast (G := pandas_plotting) sample_test
       (naive_forecast sample_test) ≫= λ _,
     draw_history (G := pandas_plotting)
       (Frame (columns sample_train) (drop 220 (rows sample_train))))
      (module_with_index 320).
Proof.
  assert (Hv : globals (module_with_index 320) !! "train_index"
               = Some (PyInt (Z.of_nat (shape0 sample_train))))
    by (vm_compute; reflexivity).
  split; [exact Hv|].
  destruct (plot_forecast_history_window (G := pandas_plotting) sample_train
              sample_test (naive_forecast sample_test) (module_with_index 320)
              Hv) as [Hrun _].
  exact Hrun.
Defined.

(** X1 on the sample table. *)
Lemma prep_store_data_returns_iff_witness :
  store_of rossmann_sample !! 1%positive = Some rossmann_sample ∧
  NoDup (columns rossmann_sample) ∧
  ((∃ l' h',
      prep_store_data (P := iso_pandas) 1%positive 4 1
        (store_of rossmann_sample) = (Ok l', h')) ↔
   ("Date" ∈ columns rossmann_sample ∧ "Store" ∈ columns rossmann_sample ∧
    "Open" ∈ columns rossmann_sample ∧ "ds" ∉ columns rossmann_sample) ∧
   dates_convert (P := iso_pandas) rossmann_sample = true).
Proof.
  assert (H1 : store_of rossmann_sample !! 1%positive = Some rossmann_sample)
    by reflexivity.
  assert (H2 : NoDup (columns rossmann_sample)) by decide_by_evaluation.
  split; [exact H1|]. split; [exact H2|].
  exact (prep_store_data_returns_iff (P := iso_pandas) 1%positive 4 1 _ _
           H1 H2).
Defined.

(** X9 on the 400-row series. *)
Lemma split_succeeds_witness :
  in_unit_interval float_0_8 = true ∧
  is_ok (int_to_float (Z.of_nat (shape0 series_400))) = true ∧
  ∃ tr te k,
    split series_400 float_0_8 = Ok (tr, te, k) ∧
    (0 ≤ k ≤ Z.of_nat (shape0 series_400))%Z ∧
    shape0 tr = Z.to_nat k ∧
    shape0 te = (shape0 series_400 - Z.to_nat k)%nat.
Proof.
  assert (H1 : in_unit_interval float_0_8 = true) by (vm_compute; reflexivity).
  assert (H2 : is_ok (int_to_float (Z.of_nat (shape0 series_400))) = true)
    by (vm_compute; reflexivity).
  split; [exact H1|]. split; [exact H2|].
  exact (split_succeeds series_400 float_0_8 H1 H2).
Defined.

(** X16 on the slices of the 400-row series: the call returns and the image
    is the one file on disk. *)
Lemma plot_forecast_writes_on_success_witness :
  let '(r, env') :=
    plot_forecast (G := pandas_plotting) sample_train sample_test
      (naive_forecast sample_test) (module_with_index 320) in
  r = Ok tt ∧ globals env' = globals (module_with_index 320) ∧
  files env' = {[ "store_data_forecast.png" := axes env' ]}.
Proof.
  pose proof (plot_forecast_writes_on_success (G := pandas_plotting)
                sample_train sample_test (naive_forecast sample_test)
                (module_with_index 320)) as Hw.
  destruct (plot_forecast (G := pandas_plotting) sample_train sample_test
              (naive_forecast sample_test) (module_with_index 320))
    as [r env'] eqn:Hrun.
  destruct Hw as [Hg Hf].
  assert (Hr : r = Ok tt) by (vm_compute in Hrun; congruence).
  subst r. split; [reflexivity|]. split; [exact Hg|exact Hf].
Defined.

(** X17 on two prepared rows: the line is drawn and labelled, the axes are
    named and the image is written. *)
Lemma plot_store_data_effects_witness :
  let '(r, env') :=
    plot_store_data (G := pandas_plotting) (GL := line_legends)
      prepared_sample fresh_pyplot in
  r = Ok tt ∧ rc_params env' = {[ "font.size" := 22%Z ]} ∧
  files (figure env') !! "store_data.png"
  = Some [ Line "Truth"
             [VTime 1438214400000000000; VTime 1438300800000000000]
             [VInt 300; VInt 100];
           AxisLabel "x" "Date"; AxisLabel "y" "Sales"; TickLabels ].
Proof.
  pose proof (plot_store_data_effects (G := pandas_plotting)
                (GL := line_legends) prepared_sample fresh_pyplot) as Hw.
  destruct (plot_store_data (G := pandas_plotting) (GL := line_legends)
              prepared_sample fresh_pyplot) as [r env'] eqn:Hrun.
  destruct Hw as (Hrc & _ & Hf).
  assert (Hc : r = Ok tt ∧
               axes (figure env')
               = [ Line "Truth"
                     [VTime 1438214400000000000; VTime 1438300800000000000]
                     [VInt 300; VInt 100];
                   AxisLabel "x" "Date"; AxisLabel "y" "Sales"; TickLabels ]).
  { vm_compute in Hrun. injection Hrun as <- <-. split; reflexivity. }
  destruct Hc as [-> Hax]. split; [reflexivity|]. split; [exact Hrc|].
  rewrite Hf, Hax. apply lookup_insert_eq.
Defined.

(** X18 on the sample script: the table is downloaded, prepared and
    split, and the forecast is drawn. *)
Lemma main_plots_training_tail_witness :
  ∃ p tr te s1,
    main_fit (P := iso_pandas) (L := naive_libraries)
      (K := disk_platform rossmann_sample) fresh_script = (Ok (p, tr, te), s1) ∧
    globals (pyplot s1) !! "train_index" = Some (PyInt (Z.of_nat (shape0 tr))) ∧
    main (P := iso_pandas) (G := pandas_plotting) (L := naive_libraries)
      (K := disk_platform rossmann_sample) fresh_script
    = on_pyplot
        (draw_forecast (G := pandas_plotting) te p ≫= λ _,
         draw_history (G := pandas_plotting)
           (Frame (columns tr) (drop (history_start (shape0 tr)) (rows tr))))
        s1.
Proof.
  destruct (main_fit (P := iso_pandas) (L := naive_libraries)
              (K := disk_platform rossmann_sample) fresh_script) as [[[[p tr] te]|e] s1] eqn:Hfit;
    [|vm_compute in Hfit; discriminate].
  exists p, tr, te, s1. split; [reflexivity|].
  exact (main_plots_training_tail (P := iso_pandas) (G := pandas_plotting)
           (L := naive_libraries) (K := disk_platform rossmann_sample)
           fresh_script p tr te s1 Hfit).
Defined.
